(** * TripCraft backend: the synchronisation endpoint [app/api/sync.py]

    A shallow embedding of [_parse_timestamp], [_should_update], the
    [_serialize_*] functions and the request handler [sync_data], together
    with the table models of [app/models/trip.py] they operate on.

    Conventions of the embedding.
    - Python exceptions are values of [exn]; a computation that may raise
      returns a [result].  The handler body runs in a state-and-exception
      monad [M] whose state (the session's rows, the response counters and
      the local [conflicts] list) survives an exception, exactly as the
      attributes assigned before a [raise] survive a [try/except].
    - The persistence engine is a record store: one finite map per table,
      keyed by primary key; [session.get], [session.add] and
      [session.delete] act on it at once and [session.commit] is the
      identity.  The foreign keys are declared [ondelete="CASCADE"], so a
      delete removes the rows hanging off the deleted one.
    - The interpreter's library ([datetime.fromisoformat],
      [datetime.strptime], [uuid.UUID]) is a parameter, the class [PyLib];
      [cpython] is a reference instance that covers the canonical textual
      forms and is used to evaluate the handler on concrete requests.
    - The clock is read once per call: every [datetime.utcnow()] of a
      call returns its parameter [now].
    - What the engine refuses (an id that is not a UUID, a value that
      does not fit its column) and how it treats timestamps with a zone
      is not part of the store; the predicates [accepted], [plain_stamp]
      and [naive_store] delimit the requests and stores on which the two
      agree, and the statements that depend on it carry them as
      hypotheses. *)

From Stdlib Require Import ZArith Ascii String List Lia Bool.
From stdpp Require Import gmap strings list fin_maps.

Local Open Scope string_scope.
Local Open Scope Z_scope.

(** ** Exceptions and results *)

Inductive exn : Type :=
| ValueError      (* malformed literal, assignment to an undeclared field *)
| TypeError       (* comparison of a naive with an aware datetime *)
| AttributeError. (* read of an attribute the class does not declare *)

Inductive result (A : Type) : Type :=
| Ok (a : A)
| Raise (e : exn).
Arguments Ok {A} a.
Arguments Raise {A} e.

Definition of_option {A} (e : exn) (o : option A) : result A :=
  match o with Some a => Ok a | None => Raise e end.

(** ** Strings *)

Module Str.

Fixpoint contains (c : ascii) (s : string) : bool :=
  match s with
  | EmptyString => false
  | String a s' => if Ascii.eqb a c then true else contains c s'
  end.

(** [s.endswith(c)] for a one-character suffix. *)
Fixpoint endswith (c : ascii) (s : string) : bool :=
  match s with
  | EmptyString => false
  | String a EmptyString => Ascii.eqb a c
  | String _ s' => endswith c s'
  end.

(** [s.replace(c, r)]: every occurrence of the character is replaced. *)
Fixpoint replace (c : ascii) (r : string) (s : string) : string :=
  match s with
  | EmptyString => EmptyString
  | String a s' =>
      if Ascii.eqb a c then r ++ replace c r s' else String a (replace c r s')
  end.

(** Python truthiness of a [str]. *)
Definition truthy (s : string) : bool :=
  match s with EmptyString => false | _ => true end.

Definition is_digit (a : ascii) : bool :=
  let n := Z.of_nat (nat_of_ascii a) in (48 <=? n) && (n <=? 57).

Definition digit_val (a : ascii) : Z := Z.of_nat (nat_of_ascii a) - 48.

(** A non-empty run of decimal digits, read as a number. *)
Fixpoint digits_acc (acc : Z) (l : list ascii) : option Z :=
  match l with
  | [] => Some acc
  | a :: l' => if is_digit a then digits_acc (acc * 10 + digit_val a) l' else None
  end.

Definition number (l : list ascii) : option Z :=
  match l with [] => None | _ => digits_acc 0 l end.

Definition digit_char (d : Z) : ascii := ascii_of_nat (Z.to_nat (48 + d mod 10)).

(** [n] written with exactly [w] decimal digits (the low ones). *)
Fixpoint zpad (w : nat) (n : Z) : string :=
  match w with
  | O => EmptyString
  | S w' => zpad w' (n / 10) ++ String (digit_char n) EmptyString
  end.

Definition hex_val (a : ascii) : option Z :=
  let n := Z.of_nat (nat_of_ascii a) in
  if (48 <=? n) && (n <=? 57) then Some (n - 48)
  else if (97 <=? n) && (n <=? 102) then Some (n - 87)
  else if (65 <=? n) && (n <=? 70) then Some (n - 55)
  else None.

Fixpoint hex_acc (acc : Z) (l : list ascii) : option Z :=
  match l with
  | [] => Some acc
  | a :: l' =>
      match hex_val a with
      | Some d => hex_acc (acc * 16 + d) l'
      | None => None
      end
  end.

Definition hex_char (d : Z) : ascii :=
  let d := d mod 16 in
  ascii_of_nat (Z.to_nat (if d <? 10 then 48 + d else 87 + d)).

Fixpoint hexpad (w : nat) (n : Z) : string :=
  match w with
  | O => EmptyString
  | S w' => hexpad w' (n / 16) ++ String (hex_char n) EmptyString
  end.

End Str.

(** ** [datetime] *)

(** A [datetime.datetime]: the civil fields and the attached zone, given by
    its UTC offset in microseconds; [None] is a naive value. *)
Record datetime : Type := mk_datetime {
  dt_year : Z; dt_month : Z; dt_day : Z;
  dt_hour : Z; dt_minute : Z; dt_second : Z; dt_microsecond : Z;
  dt_tzinfo : option Z
}.

Module Datetime.

Definition is_leap (y : Z) : bool :=
  (y mod 4 =? 0) && (negb (y mod 100 =? 0) || (y mod 400 =? 0)).

Definition days_before_year (y : Z) : Z :=
  let p := y - 1 in p * 365 + p / 4 - p / 100 + p / 400.

Definition days_in_month (y m : Z) : Z :=
  match m with
  | 2 => if is_leap y then 29 else 28
  | 4 | 6 | 9 | 11 => 30
  | _ => 31
  end.

Definition days_before_month (y m : Z) : Z :=
  match m with
  | 1 => 0 | 2 => 31 | 3 => 59 | 4 => 90 | 5 => 120 | 6 => 151
  | 7 => 181 | 8 => 212 | 9 => 243 | 10 => 273 | 11 => 304 | _ => 334
  end + (if (2 <? m) && is_leap y then 1 else 0).

Definition ymd2ord (y m d : Z) : Z :=
  days_before_year y + days_before_month y m + d.

(** Microseconds of the civil fields, the zone left aside. *)
Definition wall (d : datetime) : Z :=
  (((ymd2ord (dt_year d) (dt_month d) (dt_day d) * 24 + dt_hour d) * 60
    + dt_minute d) * 60 + dt_second d) * 1000000 + dt_microsecond d.

(** [a > b] as [datetime.__gt__] computes it: two naive values, or two
    aware ones, are ordered; a naive and an aware one are not comparable. *)
Definition gt (a b : datetime) : result bool :=
  match dt_tzinfo a, dt_tzinfo b with
  | None, None => Ok (wall b <? wall a)
  | Some oa, Some ob => Ok (wall b - ob <? wall a - oa)
  | _, _ => Raise TypeError
  end.

Definition valid (d : datetime) : bool :=
  (1 <=? dt_year d) && (dt_year d <=? 9999)
  && (1 <=? dt_month d) && (dt_month d <=? 12)
  && (1 <=? dt_day d) && (dt_day d <=? days_in_month (dt_year d) (dt_month d))
  && (0 <=? dt_hour d) && (dt_hour d <? 24)
  && (0 <=? dt_minute d) && (dt_minute d <? 60)
  && (0 <=? dt_second d) && (dt_second d <? 60)
  && (0 <=? dt_microsecond d) && (dt_microsecond d <? 1000000).

Definition format_offset (off : Z) : string :=
  let sign := if off <? 0 then "-" else "+" in
  let a := Z.abs off in
  let hh := a / 3600000000 in
  let mm := (a / 60000000) mod 60 in
  let ss := (a / 1000000) mod 60 in
  let us := a mod 1000000 in
  sign ++ Str.zpad 2 hh ++ ":" ++ Str.zpad 2 mm
    ++ (if (ss =? 0) && (us =? 0) then EmptyString
        else ":" ++ Str.zpad 2 ss
              ++ (if us =? 0 then EmptyString else "." ++ Str.zpad 6 us)).

(** [d.isoformat()]. *)
Definition isoformat (d : datetime) : string :=
  Str.zpad 4 (dt_year d) ++ "-" ++ Str.zpad 2 (dt_month d) ++ "-"
    ++ Str.zpad 2 (dt_day d) ++ "T" ++ Str.zpad 2 (dt_hour d) ++ ":"
    ++ Str.zpad 2 (dt_minute d) ++ ":" ++ Str.zpad 2 (dt_second d)
    ++ (if dt_microsecond d =? 0 then EmptyString else "." ++ Str.zpad 6 (dt_microsecond d))
    ++ match dt_tzinfo d with None => EmptyString | Some off => format_offset off end.

(** [d.strftime("%Y-%m-%d")]. *)
Definition strftime_ymd (d : datetime) : string :=
  Str.zpad 4 (dt_year d) ++ "-" ++ Str.zpad 2 (dt_month d) ++ "-"
    ++ Str.zpad 2 (dt_day d).

End Datetime.

(** ** The interpreter's library *)

(** Primary keys are 128-bit UUIDs. *)
Abbreviation uuid := N (only parsing).

Class PyLib : Type := {
  (** [datetime.fromisoformat(s)]; [None] when it raises. *)
  fromisoformat : string -> option datetime;
  (** [datetime.strptime(s, "%Y-%m-%d %H:%M:%S")]; [None] when it raises. *)
  strptime : string -> option datetime;
  (** [uuid.UUID(s)]; [None] when it raises [ValueError]. *)
  UUID : string -> option uuid
}.

(** ** [_parse_timestamp] and [_should_update] *)

Section Policy.
Context `{PyLib}.

(** [now] is the value of [datetime.utcnow()] in the [except] branch. *)
Definition _parse_timestamp (now : datetime) (ts_str : string) : datetime :=
  let parsed :=
    if Str.contains "T"%char ts_str then
      if Str.endswith "Z"%char ts_str then
        fromisoformat (Str.replace "Z"%char "+00:00" ts_str)
      else fromisoformat ts_str
    else strptime ts_str in
  match parsed with
  | Some d => d
  | None => now
  end.

Definition _should_update (now : datetime) (client_timestamp : string)
    (server_timestamp : option datetime) (strategy : string) : result bool :=
  match server_timestamp with
  | None => Ok true
  | Some server_dt =>
      let client_dt := _parse_timestamp now client_timestamp in
      if String.eqb strategy "client_wins" then Ok true
      else if String.eqb strategy "server_wins" then Ok false
      else if String.eqb strategy "newer_wins" then Datetime.gt client_dt server_dt
      else if String.eqb strategy "merge" then Datetime.gt client_dt server_dt
      else Ok false
  end.

End Policy.

(** ** Table models ([app/models/trip.py]) *)

(** A Python [float], by its IEEE-754 binary64 bit pattern. *)
Abbreviation float := Z (only parsing).

Module Float.
Definition zero : float := 0.
Definition neg_zero : float := 2 ^ 63.
(** Truthiness: [x != 0.0]; both zeros are falsy. *)
Definition truthy (x : float) : bool := negb ((x =? zero) || (x =? neg_zero)).
End Float.

(** A JSON object ([Dict[str, Any]]), values kept in serialised form. *)
Abbreviation json_object := (list (string * string)) (only parsing).

(** The rows.  The primary key [id] is the key of the table's map; a row
    holds the remaining columns.  A column is optional here when the class
    declares it [Optional] or when [sync_data] can store [None] in it. *)

Record Trip : Type := mk_Trip {
  trip_user_id : uuid;
  trip_title : string;
  trip_destination : string;
  trip_start_date : string;
  trip_end_date : string;
  trip_budget : option float;
  trip_budget_tier : option string;
  trip_travel_style : option string;
  trip_interests : option (list string);
  trip_special_requirements : option string;
  trip_is_generated : bool;
  trip_created_at : datetime;
  trip_updated_at : datetime;
  trip_server_id : option uuid;
  trip_is_synced : bool;
  trip_local_updated_at : datetime
}.

Record Day : Type := mk_Day {
  day_trip_id : uuid;
  day_day_number : Z;
  day_date : string;
  day_title : option string;
  day_created_at : datetime;
  day_server_id : option uuid;
  day_is_synced : bool;
  day_local_updated_at : datetime
}.

Record Activity : Type := mk_Activity {
  act_day_id : uuid;
  act_time : option string;
  act_title : string;
  act_description : option string;
  act_location : option string;
  act_estimated_cost : option float;
  act_notes : option string;
  act_is_completed : bool;
  act_created_at : datetime;
  act_server_id : option uuid;
  act_is_synced : bool;
  act_local_updated_at : datetime
}.

Record BudgetItem : Type := mk_BudgetItem {
  item_trip_id : uuid;
  item_category : string;
  item_amount : float;
  item_note : option string;
  item_created_at : datetime;
  item_server_id : option uuid;
  item_is_synced : bool;
  item_local_updated_at : datetime
}.

Record Note : Type := mk_Note {
  note_trip_id : uuid;
  note_content : string;
  note_created_at : datetime;
  note_server_id : option uuid;
  note_is_synced : bool;
  note_local_updated_at : datetime
}.

(** Attribute assignment, one function per attribute [sync_data] assigns. *)

Definition set_trip_title v (t : Trip) : Trip :=
  let 'mk_Trip a _ c d e f g h i j k l m n o p := t in mk_Trip a v c d e f g h i j k l m n o p.
Definition set_trip_destination v (t : Trip) : Trip :=
  let 'mk_Trip a b _ d e f g h i j k l m n o p := t in mk_Trip a b v d e f g h i j k l m n o p.
Definition set_trip_start_date v (t : Trip) : Trip :=
  let 'mk_Trip a b c _ e f g h i j k l m n o p := t in mk_Trip a b c v e f g h i j k l m n o p.
Definition set_trip_end_date v (t : Trip) : Trip :=
  let 'mk_Trip a b c d _ f g h i j k l m n o p := t in mk_Trip a b c d v f g h i j k l m n o p.
Definition set_trip_budget v (t : Trip) : Trip :=
  let 'mk_Trip a b c d e _ g h i j k l m n o p := t in mk_Trip a b c d e (Some v) g h i j k l m n o p.
Definition set_trip_is_generated v (t : Trip) : Trip :=
  let 'mk_Trip a b c d e f g h i j _ l m n o p := t in mk_Trip a b c d e f g h i j v l m n o p.
Definition set_trip_is_synced v (t : Trip) : Trip :=
  let 'mk_Trip a b c d e f g h i j k l m n _ p := t in mk_Trip a b c d e f g h i j k l m n v p.
Definition set_trip_local_updated_at v (t : Trip) : Trip :=
  let 'mk_Trip a b c d e f g h i j k l m n o _ := t in mk_Trip a b c d e f g h i j k l m n o v.

Definition set_day_day_number v (d : Day) : Day :=
  let 'mk_Day a _ c e f g h i := d in mk_Day a v c e f g h i.
Definition set_day_date v (d : Day) : Day :=
  let 'mk_Day a b _ e f g h i := d in mk_Day a b v e f g h i.
Definition set_day_title v (d : Day) : Day :=
  let 'mk_Day a b c _ f g h i := d in mk_Day a b c (Some v) f g h i.
Definition set_day_is_synced v (d : Day) : Day :=
  let 'mk_Day a b c e f g _ i := d in mk_Day a b c e f g v i.
Definition set_day_local_updated_at v (d : Day) : Day :=
  let 'mk_Day a b c e f g h _ := d in mk_Day a b c e f g h v.

Definition set_act_time v (x : Activity) : Activity :=
  let 'mk_Activity a _ c d e f g h i j k l := x in mk_Activity a (Some v) c d e f g h i j k l.
Definition set_act_title v (x : Activity) : Activity :=
  let 'mk_Activity a b _ d e f g h i j k l := x in mk_Activity a b v d e f g h i j k l.
Definition set_act_description v (x : Activity) : Activity :=
  let 'mk_Activity a b c _ e f g h i j k l := x in mk_Activity a b c (Some v) e f g h i j k l.
Definition set_act_location v (x : Activity) : Activity :=
  let 'mk_Activity a b c d _ f g h i j k l := x in mk_Activity a b c d (Some v) f g h i j k l.
Definition set_act_estimated_cost v (x : Activity) : Activity :=
  let 'mk_Activity a b c d e _ g h i j k l := x in mk_Activity a b c d e (Some v) g h i j k l.
Definition set_act_notes v (x : Activity) : Activity :=
  let 'mk_Activity a b c d e f _ h i j k l := x in mk_Activity a b c d e f (Some v) h i j k l.
Definition set_act_is_completed v (x : Activity) : Activity :=
  let 'mk_Activity a b c d e f g _ i j k l := x in mk_Activity a b c d e f g v i j k l.
Definition set_act_is_synced v (x : Activity) : Activity :=
  let 'mk_Activity a b c d e f g h i j _ l := x in mk_Activity a b c d e f g h i j v l.
Definition set_act_local_updated_at v (x : Activity) : Activity :=
  let 'mk_Activity a b c d e f g h i j k _ := x in mk_Activity a b c d e f g h i j k v.

Definition set_item_category v (x : BudgetItem) : BudgetItem :=
  let 'mk_BudgetItem a _ c d e f g h := x in mk_BudgetItem a v c d e f g h.
Definition set_item_amount v (x : BudgetItem) : BudgetItem :=
  let 'mk_BudgetItem a b _ d e f g h := x in mk_BudgetItem a b v d e f g h.
Definition set_item_note v (x : BudgetItem) : BudgetItem :=
  let 'mk_BudgetItem a b c _ e f g h := x in mk_BudgetItem a b c (Some v) e f g h.
Definition set_item_is_synced v (x : BudgetItem) : BudgetItem :=
  let 'mk_BudgetItem a b c d e f _ h := x in mk_BudgetItem a b c d e f v h.
Definition set_item_local_updated_at v (x : BudgetItem) : BudgetItem :=
  let 'mk_BudgetItem a b c d e f g _ := x in mk_BudgetItem a b c d e f g v.

Definition set_note_content v (x : Note) : Note :=
  let 'mk_Note a _ c d e f := x in mk_Note a v c d e f.
Definition set_note_is_synced v (x : Note) : Note :=
  let 'mk_Note a b c d _ f := x in mk_Note a b c d v f.
Definition set_note_local_updated_at v (x : Note) : Note :=
  let 'mk_Note a b c d e _ := x in mk_Note a b c d e v.

(** [if value is not None: obj.attr = value]. *)
Definition assign_if {A T} (value : option A) (set : A -> T -> T) (obj : T) : T :=
  match value with
  | Some v => set v obj
  | None => obj
  end.

(** [value or default], for each type the handler uses it at. *)
Definition str_or (value : option string) (default : string) : string :=
  match value with
  | Some s => if Str.truthy s then s else default
  | None => default
  end.

Definition int_or (value : option Z) (default : Z) : Z :=
  match value with
  | Some n => if n =? 0 then default else n
  | None => default
  end.

Definition float_or (value : option float) (default : float) : float :=
  match value with
  | Some x => if Float.truthy x then x else default
  | None => default
  end.

Definition bool_or (value : option bool) (default : bool) : bool :=
  match value with
  | Some b => if b then b else default
  | None => default
  end.

Definition dict_or (value : option json_object) (default : json_object) : json_object :=
  match value with
  | Some (_ :: _ as d) => d
  | _ => default
  end.

(** ** Request and response schemas ([app/api/sync.py]) *)

Record TripSyncData : Type := mk_TripSyncData {
  tsd_id : string;
  tsd_local_updated_at : string;
  tsd_is_deleted : bool;
  tsd_title : option string;
  tsd_destination : option string;
  tsd_start_date : option string;
  tsd_end_date : option string;
  tsd_budget : option float;
  tsd_preferences : option json_object;
  tsd_is_generated : option bool
}.

Record DaySyncData : Type := mk_DaySyncData {
  dsd_id : string;
  dsd_local_updated_at : string;
  dsd_is_deleted : bool;
  dsd_trip_id : string;
  dsd_day_number : option Z;
  dsd_date : option string;
  dsd_title : option string
}.

Record ActivitySyncData : Type := mk_ActivitySyncData {
  asd_id : string;
  asd_local_updated_at : string;
  asd_is_deleted : bool;
  asd_day_id : string;
  asd_time : option string;
  asd_title : option string;
  asd_description : option string;
  asd_location : option string;
  asd_estimated_cost : option float;
  asd_notes : option string;
  asd_is_completed : option bool
}.

Record BudgetItemSyncData : Type := mk_BudgetItemSyncData {
  bsd_id : string;
  bsd_local_updated_at : string;
  bsd_is_deleted : bool;
  bsd_trip_id : string;
  bsd_category : option string;
  bsd_amount : option float;
  bsd_note : option string
}.

Record NoteSyncData : Type := mk_NoteSyncData {
  nsd_id : string;
  nsd_local_updated_at : string;
  nsd_is_deleted : bool;
  nsd_trip_id : string;
  nsd_content : option string
}.

(** [Literal["server_wins", "client_wins", "newer_wins", "merge"]]. *)
Inductive Strategy : Type := server_wins | client_wins | newer_wins | merge.

Definition strategy_str (s : Strategy) : string :=
  match s with
  | server_wins => "server_wins"
  | client_wins => "client_wins"
  | newer_wins => "newer_wins"
  | merge => "merge"
  end.

Record SyncRequest : Type := mk_SyncRequest {
  last_sync_at : option string;
  conflict_resolution : Strategy;
  req_trips : list TripSyncData;
  req_days : list DaySyncData;
  req_activities : list ActivitySyncData;
  req_budget_items : list BudgetItemSyncData;
  req_notes : list NoteSyncData
}.

Record SyncConflict : Type := mk_SyncConflict {
  entity_type : string;
  entity_id : string;
  client_updated_at : string;
  server_updated_at : string;
  resolution : string
}.

(** The dictionaries the [_serialize_*] functions build. *)

Record TripWire : Type := mk_TripWire {
  tw_id : string; tw_title : string; tw_destination : string;
  tw_start_date : string; tw_end_date : string; tw_budget : option float;
  tw_preferences : json_object; tw_is_generated : bool;
  tw_server_id : option uuid; tw_is_synced : bool;
  tw_local_updated_at : option string; tw_created_at : option string
}.

Record DayWire : Type := mk_DayWire {
  dw_id : string; dw_trip_id : string; dw_day_number : Z; dw_date : string;
  dw_title : option string; dw_server_id : option uuid; dw_is_synced : bool;
  dw_local_updated_at : option string
}.

Record ActivityWire : Type := mk_ActivityWire {
  aw_id : string; aw_day_id : string; aw_time : option string; aw_title : string;
  aw_description : option string; aw_location : option string;
  aw_estimated_cost : option float; aw_notes : option string;
  aw_is_completed : bool; aw_server_id : option uuid; aw_is_synced : bool;
  aw_local_updated_at : option string
}.

Record BudgetItemWire : Type := mk_BudgetItemWire {
  bw_id : string; bw_trip_id : string; bw_category : string; bw_amount : float;
  bw_note : option string; bw_server_id : option uuid; bw_is_synced : bool;
  bw_local_updated_at : option string
}.

Record NoteWire : Type := mk_NoteWire {
  nw_id : string; nw_trip_id : string; nw_content : string;
  nw_server_id : option uuid; nw_is_synced : bool;
  nw_local_updated_at : option string; nw_created_at : option string
}.

Record ServerData : Type := mk_ServerData {
  sd_trips : list TripWire;
  sd_days : list DayWire;
  sd_activities : list ActivityWire;
  sd_budget_items : list BudgetItemWire;
  sd_notes : list NoteWire
}.

Record SyncResponse : Type := mk_SyncResponse {
  sync_timestamp : string;
  trips_uploaded : Z;
  trips_downloaded : Z;
  days_uploaded : Z;
  days_downloaded : Z;
  activities_uploaded : Z;
  activities_downloaded : Z;
  budget_items_uploaded : Z;
  budget_items_downloaded : Z;
  notes_uploaded : Z;
  notes_downloaded : Z;
  conflicts_resolved : Z;
  conflicts : list SyncConflict;
  server_data : ServerData
}.

(** ** The record store *)

Record Store : Type := mk_Store {
  trips : gmap uuid Trip;
  days : gmap uuid Day;
  activities : gmap uuid Activity;
  budget_items : gmap uuid BudgetItem;
  notes : gmap uuid Note
}.

(** The operations of the session on the store.  A write or a removal is
    visible to the next lookup of the same call (the session flushes
    before it queries), and nothing is undone when a loop body raises. *)
Module Session.

(** [session.add(row)]: the row is stored under its key. *)
Definition add_trip (k : uuid) (t : Trip) (s : Store) : Store :=
  mk_Store (<[k := t]> (trips s)) (days s) (activities s) (budget_items s) (notes s).
Definition add_day (k : uuid) (d : Day) (s : Store) : Store :=
  mk_Store (trips s) (<[k := d]> (days s)) (activities s) (budget_items s) (notes s).
Definition add_activity (k : uuid) (a : Activity) (s : Store) : Store :=
  mk_Store (trips s) (days s) (<[k := a]> (activities s)) (budget_items s) (notes s).
Definition add_budget_item (k : uuid) (b : BudgetItem) (s : Store) : Store :=
  mk_Store (trips s) (days s) (activities s) (<[k := b]> (budget_items s)) (notes s).
Definition add_note (k : uuid) (n : Note) (s : Store) : Store :=
  mk_Store (trips s) (days s) (activities s) (budget_items s) (<[k := n]> (notes s)).

(** An activity survives the removal of trip [k] unless its day hangs
    off that trip. *)
Definition activity_outside (ds : gmap uuid Day) (k : uuid) (a : Activity) : bool :=
  match ds !! act_day_id a with
  | Some d => negb (N.eqb (day_trip_id d) k)
  | None => true
  end.

(** [session.delete(trip)]: the row and, through the cascading foreign
    keys, its days, their activities, its budget items and its notes. *)
Definition delete_trip (k : uuid) (s : Store) : Store :=
  mk_Store
    (delete k (trips s))
    (filter (fun kv : uuid * Day => day_trip_id kv.2 ≠ k) (days s))
    (filter (fun kv : uuid * Activity => activity_outside (days s) k kv.2 = true)
            (activities s))
    (filter (fun kv : uuid * BudgetItem => item_trip_id kv.2 ≠ k) (budget_items s))
    (filter (fun kv : uuid * Note => note_trip_id kv.2 ≠ k) (notes s)).

(** [session.delete(day)]: the row and its activities. *)
Definition delete_day (k : uuid) (s : Store) : Store :=
  mk_Store (trips s) (delete k (days s))
    (filter (fun kv : uuid * Activity => act_day_id kv.2 ≠ k) (activities s))
    (budget_items s) (notes s).

Definition delete_activity (k : uuid) (s : Store) : Store :=
  mk_Store (trips s) (days s) (delete k (activities s)) (budget_items s) (notes s).
Definition delete_budget_item (k : uuid) (s : Store) : Store :=
  mk_Store (trips s) (days s) (activities s) (delete k (budget_items s)) (notes s).
Definition delete_note (k : uuid) (s : Store) : Store :=
  mk_Store (trips s) (days s) (activities s) (budget_items s) (delete k (notes s)).

(** The comparison of a [where] clause on a timestamp column: the column
    carries no zone, so the engine orders the civil fields. *)
Definition sql_gt (column value : datetime) : bool :=
  Datetime.wall value <? Datetime.wall column.

(** [session.exec(select(Model).where(...)).all()]: the rows, with their
    keys, that satisfy the clause. *)
Definition select {R} (where_ : uuid * R -> bool) (table : gmap uuid R) : list (uuid * R) :=
  List.filter where_ (map_to_list table).

End Session.

(** ** The handler's state and its monad *)

(** What the body of [sync_data] reads and writes: the session, the
    [response] under construction and the local list [conflicts]. *)
Record HState : Type := mk_HState {
  h_session : Store;
  h_response : SyncResponse;
  h_conflicts : list SyncConflict
}.

Definition M (A : Type) : Type := HState -> result A * HState.

Definition ret {A} (a : A) : M A := fun h => (Ok a, h).

Definition bind {A B} (m : M A) (f : A -> M B) : M B :=
  fun h =>
    match m h with
    | (Ok a, h') => f a h'
    | (Raise e, h') => (Raise e, h')
    end.

Definition raise {A} (e : exn) : M A := fun h => (Raise e, h).

Definition lift {A} (r : result A) : M A := fun h => (r, h).

Declare Scope py_scope.
Delimit Scope py_scope with py.
Notation "'let*' x ':=' m 'in' k" := (bind m (fun x => k))
  (at level 10, x name, m at level 100, k at level 200) : py_scope.
Notation "m '>>' k" := (bind m (fun _ => k))
  (at level 100, k at level 200, right associativity) : py_scope.
Local Open Scope py_scope.

Definition get_session : M Store := fun h => (Ok (h_session h), h).

Definition modify_session (f : Store -> Store) : M unit :=
  fun h => (Ok tt, mk_HState (f (h_session h)) (h_response h) (h_conflicts h)).

Definition modify_response (f : SyncResponse -> SyncResponse) : M unit :=
  fun h => (Ok tt, mk_HState (h_session h) (f (h_response h)) (h_conflicts h)).

(** [conflicts.append(c)]. *)
Definition append_conflict (c : SyncConflict) : M unit :=
  fun h => (Ok tt, mk_HState (h_session h) (h_response h) (h_conflicts h ++ [c])).

(** [try: body  except Exception: continue]: what the body did before it
    raised stays done. *)
Definition try_continue (body : M unit) (h : HState) : HState := (body h).2.

(** [for x in xs: try: body(x)  except Exception: continue]. *)
Definition for_each {A} (xs : list A) (body : A -> M unit) (h : HState) : HState :=
  fold_left (fun h x => try_continue (body x) h) xs h.

(** [response.<counter> += 1] and the assignments to the response. *)

Definition incr_trips_uploaded (r : SyncResponse) : SyncResponse :=
  let 'mk_SyncResponse a b c d e f g h i j k l m n := r in
  mk_SyncResponse a (b + 1) c d e f g h i j k l m n.
Definition incr_days_uploaded (r : SyncResponse) : SyncResponse :=
  let 'mk_SyncResponse a b c d e f g h i j k l m n := r in
  mk_SyncResponse a b c (d + 1) e f g h i j k l m n.
Definition incr_activities_uploaded (r : SyncResponse) : SyncResponse :=
  let 'mk_SyncResponse a b c d e f g h i j k l m n := r in
  mk_SyncResponse a b c d e (f + 1) g h i j k l m n.
Definition incr_budget_items_uploaded (r : SyncResponse) : SyncResponse :=
  let 'mk_SyncResponse a b c d e f g h i j k l m n := r in
  mk_SyncResponse a b c d e f g (h + 1) i j k l m n.
Definition incr_notes_uploaded (r : SyncResponse) : SyncResponse :=
  let 'mk_SyncResponse a b c d e f g h i j k l m n := r in
  mk_SyncResponse a b c d e f g h i (j + 1) k l m n.

Definition set_download_trips (l : list TripWire) (n : Z) (r : SyncResponse) : SyncResponse :=
  let 'mk_SyncResponse a b _ d e f g h i j k l' m sd := r in
  mk_SyncResponse a b n d e f g h i j k l' m
    (mk_ServerData l (sd_days sd) (sd_activities sd) (sd_budget_items sd) (sd_notes sd)).
Definition set_download_days (l : list DayWire) (n : Z) (r : SyncResponse) : SyncResponse :=
  let 'mk_SyncResponse a b c d _ f g h i j k l' m sd := r in
  mk_SyncResponse a b c d n f g h i j k l' m
    (mk_ServerData (sd_trips sd) l (sd_activities sd) (sd_budget_items sd) (sd_notes sd)).
Definition set_download_activities (l : list ActivityWire) (n : Z) (r : SyncResponse) : SyncResponse :=
  let 'mk_SyncResponse a b c d e f _ h i j k l' m sd := r in
  mk_SyncResponse a b c d e f n h i j k l' m
    (mk_ServerData (sd_trips sd) (sd_days sd) l (sd_budget_items sd) (sd_notes sd)).
Definition set_download_budget_items (l : list BudgetItemWire) (n : Z) (r : SyncResponse) : SyncResponse :=
  let 'mk_SyncResponse a b c d e f g h _ j k l' m sd := r in
  mk_SyncResponse a b c d e f g h n j k l' m
    (mk_ServerData (sd_trips sd) (sd_days sd) (sd_activities sd) l (sd_notes sd)).
Definition set_download_notes (l : list NoteWire) (n : Z) (r : SyncResponse) : SyncResponse :=
  let 'mk_SyncResponse a b c d e f g h i j _ l' m sd := r in
  mk_SyncResponse a b c d e f g h i j n l' m
    (mk_ServerData (sd_trips sd) (sd_days sd) (sd_activities sd) (sd_budget_items sd) l).
Definition set_conflicts (cs : list SyncConflict) (r : SyncResponse) : SyncResponse :=
  let 'mk_SyncResponse a b c d e f g h i j k _ _ sd := r in
  mk_SyncResponse a b c d e f g h i j k (Z.of_nat (length cs)) cs sd.

(** [SyncResponse(sync_timestamp=..., server_data={...five empty lists...})]. *)
Definition new_response (timestamp : string) : SyncResponse :=
  mk_SyncResponse timestamp 0 0 0 0 0 0 0 0 0 0 0 [] (mk_ServerData [] [] [] [] []).

(** ** Serialisation *)

(** [str(u)] for a [UUID]: 8-4-4-4-12 lower-case hexadecimal digits. *)
Definition uuid_str (u : uuid) : string :=
  let z := Z.of_N u in
  Str.hexpad 8 (z / 2 ^ 96) ++ "-" ++ Str.hexpad 4 (z / 2 ^ 80) ++ "-"
    ++ Str.hexpad 4 (z / 2 ^ 64) ++ "-" ++ Str.hexpad 4 (z / 2 ^ 48) ++ "-"
    ++ Str.hexpad 12 z.

(** [trip.preferences]: the class [Trip] of [app/models/trip.py] declares
    no attribute of that name, so the read raises. *)
Definition getattr_preferences (trip : Trip) : result (option json_object) :=
  Raise AttributeError.

(** The dictionary is built entry by entry; ["preferences"] is the first
    entry whose value can raise. *)
Definition _serialize_trip (trip : uuid * Trip) : result TripWire :=
  let '(k, t) := trip in
  match getattr_preferences t with
  | Ok preferences =>
      Ok (mk_TripWire (uuid_str k) (trip_title t) (trip_destination t)
            (trip_start_date t) (trip_end_date t) (trip_budget t)
            (dict_or preferences []) (trip_is_generated t) (trip_server_id t)
            (trip_is_synced t)
            (Some (Datetime.isoformat (trip_local_updated_at t)))
            (Some (Datetime.isoformat (trip_created_at t))))
  | Raise e => Raise e
  end.

Definition _serialize_day (day : uuid * Day) : DayWire :=
  let '(k, d) := day in
  mk_DayWire (uuid_str k) (uuid_str (day_trip_id d)) (day_day_number d)
    (day_date d) (day_title d) (day_server_id d) (day_is_synced d)
    (Some (Datetime.isoformat (day_local_updated_at d))).

Definition _serialize_activity (activity : uuid * Activity) : ActivityWire :=
  let '(k, a) := activity in
  mk_ActivityWire (uuid_str k) (uuid_str (act_day_id a)) (act_time a)
    (act_title a) (act_description a) (act_location a) (act_estimated_cost a)
    (act_notes a) (act_is_completed a) (act_server_id a) (act_is_synced a)
    (Some (Datetime.isoformat (act_local_updated_at a))).

Definition _serialize_budget_item (item : uuid * BudgetItem) : BudgetItemWire :=
  let '(k, b) := item in
  mk_BudgetItemWire (uuid_str k) (uuid_str (item_trip_id b)) (item_category b)
    (item_amount b) (item_note b) (item_server_id b) (item_is_synced b)
    (Some (Datetime.isoformat (item_local_updated_at b))).

Definition _serialize_note (note : uuid * Note) : NoteWire :=
  let '(k, n) := note in
  mk_NoteWire (uuid_str k) (uuid_str (note_trip_id n)) (note_content n)
    (note_server_id n) (note_is_synced n)
    (Some (Datetime.isoformat (note_local_updated_at n)))
    (Some (Datetime.isoformat (note_created_at n))).

(** [[f(x) for x in xs]] for an [f] that may raise. *)
Fixpoint comprehension {A B} (f : A -> result B) (xs : list A) : result (list B) :=
  match xs with
  | [] => Ok []
  | x :: xs' =>
      match f x with
      | Ok y =>
          match comprehension f xs' with
          | Ok ys => Ok (y :: ys)
          | Raise e => Raise e
          end
      | Raise e => Raise e
      end
  end.

(** ** Row constructors

    The keyword calls [Trip(...)], [Day(...)], ... of the create branches.
    Columns the call does not name take the default of the class:
    [created_at] and [updated_at] are [datetime.utcnow()], [server_id] and
    the remaining optional columns are [None]. *)

(** [Trip] declares no [preferences] column and a table model does not
    validate its keywords: the argument is dropped. *)
Definition Trip_init (now : datetime) (user_id : uuid)
    (title destination start_date end_date : string) (budget : option float)
    (preferences : json_object) (is_generated : bool)
    (local_updated_at : datetime) (is_synced : bool) : Trip :=
  mk_Trip user_id title destination start_date end_date budget
    None None None None is_generated now now None is_synced local_updated_at.

Definition Day_init (now : datetime) (trip_id : uuid) (day_number : Z)
    (date title : string) (local_updated_at : datetime) (is_synced : bool) : Day :=
  mk_Day trip_id day_number date (Some title) now None is_synced local_updated_at.

Definition Activity_init (now : datetime) (day_id : uuid) (time : option string)
    (title : string) (description location : option string)
    (estimated_cost : float) (notes : option string) (is_completed : bool)
    (local_updated_at : datetime) (is_synced : bool) : Activity :=
  mk_Activity day_id time title description location (Some estimated_cost)
    notes is_completed now None is_synced local_updated_at.

Definition BudgetItem_init (now : datetime) (trip_id : uuid) (category : string)
    (amount : float) (note : option string) (local_updated_at : datetime)
    (is_synced : bool) : BudgetItem :=
  mk_BudgetItem trip_id category amount note now None is_synced local_updated_at.

Definition Note_init (now : datetime) (trip_id : uuid) (content : string)
    (local_updated_at : datetime) (is_synced : bool) : Note :=
  mk_Note trip_id content now None is_synced local_updated_at.

(** ** [sync_data] *)

Section Handler.
Context `{PyLib}.
(** [datetime.utcnow()] and [current_user.id]. *)
Variable now : datetime.
Variable current_user : uuid.

Section Bodies.
(** [request.conflict_resolution]. *)
Variable strategy : Strategy.

(** [session.get(Model, ident)] for an identifier taken from the
    payload: a text that is no UUID makes the lookup raise. *)
Definition session_get {R} (table : Store -> gmap uuid R) (ident : string)
    : M (option (uuid * R)) :=
  let* k := lift (of_option ValueError (UUID ident)) in
  let* s := get_session in
  ret (match table s !! k with Some r => Some (k, r) | None => None end).

(** [session.get(Model, key)] for a key read from a row. *)
Definition session_get_key {R} (table : Store -> gmap uuid R) (k : uuid)
    : M (option (uuid * R)) :=
  let* s := get_session in
  ret (match table s !! k with Some r => Some (k, r) | None => None end).

(** [trip and trip.user_id == current_user.id]. *)
Definition owned (trip : option (uuid * Trip)) : bool :=
  match trip with
  | Some (_, t) => N.eqb (trip_user_id t) current_user
  | None => false
  end.

Definition should_update (client_ts : string) (server_ts : datetime) : M bool :=
  lift (_should_update now client_ts (Some server_ts) (strategy_str strategy)).

(** Body of [for trip_data in request.trips]. *)
Definition sync_trip (trip_data : TripSyncData) : M unit :=
  let* trip := session_get trips (tsd_id trip_data) in
  if tsd_is_deleted trip_data then
    match trip with
    | Some (k, t) =>
        if N.eqb (trip_user_id t) current_user then
          modify_session (Session.delete_trip k) >>
          modify_response incr_trips_uploaded
        else ret tt
    | None => ret tt
    end
  else
    match trip with
    | Some (k, t) =>
        if negb (N.eqb (trip_user_id t) current_user) then ret tt
        else
          let* su := should_update (tsd_local_updated_at trip_data)
                       (trip_local_updated_at t) in
          if negb su then
            append_conflict
              (mk_SyncConflict "trip" (tsd_id trip_data)
                 (tsd_local_updated_at trip_data)
                 (Datetime.isoformat (trip_local_updated_at t))
                 "server_wins")
          else
            let t := assign_if (tsd_title trip_data) set_trip_title t in
            let t := assign_if (tsd_destination trip_data) set_trip_destination t in
            let t := assign_if (tsd_start_date trip_data) set_trip_start_date t in
            let t := assign_if (tsd_end_date trip_data) set_trip_end_date t in
            let t := assign_if (tsd_budget trip_data) set_trip_budget t in
            (* [trip.preferences = ...]: no such field; the assignments
               made so far stay on the session's row *)
            let* _ := match tsd_preferences trip_data with
                      | Some _ => modify_session (Session.add_trip k t) >>
                                  raise ValueError
                      | None => ret tt
                      end in
            let t := assign_if (tsd_is_generated trip_data) set_trip_is_generated t in
            let t := set_trip_local_updated_at
                       (_parse_timestamp now (tsd_local_updated_at trip_data)) t in
            let t := set_trip_is_synced true t in
            modify_session (Session.add_trip k t) >>
            modify_response incr_trips_uploaded
    | None =>
        let* k := lift (of_option ValueError (UUID (tsd_id trip_data))) in
        let t := Trip_init now current_user
                   (str_or (tsd_title trip_data) "Untitled Trip")
                   (str_or (tsd_destination trip_data) EmptyString)
                   (str_or (tsd_start_date trip_data) (Datetime.strftime_ymd now))
                   (str_or (tsd_end_date trip_data) (Datetime.strftime_ymd now))
                   (tsd_budget trip_data)
                   (dict_or (tsd_preferences trip_data) [])
                   (bool_or (tsd_is_generated trip_data) false)
                   (_parse_timestamp now (tsd_local_updated_at trip_data))
                   true in
        modify_session (Session.add_trip k t) >>
        modify_response incr_trips_uploaded
    end.

(** Body of [for day_data in request.days]. *)
Definition sync_day (day_data : DaySyncData) : M unit :=
  let* day := session_get days (dsd_id day_data) in
  if dsd_is_deleted day_data then
    match day with
    | Some (k, d) =>
        let* trip := session_get_key trips (day_trip_id d) in
        if owned trip then
          modify_session (Session.delete_day k) >>
          modify_response incr_days_uploaded
        else ret tt
    | None => ret tt
    end
  else
    match day with
    | Some (k, d) =>
        let* trip := session_get_key trips (day_trip_id d) in
        if negb (owned trip) then ret tt
        else
          let* su := should_update (dsd_local_updated_at day_data)
                       (day_local_updated_at d) in
          if su then
            let d := assign_if (dsd_day_number day_data) set_day_day_number d in
            let d := assign_if (dsd_date day_data) set_day_date d in
            let d := assign_if (dsd_title day_data) set_day_title d in
            let d := set_day_local_updated_at
                       (_parse_timestamp now (dsd_local_updated_at day_data)) d in
            let d := set_day_is_synced true d in
            modify_session (Session.add_day k d) >>
            modify_response incr_days_uploaded
          else ret tt
    | None =>
        let* trip := session_get trips (dsd_trip_id day_data) in
        if owned trip then
          let* k := lift (of_option ValueError (UUID (dsd_id day_data))) in
          let* tk := lift (of_option ValueError (UUID (dsd_trip_id day_data))) in
          let d := Day_init now tk
                     (int_or (dsd_day_number day_data) 1)
                     (str_or (dsd_date day_data) EmptyString)
                     (str_or (dsd_title day_data) EmptyString)
                     (_parse_timestamp now (dsd_local_updated_at day_data))
                     true in
          modify_session (Session.add_day k d) >>
          modify_response incr_days_uploaded
        else ret tt
    end.

(** Body of [for activity_data in request.activities]. *)
Definition sync_activity (activity_data : ActivitySyncData) : M unit :=
  let* activity := session_get activities (asd_id activity_data) in
  if asd_is_deleted activity_data then
    match activity with
    | Some (k, a) =>
        let* day := session_get_key days (act_day_id a) in
        match day with
        | Some (_, d) =>
            let* trip := session_get_key trips (day_trip_id d) in
            if owned trip then
              modify_session (Session.delete_activity k) >>
              modify_response incr_activities_uploaded
            else ret tt
        | None => ret tt
        end
    | None => ret tt
    end
  else
    match activity with
    | Some (k, a) =>
        let* day := session_get_key days (act_day_id a) in
        let* skip := match day with
                     | Some (_, d) =>
                         let* trip := session_get_key trips (day_trip_id d) in
                         ret (negb (owned trip))
                     | None => ret false
                     end in
        if skip then ret tt
        else
          let* su := should_update (asd_local_updated_at activity_data)
                       (act_local_updated_at a) in
          if su then
            let a := assign_if (asd_time activity_data) set_act_time a in
            let a := assign_if (asd_title activity_data) set_act_title a in
            let a := assign_if (asd_description activity_data) set_act_description a in
            let a := assign_if (asd_location activity_data) set_act_location a in
            let a := assign_if (asd_estimated_cost activity_data) set_act_estimated_cost a in
            let a := assign_if (asd_notes activity_data) set_act_notes a in
            let a := assign_if (asd_is_completed activity_data) set_act_is_completed a in
            let a := set_act_local_updated_at
                       (_parse_timestamp now (asd_local_updated_at activity_data)) a in
            let a := set_act_is_synced true a in
            modify_session (Session.add_activity k a) >>
            modify_response incr_activities_uploaded
          else ret tt
    | None =>
        let* day := session_get days (asd_day_id activity_data) in
        match day with
        | Some (_, d) =>
            let* trip := session_get_key trips (day_trip_id d) in
            if owned trip then
              let* k := lift (of_option ValueError (UUID (asd_id activity_data))) in
              let* dk := lift (of_option ValueError (UUID (asd_day_id activity_data))) in
              let a := Activity_init now dk
                         (asd_time activity_data)
                         (str_or (asd_title activity_data) EmptyString)
                         (asd_description activity_data)
                         (asd_location activity_data)
                         (float_or (asd_estimated_cost activity_data) Float.zero)
                         (asd_notes activity_data)
                         (bool_or (asd_is_completed activity_data) false)
                         (_parse_timestamp now (asd_local_updated_at activity_data))
                         true in
              modify_session (Session.add_activity k a) >>
              modify_response incr_activities_uploaded
            else ret tt
        | None => ret tt
        end
    end.

(** Body of [for item_data in request.budget_items]. *)
Definition sync_budget_item (item_data : BudgetItemSyncData) : M unit :=
  let* item := session_get budget_items (bsd_id item_data) in
  if bsd_is_deleted item_data then
    match item with
    | Some (k, b) =>
        let* trip := session_get_key trips (item_trip_id b) in
        if owned trip then
          modify_session (Session.delete_budget_item k) >>
          modify_response incr_budget_items_uploaded
        else ret tt
    | None => ret tt
    end
  else
    match item with
    | Some (k, b) =>
        let* trip := session_get_key trips (item_trip_id b) in
        if negb (owned trip) then ret tt
        else
          let* su := should_update (bsd_local_updated_at item_data)
                       (item_local_updated_at b) in
          if su then
            let b := assign_if (bsd_category item_data) set_item_category b in
            let b := assign_if (bsd_amount item_data) set_item_amount b in
            let b := assign_if (bsd_note item_data) set_item_note b in
            let b := set_item_local_updated_at
                       (_parse_timestamp now (bsd_local_updated_at item_data)) b in
            let b := set_item_is_synced true b in
            modify_session (Session.add_budget_item k b) >>
            modify_response incr_budget_items_uploaded
          else ret tt
    | None =>
        let* trip := session_get trips (bsd_trip_id item_data) in
        if owned trip then
          let* k := lift (of_option ValueError (UUID (bsd_id item_data))) in
          let* tk := lift (of_option ValueError (UUID (bsd_trip_id item_data))) in
          let b := BudgetItem_init now tk
                     (str_or (bsd_category item_data) EmptyString)
                     (float_or (bsd_amount item_data) Float.zero)
                     (bsd_note item_data)
                     (_parse_timestamp now (bsd_local_updated_at item_data))
                     true in
          modify_session (Session.add_budget_item k b) >>
          modify_response incr_budget_items_uploaded
        else ret tt
    end.

(** Body of [for note_data in request.notes]. *)
Definition sync_note (note_data : NoteSyncData) : M unit :=
  let* note := session_get notes (nsd_id note_data) in
  if nsd_is_deleted note_data then
    match note with
    | Some (k, n) =>
        let* trip := session_get_key trips (note_trip_id n) in
        if owned trip then
          modify_session (Session.delete_note k) >>
          modify_response incr_notes_uploaded
        else ret tt
    | None => ret tt
    end
  else
    match note with
    | Some (k, n) =>
        let* trip := session_get_key trips (note_trip_id n) in
        if negb (owned trip) then ret tt
        else
          let* su := should_update (nsd_local_updated_at note_data)
                       (note_local_updated_at n) in
          if su then
            let n := assign_if (nsd_content note_data) set_note_content n in
            let n := set_note_local_updated_at
                       (_parse_timestamp now (nsd_local_updated_at note_data)) n in
            let n := set_note_is_synced true n in
            modify_session (Session.add_note k n) >>
            modify_response incr_notes_uploaded
          else ret tt
    | None =>
        let* trip := session_get trips (nsd_trip_id note_data) in
        if owned trip then
          let* k := lift (of_option ValueError (UUID (nsd_id note_data))) in
          let* tk := lift (of_option ValueError (UUID (nsd_trip_id note_data))) in
          let n := Note_init now tk
                     (str_or (nsd_content note_data) EmptyString)
                     (_parse_timestamp now (nsd_local_updated_at note_data))
                     true in
          modify_session (Session.add_note k n) >>
          modify_response incr_notes_uploaded
        else ret tt
    end.

End Bodies.

(** The five loops, in the order of the source, up to [session.commit()]. *)
Definition upload (request : SyncRequest) (h : HState) : HState :=
  let strategy := conflict_resolution request in
  let h := for_each (req_trips request) (sync_trip strategy) h in
  let h := for_each (req_days request) (sync_day strategy) h in
  let h := for_each (req_activities request) (sync_activity strategy) h in
  let h := for_each (req_budget_items request) (sync_budget_item strategy) h in
  for_each (req_notes request) (sync_note strategy) h.

(** [Model.fk.in_(ids)]. *)
Definition in_ (k : uuid) (ids : list uuid) : bool := existsb (N.eqb k) ids.

(** The block under [if last_sync:]. *)
Definition download (last_sync : datetime) : M unit :=
  let* s := get_session in
  let updated_trips :=
    Session.select
      (fun r => N.eqb (trip_user_id r.2) current_user
                && Session.sql_gt (trip_local_updated_at r.2) last_sync)
      (trips s) in
  let* wire := lift (comprehension _serialize_trip updated_trips) in
  let* _ := modify_response
              (set_download_trips wire (Z.of_nat (length updated_trips))) in
  let user_trip_ids :=
    map fst (Session.select (fun r => N.eqb (trip_user_id r.2) current_user)
               (trips s)) in
  match user_trip_ids with
  | [] => ret tt
  | _ :: _ =>
      let updated_days :=
        Session.select
          (fun r => in_ (day_trip_id r.2) user_trip_ids
                    && Session.sql_gt (day_local_updated_at r.2) last_sync)
          (days s) in
      let* _ := modify_response
                  (set_download_days (map _serialize_day updated_days)
                     (Z.of_nat (length updated_days))) in
      let user_day_ids :=
        map fst (Session.select (fun r => in_ (day_trip_id r.2) user_trip_ids)
                   (days s)) in
      let* _ := match user_day_ids with
                | [] => ret tt
                | _ :: _ =>
                    let updated_activities :=
                      Session.select
                        (fun r => in_ (act_day_id r.2) user_day_ids
                                  && Session.sql_gt (act_local_updated_at r.2) last_sync)
                        (activities s) in
                    modify_response
                      (set_download_activities
                         (map _serialize_activity updated_activities)
                         (Z.of_nat (length updated_activities)))
                end in
      let updated_budget_items :=
        Session.select
          (fun r => in_ (item_trip_id r.2) user_trip_ids
                    && Session.sql_gt (item_local_updated_at r.2) last_sync)
          (budget_items s) in
      let* _ := modify_response
                  (set_download_budget_items
                     (map _serialize_budget_item updated_budget_items)
                     (Z.of_nat (length updated_budget_items))) in
      let updated_notes :=
        Session.select
          (fun r => in_ (note_trip_id r.2) user_trip_ids
                    && Session.sql_gt (note_local_updated_at r.2) last_sync)
          (notes s) in
      modify_response
        (set_download_notes (map _serialize_note updated_notes)
           (Z.of_nat (length updated_notes)))
  end.

(** [_parse_timestamp(request.last_sync_at) if request.last_sync_at else None]. *)
Definition parse_last_sync (request : SyncRequest) : option datetime :=
  match last_sync_at request with
  | Some ts => if Str.truthy ts then Some (_parse_timestamp now ts) else None
  | None => None
  end.

(** The handler: the value it returns or the exception that leaves it,
    and the store it leaves behind. *)
Definition sync_data (request : SyncRequest) (db : Store)
    : result SyncResponse * Store :=
  let h := mk_HState db (new_response (Datetime.isoformat now)) [] in
  let last_sync := parse_last_sync request in
  let h := upload request h in
  let '(r, h) :=
    match last_sync with
    | Some ls => download ls h
    | None => (Ok tt, h)
    end in
  match r with
  | Ok _ => (Ok (set_conflicts (h_conflicts h) (h_response h)), h_session h)
  | Raise e => (Raise e, h_session h)
  end.

End Handler.

(** ** A reference instance of the library

    It reads the canonical textual forms: timestamps as
    [datetime.isoformat()] writes them ([YYYY-MM-DD], one separator
    character, [HH:MM:SS], an optional fraction, an optional [+HH:MM] or
    [-HH:MM] offset), the legacy [YYYY-MM-DD HH:MM:SS] form, and UUIDs as
    32 hexadecimal digits with optional hyphens.  Any other text is
    reported as unparseable.  The general theorems below quantify over
    the library and do not depend on this instance. *)

Module Reference.

Definition two (a b : ascii) : option Z := Str.number [a; b].

Definition parse_date (l : list ascii) : option (Z * Z * Z * list ascii) :=
  match l with
  | y1 :: y2 :: y3 :: y4 :: "-"%char :: m1 :: m2 :: "-"%char :: d1 :: d2 :: rest =>
      match Str.number [y1; y2; y3; y4], two m1 m2, two d1 d2 with
      | Some y, Some m, Some d => Some (y, m, d, rest)
      | _, _, _ => None
      end
  | _ => None
  end.

Definition parse_hms (l : list ascii) : option (Z * Z * Z * list ascii) :=
  match l with
  | h1 :: h2 :: ":"%char :: m1 :: m2 :: ":"%char :: s1 :: s2 :: rest =>
      match two h1 h2, two m1 m2, two s1 s2 with
      | Some h, Some m, Some s => Some (h, m, s, rest)
      | _, _, _ => None
      end
  | _ => None
  end.

(** The run of digits at the head of [l], and what follows it. *)
Fixpoint span_digits (l : list ascii) : list ascii * list ascii :=
  match l with
  | a :: l' =>
      if Str.is_digit a then let '(ds, rest) := span_digits l' in (a :: ds, rest)
      else ([], l)
  | [] => ([], [])
  end.

(** A fraction of a second: the first six digits count, missing ones
    are zeros. *)
Definition micros (ds : list ascii) : option Z :=
  match ds with
  | [] => None
  | _ => Str.digits_acc 0 (take 6 (ds ++ repeat "0"%char 6))
  end.

Definition parse_fraction (l : list ascii) : option (Z * list ascii) :=
  match l with
  | "."%char :: l' =>
      let '(ds, rest) := span_digits l' in
      match micros ds with
      | Some us => Some (us, rest)
      | None => None
      end
  | _ => Some (0, l)
  end.

Definition parse_offset (l : list ascii) : option (option Z) :=
  match l with
  | [] => Some None
  | [sign; h1; h2; ":"%char; m1; m2] =>
      match two h1 h2, two m1 m2 with
      | Some h, Some m =>
          if (h <? 24) && (m <? 60) then
            let off := (h * 3600 + m * 60) * 1000000 in
            if Ascii.eqb sign "+"%char then Some (Some off)
            else if Ascii.eqb sign "-"%char then Some (Some (- off))
            else None
          else None
      | _, _ => None
      end
  | _ => None
  end.

Definition checked (d : datetime) : option datetime :=
  if Datetime.valid d then Some d else None.

Definition fromisoformat (s : string) : option datetime :=
  match parse_date (list_ascii_of_string s) with
  | Some (y, mo, d, _ :: rest) =>
      match parse_hms rest with
      | Some (h, mi, sec, rest) =>
          match parse_fraction rest with
          | Some (us, rest) =>
              match parse_offset rest with
              | Some tz => checked (mk_datetime y mo d h mi sec us tz)
              | None => None
              end
          | None => None
          end
      | None => None
      end
  | _ => None
  end.

Definition strptime (s : string) : option datetime :=
  match parse_date (list_ascii_of_string s) with
  | Some (y, mo, d, " "%char :: rest) =>
      match parse_hms rest with
      | Some (h, mi, sec, []) => checked (mk_datetime y mo d h mi sec 0 None)
      | _ => None
      end
  | _ => None
  end.

Definition UUID (s : string) : option uuid :=
  let hex := List.filter (fun a => negb (Ascii.eqb a "-"%char)) (list_ascii_of_string s) in
  if Nat.eqb (length hex) 32 then
    match Str.hex_acc 0 hex with
    | Some z => Some (Z.to_N z)
    | None => None
    end
  else None.

End Reference.

Definition cpython : PyLib :=
  {| fromisoformat := Reference.fromisoformat;
     strptime := Reference.strptime;
     UUID := Reference.UUID |}.


(** ** Ownership chains and incoming records

    The vocabulary of the statements: who owns a stored row, following
    Activity -> Day -> Trip -> user, and an incoming record of any of the
    five kinds together with the loop body that processes it. *)

Definition trip_owner (s : Store) (k : uuid) : option uuid :=
  trip_user_id <$> trips s !! k.

Definition day_owner (s : Store) (k : uuid) : option uuid :=
  d ← days s !! k; trip_owner s (day_trip_id d).

Definition activity_owner (s : Store) (k : uuid) : option uuid :=
  a ← activities s !! k; day_owner s (act_day_id a).

Definition budget_item_owner (s : Store) (k : uuid) : option uuid :=
  b ← budget_items s !! k; trip_owner s (item_trip_id b).

Definition note_owner (s : Store) (k : uuid) : option uuid :=
  n ← notes s !! k; trip_owner s (note_trip_id n).

Inductive Incoming : Type :=
| InTrip (trip_data : TripSyncData)
| InDay (day_data : DaySyncData)
| InActivity (activity_data : ActivitySyncData)
| InBudgetItem (item_data : BudgetItemSyncData)
| InNote (note_data : NoteSyncData).

Definition incoming_id (r : Incoming) : string :=
  match r with
  | InTrip x => tsd_id x
  | InDay x => dsd_id x
  | InActivity x => asd_id x
  | InBudgetItem x => bsd_id x
  | InNote x => nsd_id x
  end.

Definition incoming_updated_at (r : Incoming) : string :=
  match r with
  | InTrip x => tsd_local_updated_at x
  | InDay x => dsd_local_updated_at x
  | InActivity x => asd_local_updated_at x
  | InBudgetItem x => bsd_local_updated_at x
  | InNote x => nsd_local_updated_at x
  end.

Definition incoming_is_deleted (r : Incoming) : bool :=
  match r with
  | InTrip x => tsd_is_deleted x
  | InDay x => dsd_is_deleted x
  | InActivity x => asd_is_deleted x
  | InBudgetItem x => bsd_is_deleted x
  | InNote x => nsd_is_deleted x
  end.

(** Whether the table of [r]'s kind holds a row under key [k]. *)
Definition stored (s : Store) (r : Incoming) (k : uuid) : bool :=
  match r with
  | InTrip _ => bool_decide (is_Some (trips s !! k))
  | InDay _ => bool_decide (is_Some (days s !! k))
  | InActivity _ => bool_decide (is_Some (activities s !! k))
  | InBudgetItem _ => bool_decide (is_Some (budget_items s !! k))
  | InNote _ => bool_decide (is_Some (notes s !! k))
  end.

(** The owner the chain of row [k] of [r]'s kind resolves to, if any. *)
Definition owner_of (s : Store) (r : Incoming) (k : uuid) : option uuid :=
  match r with
  | InTrip _ => trip_owner s k
  | InDay _ => day_owner s k
  | InActivity _ => activity_owner s k
  | InBudgetItem _ => budget_item_owner s k
  | InNote _ => note_owner s k
  end.

(** [local_updated_at] of row [k] of [r]'s kind. *)
Definition stored_updated_at (s : Store) (r : Incoming) (k : uuid) : option datetime :=
  match r with
  | InTrip _ => trip_local_updated_at <$> trips s !! k
  | InDay _ => day_local_updated_at <$> days s !! k
  | InActivity _ => act_local_updated_at <$> activities s !! k
  | InBudgetItem _ => item_local_updated_at <$> budget_items s !! k
  | InNote _ => note_local_updated_at <$> notes s !! k
  end.

(** The [..._uploaded] counter of [r]'s kind. *)
Definition uploaded (r : Incoming) (resp : SyncResponse) : Z :=
  match r with
  | InTrip _ => trips_uploaded resp
  | InDay _ => days_uploaded resp
  | InActivity _ => activities_uploaded resp
  | InBudgetItem _ => budget_items_uploaded resp
  | InNote _ => notes_uploaded resp
  end.

Section Step.
Context `{PyLib}.
Variable now : datetime.
Variable current_user : uuid.
Variable strategy : Strategy.

(** One iteration of the loop of [r]'s kind, its [try/except] included. *)
Definition step (r : Incoming) (h : HState) : HState :=
  match r with
  | InTrip x => try_continue (sync_trip now current_user strategy x) h
  | InDay x => try_continue (sync_day now current_user strategy x) h
  | InActivity x => try_continue (sync_activity now current_user strategy x) h
  | InBudgetItem x => try_continue (sync_budget_item now current_user strategy x) h
  | InNote x => try_continue (sync_note now current_user strategy x) h
  end.

End Step.

(** Rows whose chain resolves to [owner] are the same in [s'] as in [s]:
    none was modified and none was removed. *)
Definition preserves_rows_of (owner : uuid) (s s' : Store) : Prop :=
  (forall k, trip_owner s k = Some owner -> trips s' !! k = trips s !! k) /\
  (forall k, day_owner s k = Some owner -> days s' !! k = days s !! k) /\
  (forall k, activity_owner s k = Some owner -> activities s' !! k = activities s !! k) /\
  (forall k, budget_item_owner s k = Some owner ->
             budget_items s' !! k = budget_items s !! k) /\
  (forall k, note_owner s k = Some owner -> notes s' !! k = notes s !! k).

(** What one iteration run for [me] can do to the store: nothing, remove a
    row whose chain resolves to [me], or write a row under a key whose
    chain resolves to [me] or to nobody. *)
Inductive effect (me : uuid) (s : Store) : Store -> Prop :=
| effect_none : effect me s s
| effect_delete_trip k :
    trip_owner s k = Some me -> effect me s (Session.delete_trip k s)
| effect_add_trip k t :
    trip_owner s k = Some me \/ trip_owner s k = None ->
    effect me s (Session.add_trip k t s)
| effect_delete_day k :
    day_owner s k = Some me -> effect me s (Session.delete_day k s)
| effect_add_day k d :
    day_owner s k = Some me \/ day_owner s k = None ->
    effect me s (Session.add_day k d s)
| effect_delete_activity k :
    activity_owner s k = Some me -> effect me s (Session.delete_activity k s)
| effect_add_activity k a :
    activity_owner s k = Some me \/ activity_owner s k = None ->
    effect me s (Session.add_activity k a s)
| effect_delete_budget_item k :
    budget_item_owner s k = Some me -> effect me s (Session.delete_budget_item k s)
| effect_add_budget_item k b :
    budget_item_owner s k = Some me \/ budget_item_owner s k = None ->
    effect me s (Session.add_budget_item k b s)
| effect_delete_note k :
    note_owner s k = Some me -> effect me s (Session.delete_note k s)
| effect_add_note k n :
    note_owner s k = Some me \/ note_owner s k = None ->
    effect me s (Session.add_note k n s).

(** [response.<kind>_uploaded += 1] and [session.delete(row)], by kind of
    the incoming record. *)

Definition incr_uploaded (r : Incoming) (resp : SyncResponse) : SyncResponse :=
  match r with
  | InTrip _ => incr_trips_uploaded resp
  | InDay _ => incr_days_uploaded resp
  | InActivity _ => incr_activities_uploaded resp
  | InBudgetItem _ => incr_budget_items_uploaded resp
  | InNote _ => incr_notes_uploaded resp
  end.

Definition session_delete (r : Incoming) (k : uuid) (s : Store) : Store :=
  match r with
  | InTrip _ => Session.delete_trip k s
  | InDay _ => Session.delete_day k s
  | InActivity _ => Session.delete_activity k s
  | InBudgetItem _ => Session.delete_budget_item k s
  | InNote _ => Session.delete_note k s
  end.

(** ** Creation, in the words of the specification

    The value a created row takes in a column that has a default: the
    incoming value when one is present and is not blank (the empty string,
    zero, false), the default otherwise. *)

Definition present_or {A} (blank : A -> bool) (incoming : option A) (default : A) : A :=
  match incoming with
  | None => default
  | Some v => if blank v then default else v
  end.

Definition blank_str (s : string) : bool := String.eqb s EmptyString.
Definition blank_int (n : Z) : bool := n =? 0.
Definition blank_float (x : float) : bool := (x =? Float.zero) || (x =? Float.neg_zero).
Definition blank_bool (b : bool) : bool := negb b.

Section Created.
Context `{PyLib}.
Variable now : datetime.
Variable me : uuid.

Definition created_trip (x : TripSyncData) : Trip :=
  {| trip_user_id := me;
     trip_title := present_or blank_str (tsd_title x) "Untitled Trip";
     trip_destination := present_or blank_str (tsd_destination x) EmptyString;
     trip_start_date :=
       present_or blank_str (tsd_start_date x) (Datetime.strftime_ymd now);
     trip_end_date :=
       present_or blank_str (tsd_end_date x) (Datetime.strftime_ymd now);
     trip_budget := tsd_budget x;
     trip_budget_tier := None;
     trip_travel_style := None;
     trip_interests := None;
     trip_special_requirements := None;
     trip_is_generated := present_or blank_bool (tsd_is_generated x) false;
     trip_created_at := now;
     trip_updated_at := now;
     trip_server_id := None;
     trip_is_synced := true;
     trip_local_updated_at := _parse_timestamp now (tsd_local_updated_at x) |}.

Definition created_day (parent : uuid) (x : DaySyncData) : Day :=
  {| day_trip_id := parent;
     day_day_number := present_or blank_int (dsd_day_number x) 1;
     day_date := present_or blank_str (dsd_date x) EmptyString;
     day_title := Some (present_or blank_str (dsd_title x) EmptyString);
     day_created_at := now;
     day_server_id := None;
     day_is_synced := true;
     day_local_updated_at := _parse_timestamp now (dsd_local_updated_at x) |}.

Definition created_activity (parent : uuid) (x : ActivitySyncData) : Activity :=
  {| act_day_id := parent;
     act_time := asd_time x;
     act_title := present_or blank_str (asd_title x) EmptyString;
     act_description := asd_description x;
     act_location := asd_location x;
     act_estimated_cost :=
       Some (present_or blank_float (asd_estimated_cost x) Float.zero);
     act_notes := asd_notes x;
     act_is_completed := present_or blank_bool (asd_is_completed x) false;
     act_created_at := now;
     act_server_id := None;
     act_is_synced := true;
     act_local_updated_at := _parse_timestamp now (asd_local_updated_at x) |}.

Definition created_budget_item (parent : uuid) (x : BudgetItemSyncData) : BudgetItem :=
  {| item_trip_id := parent;
     item_category := present_or blank_str (bsd_category x) EmptyString;
     item_amount := present_or blank_float (bsd_amount x) Float.zero;
     item_note := bsd_note x;
     item_created_at := now;
     item_server_id := None;
     item_is_synced := true;
     item_local_updated_at := _parse_timestamp now (bsd_local_updated_at x) |}.

Definition created_note (parent : uuid) (x : NoteSyncData) : Note :=
  {| note_trip_id := parent;
     note_content := present_or blank_str (nsd_content x) EmptyString;
     note_created_at := now;
     note_server_id := None;
     note_is_synced := true;
     note_local_updated_at := _parse_timestamp now (nsd_local_updated_at x) |}.

(** The parent a new record of [r]'s kind needs: the key its reference
    parses to and the owner that parent's chain resolves to.  A trip
    needs none and belongs to the caller. *)
Definition parent_of (s : Store) (r : Incoming) : option (uuid * option uuid) :=
  match r with
  | InTrip _ => None
  | InDay x => p ← UUID (dsd_trip_id x); Some (p, trip_owner s p)
  | InActivity x => p ← UUID (asd_day_id x); Some (p, day_owner s p)
  | InBudgetItem x => p ← UUID (bsd_trip_id x); Some (p, trip_owner s p)
  | InNote x => p ← UUID (nsd_trip_id x); Some (p, trip_owner s p)
  end.

(** The parent resolves and is owned by the caller. *)
Definition parent_ok (s : Store) (r : Incoming) : bool :=
  match r with
  | InTrip _ => true
  | _ => match parent_of s r with
         | Some (_, Some o) => N.eqb o me
         | _ => false
         end
  end.

(** The store with the new row of [r] under key [k]. *)
Definition session_create (r : Incoming) (k : uuid) (s : Store) : Store :=
  match r, parent_of s r with
  | InTrip x, _ => Session.add_trip k (created_trip x) s
  | InDay x, Some (p, _) => Session.add_day k (created_day p x) s
  | InActivity x, Some (p, _) => Session.add_activity k (created_activity p x) s
  | InBudgetItem x, Some (p, _) => Session.add_budget_item k (created_budget_item p x) s
  | InNote x, Some (p, _) => Session.add_note k (created_note p x) s
  | _, None => s
  end.


End Created.

(** The conflict record [sync_data] appends for a rejected trip write. *)
Definition trip_conflict (x : TripSyncData) (server_ts : datetime) : SyncConflict :=
  {| entity_type := "trip";
     entity_id := tsd_id x;
     client_updated_at := tsd_local_updated_at x;
     server_updated_at := Datetime.isoformat server_ts;
     resolution := "server_wins" |}.

(** A request that carries the single record [r]. *)
Definition singleton_request (last_sync : option string) (strategy : Strategy)
    (r : Incoming) : SyncRequest :=
  match r with
  | InTrip x => mk_SyncRequest last_sync strategy [x] [] [] [] []
  | InDay x => mk_SyncRequest last_sync strategy [] [x] [] [] []
  | InActivity x => mk_SyncRequest last_sync strategy [] [] [x] [] []
  | InBudgetItem x => mk_SyncRequest last_sync strategy [] [] [] [x] []
  | InNote x => mk_SyncRequest last_sync strategy [] [] [] [] [x]
  end.

(** ** The delta, in the words of the specification

    The rows of each kind that belong to [me] (a trip by its [user_id], a
    day, budget item or note through its trip, an activity through its
    day) and whose [local_updated_at] is strictly greater than the
    watermark. *)

Section Delta.
Variable me : uuid.
Variable watermark : datetime.
Variable s : Store.

Definition fresh_trips : list (uuid * Trip) :=
  Session.select
    (fun r => N.eqb (trip_user_id r.2) me
              && Session.sql_gt (trip_local_updated_at r.2) watermark)
    (trips s).

Definition fresh_days : list (uuid * Day) :=
  Session.select
    (fun r => bool_decide (trip_owner s (day_trip_id r.2) = Some me)
              && Session.sql_gt (day_local_updated_at r.2) watermark)
    (days s).

Definition fresh_activities : list (uuid * Activity) :=
  Session.select
    (fun r => bool_decide (day_owner s (act_day_id r.2) = Some me)
              && Session.sql_gt (act_local_updated_at r.2) watermark)
    (activities s).

Definition fresh_budget_items : list (uuid * BudgetItem) :=
  Session.select
    (fun r => bool_decide (trip_owner s (item_trip_id r.2) = Some me)
              && Session.sql_gt (item_local_updated_at r.2) watermark)
    (budget_items s).

Definition fresh_notes : list (uuid * Note) :=
  Session.select
    (fun r => bool_decide (trip_owner s (note_trip_id r.2) = Some me)
              && Session.sql_gt (note_local_updated_at r.2) watermark)
    (notes s).

End Delta.

(** ** Updates, in the words of the handler's contract

    An accepted write is a sparse patch: a column the record carries takes
    the incoming value, a column it does not carry keeps the stored one;
    the parent reference, the creation time and [server_id] are never
    written; [local_updated_at] becomes the parsed client timestamp and
    [is_synced] becomes true. *)

Definition overwrite {A} (stored : A) (incoming : option A) : A :=
  match incoming with
  | Some v => v
  | None => stored
  end.

Definition overwrite_opt {A} (stored : option A) (incoming : option A) : option A :=
  match incoming with
  | Some v => Some v
  | None => stored
  end.

Section Overwritten.
Context `{PyLib}.
Variable now : datetime.

Definition overwritten_trip (x : TripSyncData) (t : Trip) : Trip :=
  {| trip_user_id := trip_user_id t;
     trip_title := overwrite (trip_title t) (tsd_title x);
     trip_destination := overwrite (trip_destination t) (tsd_destination x);
     trip_start_date := overwrite (trip_start_date t) (tsd_start_date x);
     trip_end_date := overwrite (trip_end_date t) (tsd_end_date x);
     trip_budget := overwrite_opt (trip_budget t) (tsd_budget x);
     trip_budget_tier := trip_budget_tier t;
     trip_travel_style := trip_travel_style t;
     trip_interests := trip_interests t;
     trip_special_requirements := trip_special_requirements t;
     trip_is_generated := overwrite (trip_is_generated t) (tsd_is_generated x);
     trip_created_at := trip_created_at t;
     trip_updated_at := trip_updated_at t;
     trip_server_id := trip_server_id t;
     trip_is_synced := true;
     trip_local_updated_at := _parse_timestamp now (tsd_local_updated_at x) |}.

(** What is left of a trip when the patch carries [preferences]: the
    columns assigned before that assignment, and nothing else. *)
Definition half_written_trip (x : TripSyncData) (t : Trip) : Trip :=
  {| trip_user_id := trip_user_id t;
     trip_title := overwrite (trip_title t) (tsd_title x);
     trip_destination := overwrite (trip_destination t) (tsd_destination x);
     trip_start_date := overwrite (trip_start_date t) (tsd_start_date x);
     trip_end_date := overwrite (trip_end_date t) (tsd_end_date x);
     trip_budget := overwrite_opt (trip_budget t) (tsd_budget x);
     trip_budget_tier := trip_budget_tier t;
     trip_travel_style := trip_travel_style t;
     trip_interests := trip_interests t;
     trip_special_requirements := trip_special_requirements t;
     trip_is_generated := trip_is_generated t;
     trip_created_at := trip_created_at t;
     trip_updated_at := trip_updated_at t;
     trip_server_id := trip_server_id t;
     trip_is_synced := trip_is_synced t;
     trip_local_updated_at := trip_local_updated_at t |}.

Definition overwritten_day (x : DaySyncData) (d : Day) : Day :=
  {| day_trip_id := day_trip_id d;
     day_day_number := overwrite (day_day_number d) (dsd_day_number x);
     day_date := overwrite (day_date d) (dsd_date x);
     day_title := overwrite_opt (day_title d) (dsd_title x);
     day_created_at := day_created_at d;
     day_server_id := day_server_id d;
     day_is_synced := true;
     day_local_updated_at := _parse_timestamp now (dsd_local_updated_at x) |}.

Definition overwritten_activity (x : ActivitySyncData) (a : Activity) : Activity :=
  {| act_day_id := act_day_id a;
     act_time := overwrite_opt (act_time a) (asd_time x);
     act_title := overwrite (act_title a) (asd_title x);
     act_description := overwrite_opt (act_description a) (asd_description x);
     act_location := overwrite_opt (act_location a) (asd_location x);
     act_estimated_cost := overwrite_opt (act_estimated_cost a) (asd_estimated_cost x);
     act_notes := overwrite_opt (act_notes a) (asd_notes x);
     act_is_completed := overwrite (act_is_completed a) (asd_is_completed x);
     act_created_at := act_created_at a;
     act_server_id := act_server_id a;
     act_is_synced := true;
     act_local_updated_at := _parse_timestamp now (asd_local_updated_at x) |}.

Definition overwritten_budget_item (x : BudgetItemSyncData) (b : BudgetItem) : BudgetItem :=
  {| item_trip_id := item_trip_id b;
     item_category := overwrite (item_category b) (bsd_category x);
     item_amount := overwrite (item_amount b) (bsd_amount x);
     item_note := overwrite_opt (item_note b) (bsd_note x);
     item_created_at := item_created_at b;
     item_server_id := item_server_id b;
     item_is_synced := true;
     item_local_updated_at := _parse_timestamp now (bsd_local_updated_at x) |}.

Definition overwritten_note (x : NoteSyncData) (n : Note) : Note :=
  {| note_trip_id := note_trip_id n;
     note_content := overwrite (note_content n) (nsd_content x);
     note_created_at := note_created_at n;
     note_server_id := note_server_id n;
     note_is_synced := true;
     note_local_updated_at := _parse_timestamp now (nsd_local_updated_at x) |}.

(** The store once the row under [k] has taken the patch [r]. *)
Definition session_overwrite (r : Incoming) (k : uuid) (s : Store) : Store :=
  match r with
  | InTrip x =>
      match trips s !! k with
      | Some t => Session.add_trip k (overwritten_trip x t) s
      | None => s
      end
  | InDay x =>
      match days s !! k with
      | Some d => Session.add_day k (overwritten_day x d) s
      | None => s
      end
  | InActivity x =>
      match activities s !! k with
      | Some a => Session.add_activity k (overwritten_activity x a) s
      | None => s
      end
  | InBudgetItem x =>
      match budget_items s !! k with
      | Some b => Session.add_budget_item k (overwritten_budget_item x b) s
      | None => s
      end
  | InNote x =>
      match notes s !! k with
      | Some n => Session.add_note k (overwritten_note x n) s
      | None => s
      end
  end.

End Overwritten.

(** Whether a patch carries the [preferences] of a trip. *)
Definition carries_preferences (r : Incoming) : bool :=
  match r with
  | InTrip x => match tsd_preferences x with Some _ => true | None => false end
  | _ => false
  end.

(** Referential integrity: every child row has its parent in the store. *)
Definition no_orphans (s : Store) : Prop :=
  (forall k d, days s !! k = Some d -> is_Some (trips s !! day_trip_id d)) /\
  (forall k a, activities s !! k = Some a -> is_Some (days s !! act_day_id a)) /\
  (forall k b, budget_items s !! k = Some b -> is_Some (trips s !! item_trip_id b)) /\
  (forall k n, notes s !! k = Some n -> is_Some (trips s !! note_trip_id n)).

(** The same request under another strategy, and with another watermark. *)
Definition with_strategy (strategy : Strategy) (request : SyncRequest) : SyncRequest :=
  mk_SyncRequest (last_sync_at request) strategy (req_trips request)
    (req_days request) (req_activities request) (req_budget_items request)
    (req_notes request).

Definition with_watermark (last_sync : option string) (request : SyncRequest) : SyncRequest :=
  mk_SyncRequest last_sync (conflict_resolution request) (req_trips request)
    (req_days request) (req_activities request) (req_budget_items request)
    (req_notes request).

(** ** Rows, by kind

    The five tables seen as one: a row of any kind under a key, the
    owner its chain resolves to, and its [local_updated_at]. *)

Inductive Kind : Type := KTrip | KDay | KActivity | KBudgetItem | KNote.

Inductive Row : Type :=
| RTrip (t : Trip)
| RDay (d : Day)
| RActivity (a : Activity)
| RBudgetItem (b : BudgetItem)
| RNote (n : Note).

Definition kind_of (r : Incoming) : Kind :=
  match r with
  | InTrip _ => KTrip
  | InDay _ => KDay
  | InActivity _ => KActivity
  | InBudgetItem _ => KBudgetItem
  | InNote _ => KNote
  end.

Definition row (s : Store) (c : Kind) (k : uuid) : option Row :=
  match c with
  | KTrip => RTrip <$> trips s !! k
  | KDay => RDay <$> days s !! k
  | KActivity => RActivity <$> activities s !! k
  | KBudgetItem => RBudgetItem <$> budget_items s !! k
  | KNote => RNote <$> notes s !! k
  end.

Definition owner (s : Store) (c : Kind) (k : uuid) : option uuid :=
  match c with
  | KTrip => trip_owner s k
  | KDay => day_owner s k
  | KActivity => activity_owner s k
  | KBudgetItem => budget_item_owner s k
  | KNote => note_owner s k
  end.

Definition row_updated_at (x : Row) : datetime :=
  match x with
  | RTrip t => trip_local_updated_at t
  | RDay d => day_local_updated_at d
  | RActivity a => act_local_updated_at a
  | RBudgetItem b => item_local_updated_at b
  | RNote n => note_local_updated_at n
  end.

(** The records of a request, in the order the handler processes them. *)
Definition records (request : SyncRequest) : list Incoming :=
  (map InTrip (req_trips request) ++ map InDay (req_days request)
   ++ map InActivity (req_activities request)
   ++ map InBudgetItem (req_budget_items request)
   ++ map InNote (req_notes request))%list.

(** What a record that is not a tombstone may write under its key [k]:
    a trip of the caller; a day, a budget item or a note under a trip of
    the caller; an activity under a day of the caller, or over an
    activity whose day is missing.  A row that is overwritten keeps its
    parent. *)
Definition written (me : uuid) (s : Store) (r : Incoming) (k : uuid) (s' : Store) : Prop :=
  match r with
  | InTrip _ =>
      exists t, s' = Session.add_trip k t s /\ trip_user_id t = me
        /\ forall t0, trips s !! k = Some t0 -> trip_user_id t0 = me
  | InDay _ =>
      exists d, s' = Session.add_day k d s
        /\ trip_owner s (day_trip_id d) = Some me
        /\ forall d0, days s !! k = Some d0 -> day_trip_id d0 = day_trip_id d
  | InActivity _ =>
      exists a, s' = Session.add_activity k a s
        /\ (day_owner s (act_day_id a) = Some me
            \/ days s !! act_day_id a = None /\ is_Some (activities s !! k))
        /\ forall a0, activities s !! k = Some a0 -> act_day_id a0 = act_day_id a
  | InBudgetItem _ =>
      exists b, s' = Session.add_budget_item k b s
        /\ trip_owner s (item_trip_id b) = Some me
        /\ forall b0, budget_items s !! k = Some b0 -> item_trip_id b0 = item_trip_id b
  | InNote _ =>
      exists n, s' = Session.add_note k n s
        /\ trip_owner s (note_trip_id n) = Some me
        /\ forall n0, notes s !! k = Some n0 -> note_trip_id n0 = note_trip_id n
  end.

(** An incoming record [r] echoes the stored row [k]: its [id] and its
    [local_updated_at] are the ones the row's [_serialize_*] dictionary
    carries.  No record echoes a trip in this sense: the handler never
    gets to return the dictionary of a trip. *)
Definition echoes (s : Store) (r : Incoming) (k : uuid) : Prop :=
  match r with
  | InTrip _ => False
  | InDay x =>
      exists d, days s !! k = Some d
        /\ dsd_id x = dw_id (_serialize_day (k, d))
        /\ Some (dsd_local_updated_at x) = dw_local_updated_at (_serialize_day (k, d))
  | InActivity x =>
      exists a, activities s !! k = Some a
        /\ asd_id x = aw_id (_serialize_activity (k, a))
        /\ Some (asd_local_updated_at x)
           = aw_local_updated_at (_serialize_activity (k, a))
  | InBudgetItem x =>
      exists b, budget_items s !! k = Some b
        /\ bsd_id x = bw_id (_serialize_budget_item (k, b))
        /\ Some (bsd_local_updated_at x)
           = bw_local_updated_at (_serialize_budget_item (k, b))
  | InNote x =>
      exists n, notes s !! k = Some n
        /\ nsd_id x = nw_id (_serialize_note (k, n))
        /\ Some (nsd_local_updated_at x) = nw_local_updated_at (_serialize_note (k, n))
  end.

(** Row [k] of kind [c] is due to [me] after [watermark]: it is in the
    store, its chain resolves to [me], and its [local_updated_at] is
    strictly later than the watermark. *)
Definition due (me : uuid) (watermark : datetime) (s : Store) (c : Kind) (k : uuid)
    (x : Row) : Prop :=
  row s c k = Some x /\ owner s c k = Some me
  /\ Session.sql_gt (row_updated_at x) watermark = true.

(** ** The columns ([app/models/trip.py]) and what the engine accepts

    The handler hands texts and rows to the database, and the database
    refuses some of them: an id that is not the text of a UUID (line
    292 and its siblings pass the text of the request to [session.get]
    as it is), a text longer than its [Field(max_length=...)] column, a
    text with a NUL character, a [day_number] outside the 32-bit
    integers, an activity without [time] (the column is declared
    [time: str], and the create branch passes [activity_data.time] on
    with no default).  A refusal is an error of the engine: it ends the
    transaction, so that what the call staged before is lost, and it can
    reach [session.commit()], which no [try] surrounds.  The store above
    has no such refusals: [session.get] answers a malformed id with a
    [ValueError] that leaves everything as it was, and whatever is
    staged is kept.

    The timestamp columns carry no zone.  A timestamp with an offset is
    stored as its instant, and a [where] clause compares an offset
    watermark as an instant, whereas the store above keeps the value as
    parsed and [Session.sql_gt] orders civil fields.  The two agree on
    values without zone.  Likewise every [datetime.utcnow()] is a
    reading of its own, whereas one call of [sync_data] is given one
    [now]: statements about two iterations or two calls take two clocks
    or timestamps that do not depend on the clock.

    The predicates below delimit the requests and stores on which the
    store above and the engine agree; the statements about whole calls
    that depend on what is committed or compared carry them as
    provisos. *)

Module Column.

(** A text the engine stores: no NUL character. *)
Definition text (s : string) : bool := negb (Str.contains "000"%char s).

(** [Field(max_length=n)]: a [VARCHAR(n)] column. *)
Definition varchar (n : nat) (s : string) : bool := (String.length s <=? n)%nat && text s.

(** An [int] column: a 32-bit integer. *)
Definition integer (n : Z) : bool := (- 2 ^ 31 <=? n) && (n <? 2 ^ 31).

(** A text the engine reads as a [uuid], in the form [str(uuid)] writes:
    8-4-4-4-12 hexadecimal digits.  [uuid.UUID] reads it too. *)
Fixpoint uuid_from (i : nat) (l : list ascii) : bool :=
  match l with
  | [] => Nat.eqb i 36
  | a :: l' =>
      (if Nat.eqb i 8 || Nat.eqb i 13 || Nat.eqb i 18 || Nat.eqb i 23
       then Ascii.eqb a "-"%char
       else match Str.hex_val a with Some _ => true | None => false end)
      && uuid_from (S i) l'
  end.
Definition uuid (s : string) : bool := uuid_from 0 (list_ascii_of_string s).

(** An optional field of a record: absent, or fit for its column. *)
Definition opt {A} (fit : A -> bool) (o : option A) : bool :=
  match o with
  | Some a => fit a
  | None => true
  end.

(** A field a new row cannot do without. *)
Definition required {A} (fit : A -> bool) (o : option A) : bool :=
  match o with
  | Some a => fit a
  | None => false
  end.

End Column.

(** The parent reference of a record, as the create branch sends it to
    [session.get]; a trip has none. *)
Definition incoming_parent (r : Incoming) : option string :=
  match r with
  | InTrip _ => None
  | InDay x => Some (dsd_trip_id x)
  | InActivity x => Some (asd_day_id x)
  | InBudgetItem x => Some (bsd_trip_id x)
  | InNote x => Some (nsd_trip_id x)
  end.

(** The fields of a record fit the columns they are written to:
    [Trip.title], [Trip.destination], [Day.title], [Activity.title] and
    [Activity.location] hold 255 characters, the dates and
    [Activity.time] 50, [BudgetItem.category] 100. *)
Definition fields_fit (r : Incoming) : bool :=
  match r with
  | InTrip x =>
      Column.opt (Column.varchar 255) (tsd_title x)
      && Column.opt (Column.varchar 255) (tsd_destination x)
      && Column.opt (Column.varchar 50) (tsd_start_date x)
      && Column.opt (Column.varchar 50) (tsd_end_date x)
  | InDay x =>
      Column.opt Column.integer (dsd_day_number x)
      && Column.opt (Column.varchar 50) (dsd_date x)
      && Column.opt (Column.varchar 255) (dsd_title x)
  | InActivity x =>
      Column.required (Column.varchar 50) (asd_time x)
      && Column.opt (Column.varchar 255) (asd_title x)
      && Column.opt Column.text (asd_description x)
      && Column.opt (Column.varchar 255) (asd_location x)
      && Column.opt Column.text (asd_notes x)
  | InBudgetItem x =>
      Column.opt (Column.varchar 100) (bsd_category x)
      && Column.opt Column.text (bsd_note x)
  | InNote x => Column.opt Column.text (nsd_content x)
  end.

Section Accepted.
Context `{PyLib}.

(** A text that both the engine and [uuid.UUID] read as a UUID. *)
Definition uuid_text (s : string) : Prop :=
  Column.uuid s = true /\ is_Some (UUID s).

(** The engine refuses nothing the handler sends for [r]: the id is the
    text of a UUID; for a record that is not a tombstone so is the
    parent reference, and the fields fit their columns. *)
Definition accepted (r : Incoming) : Prop :=
  uuid_text (incoming_id r)
  /\ (incoming_is_deleted r = false ->
      (forall p, incoming_parent r = Some p -> uuid_text p)
      /\ fields_fit r = true).

(** The timestamp of [r] is read the same whatever the clock (neither
    parser falls back on [datetime.utcnow()]) and carries no zone, so
    the column stores it as it is. *)
Definition plain_stamp (now : datetime) (r : Incoming) : Prop :=
  (forall clock, _parse_timestamp clock (incoming_updated_at r)
                 = _parse_timestamp now (incoming_updated_at r))
  /\ dt_tzinfo (_parse_timestamp now (incoming_updated_at r)) = None.

End Accepted.

(** Every [local_updated_at] of the store is without zone, as the column
    returns it. *)
Definition naive_store (s : Store) : Prop :=
  forall c k x, row s c k = Some x -> dt_tzinfo (row_updated_at x) = None.

(** ** A parent and its child in one request *)

Section Cascade.
Context `{PyLib}.
Variable now : datetime.
Variable current_user : uuid.
Variable strategy : Strategy.
Variables kt kd ka : uuid.

(** The trip [kt] is there and is the caller's, and a trip was counted;
    the day [kd] is there under [kt], and a day was counted; the activity
    [ka] is there under [kd], and an activity was counted. *)
Definition trip_staged (h : HState) : Prop :=
  (exists t, trips (h_session h) !! kt = Some t /\ trip_user_id t = current_user)
  /\ 1 <= trips_uploaded (h_response h).

Definition day_staged (h : HState) : Prop :=
  (exists d, days (h_session h) !! kd = Some d /\ day_trip_id d = kt)
  /\ 1 <= days_uploaded (h_response h).

Definition activity_staged (h : HState) : Prop :=
  (exists a, activities (h_session h) !! ka = Some a /\ act_day_id a = kd)
  /\ 1 <= activities_uploaded (h_response h).

(** Not there yet, or staged. *)
Definition trip_pending (h : HState) : Prop :=
  0 <= trips_uploaded (h_response h)
  /\ (trips (h_session h) !! kt = None \/ trip_staged h).

Definition day_pending (h : HState) : Prop :=
  0 <= days_uploaded (h_response h)
  /\ (days (h_session h) !! kd = None \/ day_staged h).

Definition activity_pending (h : HState) : Prop :=
  0 <= activities_uploaded (h_response h)
  /\ (activities (h_session h) !! ka = None \/ activity_staged h).

End Cascade.

(** ** Scenarios

    Concrete stores and requests on which the handler is evaluated with
    the reference library.  Keys are written as the UUID texts a client
    sends; [key_1] is the key of ["00000000-0000-0000-0000-000000000001"],
    and so on. *)

Module Scenario.

Definition clock : datetime := mk_datetime 2025 1 1 0 0 0 0 None.
Definition noon : datetime := mk_datetime 2024 6 15 12 0 0 0 None.

Definition alice : uuid := 7%N.
Definition bob : uuid := 8%N.

Definition id_1 : string := "00000000-0000-0000-0000-000000000001".
Definition id_2 : string := "00000000-0000-0000-0000-000000000002".
Definition id_3 : string := "00000000-0000-0000-0000-000000000003".
Definition id_9 : string := "00000000-0000-0000-0000-000000000009".
Definition key_1 : uuid := 1%N.
Definition key_2 : uuid := 2%N.
Definition key_3 : uuid := 3%N.

(** Alice's trip, one of its days and an activity of that day, all last
    modified at noon (a naive timestamp, as [datetime.utcnow] gives). *)
Definition paris : Trip :=
  mk_Trip alice "Server Trip" "Paris, France" "2024-06-15" "2024-06-17"
    None None None None None true noon noon None true noon.
Definition day_one : Day :=
  mk_Day key_1 1 "2024-06-15" (Some "Day 1") noon None true noon.
Definition breakfast : Activity :=
  mk_Activity key_2 (Some "09:00 AM") "Breakfast" (Some "Morning meal")
    (Some "Hotel") None None false noon None true noon.

Definition empty_db : Store := mk_Store ∅ ∅ ∅ ∅ ∅.
Definition db : Store :=
  mk_Store {[ key_1 := paris ]} {[ key_2 := day_one ]} {[ key_3 := breakfast ]} ∅ ∅.


Definition start (s : Store) : HState :=
  mk_HState s (new_response (Datetime.isoformat clock)) [].

Definition trip_patch (ts : string) (title : option string) : TripSyncData :=
  mk_TripSyncData id_1 ts false title None None None None None None.
Definition day_patch (ts : string) (title : option string) : DaySyncData :=
  mk_DaySyncData id_2 ts false id_1 None None title.

(** An edit of the day, stamped one hour before the server's copy. *)
Definition stale_day_edit : SyncRequest :=
  mk_SyncRequest None newer_wins []
    [day_patch "2024-06-15T11:00:00" (Some "Earlier edit")] [] [] [].

(** An edit of the trip, stamped one hour after the server's copy, with
    the zone marker of the endpoint's documented example. *)
Definition newer_marked_edit (strategy : Strategy) : SyncRequest :=
  mk_SyncRequest None strategy
    [trip_patch "2024-06-15T13:00:00Z" (Some "Client edit")] [] [] [] [].

(** The same edit without the marker. *)
Definition newer_edit (strategy : Strategy) : SyncRequest :=
  mk_SyncRequest None strategy
    [trip_patch "2024-06-15T13:00:00" (Some "Client edit")] [] [] [] [].

(** No uploads, a watermark two weeks before the trip's last change. *)
Definition poll : SyncRequest :=
  mk_SyncRequest (Some "2024-06-01T00:00:00") newer_wins [] [] [] [] [].

(** A new trip whose title is present and empty. *)
Definition blank_title_trip (strategy : Strategy) : SyncRequest :=
  mk_SyncRequest None strategy
    [trip_patch "2024-06-15T11:00:00" (Some EmptyString)] [] [] [] [].

(** A new trip whose title is present and empty, with or without
    [preferences]. *)
Definition blank_trip (preferences : option json_object) : TripSyncData :=
  mk_TripSyncData id_1 "2024-06-15T11:00:00" false (Some EmptyString) None None
    None None preferences None.
Definition creation (preferences : option json_object) : SyncRequest :=
  mk_SyncRequest None newer_wins [blank_trip preferences] [] [] [] [].

(** A tombstone for an id the server never had. *)
Definition unknown_tombstone : TripSyncData :=
  mk_TripSyncData id_9 "2024-06-15T11:00:00" true None None None None None None None.

(** A tombstone for Alice's trip. *)
Definition trip_tombstone : TripSyncData :=
  mk_TripSyncData id_1 "2024-06-15T11:00:00" true None None None None None None None.

(** What Bob sends against Alice's rows: an overwrite and a tombstone
    for her trip, an overwrite of her day, a tombstone for her
    activity. *)
Definition hostile : SyncRequest :=
  mk_SyncRequest None client_wins
    [trip_patch "2024-06-15T13:00:00" (Some "Hacked Title"); trip_tombstone]
    [day_patch "2024-06-15T13:00:00" (Some "Hacked Day")]
    [mk_ActivitySyncData id_3 "2024-06-15T13:00:00" true id_2
       None None None None None None None]
    [] [].

Definition sync (me : uuid) (request : SyncRequest) (s : Store)
    : result SyncResponse * Store :=
  sync_data (H := cpython) clock me request s.

End Scenario.

(** ** Further scenarios *)

Module Cases.
Import Scenario.

Definition key_9 : uuid := 9%N.

(** Bob's trip, beside Alice's rows. *)
Definition rome : Trip :=
  mk_Trip bob "Rome" "Rome, Italy" "2024-07-01" "2024-07-03"
    None None None None None false noon noon None true noon.
Definition shared_db : Store :=
  mk_Store (<[ key_9 := rome ]> {[ key_1 := paris ]}) {[ key_2 := day_one ]}
    {[ key_3 := breakfast ]} ∅ ∅.

(** An edit of Alice's day, stamped one hour after the server's copy. *)
Definition newer_day_edit : Incoming :=
  InDay (day_patch "2024-06-15T13:00:00" (Some "Client edit")).

(** An edit of Alice's trip whose timestamp is not a timestamp. *)
Definition unstamped_trip_edit : Incoming :=
  InTrip (trip_patch "yesterday" (Some "Client edit")).

(** An edit of Alice's trip that carries [preferences]. *)
Definition trip_patch_with_preferences : TripSyncData :=
  mk_TripSyncData id_1 "2024-06-15T13:00:00" false (Some "Client edit") None None
    None None (Some [("pace", "slow")]) (Some false).

(** A request in which no id is the text of a UUID: a trip, and the
    tombstone of a note. *)
Definition garbled : SyncRequest :=
  mk_SyncRequest None client_wins
    [mk_TripSyncData "not-a-uuid" "2024-06-15T13:00:00" false (Some "Nowhere")
       None None None None None None]
    [] [] []
    [mk_NoteSyncData "neither-is-this" "2024-06-15T13:00:00" true id_1 None].

(** A new trip, a day under it, an activity under that day at nine, and
    a budget item of the trip. *)
Definition activity_at_nine : ActivitySyncData :=
  mk_ActivitySyncData id_3 "2024-06-15T11:00:00" false id_2 (Some "09:00")
    (Some "Colosseum") None None None None None.
Definition new_chain : SyncRequest :=
  mk_SyncRequest None newer_wins
    [trip_patch "2024-06-15T11:00:00" (Some "Rome")]
    [day_patch "2024-06-15T11:00:00" (Some "Arrival")]
    [activity_at_nine]
    [mk_BudgetItemSyncData "00000000-0000-0000-0000-000000000004"
       "2024-06-15T11:00:00" false id_1 (Some "Food") None None]
    [].

(** Alice's newer edit of her day, sent with the watermark of her poll. *)
Definition poll_with_edit : SyncRequest :=
  mk_SyncRequest (Some "2024-06-01T00:00:00") newer_wins []
    [day_patch "2024-06-15T13:00:00" (Some "Client edit")] [] [] [].

(** The day as a client holds it after a download: the [id] and the
    [local_updated_at] of the dictionary, another title. *)
Definition echoed_day : Incoming :=
  InDay (mk_DaySyncData id_2 "2024-06-15T12:00:00" false id_1 None None
           (Some "Renamed offline")).

(** Alice's rows when the trip itself was last changed on the first of
    May, before the watermark of her poll. *)
Definition may_day : datetime := mk_datetime 2024 5 1 0 0 0 0 None.
Definition settled_paris : Trip :=
  mk_Trip alice "Server Trip" "Paris, France" "2024-06-15" "2024-06-17"
    None None None None None true may_day may_day None true may_day.
Definition settled_db : Store :=
  mk_Store {[ key_1 := settled_paris ]} {[ key_2 := day_one ]}
    {[ key_3 := breakfast ]} ∅ ∅.

(** The removal of Alice's trip. *)
Definition removal : SyncRequest :=
  mk_SyncRequest None newer_wins [trip_tombstone] [] [] [] [].

End Cases.

(** * Verification *)

(** ** Loops *)

Lemma for_each_cons {A} (body : A -> M unit) x xs h :
  for_each (x :: xs) body h = for_each xs body (try_continue (body x) h).
Proof. reflexivity. Qed.

Lemma for_each_app {A} (body : A -> M unit) xs ys h :
  for_each (xs ++ ys) body h = for_each ys body (for_each xs body h).
Proof. unfold for_each. apply fold_left_app. Qed.

(** A property of the state that every iteration keeps is kept by the loop. *)
Lemma for_each_invariant {A} (P : HState -> Prop) (body : A -> M unit) xs :
  (forall x h, P h -> P (try_continue (body x) h)) ->
  forall h, P h -> P (for_each xs body h).
Proof.
  intros Hstep. induction xs as [|x xs IH]; intros h Hh; [exact Hh|].
  rewrite for_each_cons. apply IH, Hstep, Hh.
Qed.

(** ** Tactics for the loop bodies *)

Arguments _should_update : simpl never.
Arguments _parse_timestamp : simpl never.

Ltac unfold_body :=
  unfold step, try_continue, sync_trip, sync_day, sync_activity,
    sync_budget_item, sync_note, session_get, session_get_key, should_update,
    bind, lift, ret, raise, get_session, modify_session,
    modify_response, append_conflict, of_option in *.

Ltac unfold_owner :=
  unfold owner_of, stored, stored_updated_at, activity_owner, day_owner,
    budget_item_owner, note_owner, trip_owner in *.

Ltac eqb_norm :=
  repeat match goal with
    | Hx : N.eqb _ _ = true |- _ => apply N.eqb_eq in Hx
    | Hx : N.eqb _ _ = false |- _ => apply N.eqb_neq in Hx
    | Hx : negb _ = true |- _ => apply negb_true_iff in Hx
    | Hx : negb _ = false |- _ => apply negb_false_iff in Hx
    end.

Ltac run_body :=
  unfold_owner; unfold_body; simpl in *; simplify_option_eq;
  repeat (case_match; simplify_eq/=); eqb_norm; simplify_eq/=.

(** ** The conflict policy *)

Section Policy_facts.
Context `{PyLib}.
Variable now : datetime.

Lemma should_update_absent c strategy :
  _should_update now c None strategy = Ok true.
Proof. reflexivity. Qed.

Lemma should_update_client_wins c server :
  _should_update now c (Some server) "client_wins" = Ok true.
Proof. reflexivity. Qed.

Lemma should_update_server_wins c server :
  _should_update now c (Some server) "server_wins" = Ok false.
Proof. reflexivity. Qed.

Lemma should_update_newer_wins c server :
  _should_update now c (Some server) "newer_wins"
  = Datetime.gt (_parse_timestamp now c) server.
Proof. reflexivity. Qed.

Lemma should_update_merge c server :
  _should_update now c (Some server) "merge"
  = _should_update now c (Some server) "newer_wins".
Proof. reflexivity. Qed.

(** Between two naive values the comparison is the strict order of the
    instants. *)
Lemma gt_naive a b :
  dt_tzinfo a = None -> dt_tzinfo b = None ->
  Datetime.gt a b = Ok (Datetime.wall b <? Datetime.wall a).
Proof. unfold Datetime.gt. by intros -> ->. Qed.

(** A tie goes to the server. *)
Lemma gt_tie a : Datetime.gt a a = Ok false.
Proof. unfold Datetime.gt. destruct (dt_tzinfo a); by rewrite Z.ltb_irrefl. Qed.

(** A value that carries a zone and one that does not cannot be compared. *)
Lemma gt_mixed a b :
  (is_Some (dt_tzinfo a) <-> dt_tzinfo b = None) ->
  Datetime.gt a b = Raise TypeError.
Proof.
  unfold Datetime.gt. intros Hm.
  destruct (dt_tzinfo a) as [oa|], (dt_tzinfo b) as [ob|]; try reflexivity.
  - destruct Hm as [Hm _]. by specialize (Hm (ex_intro _ oa eq_refl)).
  - destruct Hm as [_ Hm]. specialize (Hm eq_refl). by destruct Hm.
Qed.

(** A text neither parser accepts is read as the current time. *)
Lemma parse_timestamp_fallback c :
  fromisoformat c = None -> strptime c = None ->
  fromisoformat (Str.replace "Z"%char "+00:00" c) = None ->
  _parse_timestamp now c = now.
Proof.
  intros H1 H2 H3. unfold _parse_timestamp.
  repeat case_match; congruence.
Qed.

End Policy_facts.

(** ** One incoming record *)

Section Per_record.
Context `{PyLib}.
Variable now : datetime.
Variable current_user : uuid.
Variable strategy : Strategy.

Lemma uploaded_incr r resp : uploaded r (incr_uploaded r resp) = uploaded r resp + 1.
Proof. by destruct r, resp. Qed.

Lemma stored_delete r k s : stored (session_delete r k s) r k = false.
Proof.
  destruct r; simpl; apply bool_decide_eq_false; rewrite <- eq_None_not_Some;
    apply lookup_delete_eq.
Qed.

Lemma str_or_spec v d : str_or v d = present_or blank_str v d.
Proof. destruct v as [[|]|]; reflexivity. Qed.

Lemma int_or_spec v d : int_or v d = present_or blank_int v d.
Proof. destruct v; reflexivity. Qed.

Lemma float_or_spec v d : float_or v d = present_or blank_float v d.
Proof.
  destruct v as [x|]; [|reflexivity].
  unfold float_or, present_or, Float.truthy, blank_float. by destruct (_ || _).
Qed.

Lemma bool_or_spec v d : bool_or v d = present_or blank_bool v d.
Proof. destruct v as [[|]|]; reflexivity. Qed.

(** A record of another user is skipped, whatever it asks for. *)
Lemma foreign_record_skipped (r : Incoming) (h : HState) (k other : uuid) :
  other <> current_user ->
  UUID (incoming_id r) = Some k ->
  owner_of (h_session h) r k = Some other ->
  step now current_user strategy r h = h.
Proof.
  intros Hne HU Ho. destruct h as [s resp cs].
  destruct r as [x|x|x|x|x]; simpl in *; unfold_owner; unfold_body; simpl in *;
    rewrite HU; simpl; run_body; done.
Qed.

(** A write the policy rejects changes neither the store nor the
    counters; the trip loop alone reports it. *)
Lemma rejected_write (r : Incoming) (h : HState) (k : uuid) (server_ts : datetime) :
  incoming_is_deleted r = false ->
  UUID (incoming_id r) = Some k ->
  owner_of (h_session h) r k = Some current_user ->
  stored_updated_at (h_session h) r k = Some server_ts ->
  _should_update now (incoming_updated_at r) (Some server_ts) (strategy_str strategy)
    = Ok false ->
  step now current_user strategy r h
  = mk_HState (h_session h) (h_response h)
      match r with
      | InTrip x => h_conflicts h ++ [trip_conflict x server_ts]
      | _ => h_conflicts h
      end.
Proof.
  intros Hd HU Ho Hts Hsu. destruct h as [s resp cs].
  destruct r as [x|x|x|x|x]; simpl in *; unfold_owner; unfold_body; simpl in *;
    rewrite HU, Hd; simpl; simplify_option_eq; rewrite ?N.eqb_refl; simpl;
    rewrite Hsu; simpl; try done.
Qed.

(** A record the server does not have is created under its parent, or
    skipped when the parent is missing or foreign. *)
Lemma step_creates (r : Incoming) (h : HState) (k : uuid) :
  incoming_is_deleted r = false ->
  UUID (incoming_id r) = Some k ->
  stored (h_session h) r k = false ->
  (parent_ok current_user (h_session h) r = true ->
     step now current_user strategy r h
     = mk_HState (session_create now current_user r k (h_session h))
         (incr_uploaded r (h_response h)) (h_conflicts h))
  /\ (parent_ok current_user (h_session h) r = false ->
      step now current_user strategy r h = h).
Proof.
  intros Hd HU Hs. destruct h as [s resp cs].
  destruct r as [x|x|x|x|x]; simpl in *; apply bool_decide_eq_false in Hs;
    rewrite <- eq_None_not_Some in Hs.
  all: unfold_body; simpl; rewrite HU, Hd; simpl; rewrite Hs; simpl.
  all: unfold parent_ok, session_create, parent_of, Trip_init, created_trip,
         Day_init, created_day, Activity_init, created_activity,
         BudgetItem_init, created_budget_item, Note_init, created_note; simpl.
  all: rewrite ?str_or_spec, ?int_or_spec, ?float_or_spec, ?bool_or_spec.
  all: split; intros Hp; try done.
  all: unfold_owner; repeat (case_match; simplify_option_eq); eqb_norm;
         simplify_eq/=; try done.
Qed.

(** A tombstone removes a row of the caller and counts as an upload. *)
Lemma step_deletes (r : Incoming) (h : HState) (k : uuid) :
  incoming_is_deleted r = true ->
  UUID (incoming_id r) = Some k ->
  owner_of (h_session h) r k = Some current_user ->
  step now current_user strategy r h
  = mk_HState (session_delete r k (h_session h))
      (incr_uploaded r (h_response h)) (h_conflicts h).
Proof.
  intros Hd HU Ho. destruct h as [s resp cs].
  destruct r as [x|x|x|x|x]; simpl in *; unfold_owner; unfold_body; simpl in *;
    rewrite HU, Hd; simpl; simplify_option_eq; rewrite ?N.eqb_refl; simpl; done.
Qed.

(** Any other tombstone is ignored. *)
Lemma step_ignores_tombstone (r : Incoming) (h : HState) :
  incoming_is_deleted r = true ->
  (forall k, UUID (incoming_id r) = Some k ->
             owner_of (h_session h) r k <> Some current_user) ->
  step now current_user strategy r h = h.
Proof.
  intros Hd Hno. destruct h as [s resp cs].
  destruct r as [x|x|x|x|x]; simpl in *; unfold_body; simpl in *; rewrite Hd.
  all: match goal with |- context [UUID ?i] => destruct (UUID i) as [k|] eqn:HU end;
         simpl; [|done]; specialize (Hno k eq_refl); unfold_owner.
  all: repeat (case_match; simplify_eq/=); eqb_norm; simplify_eq/=; try done.
  all: exfalso; apply Hno; simplify_option_eq; done.
Qed.

(** What an iteration does to the store. *)
Lemma step_effect (r : Incoming) (h : HState) :
  effect current_user (h_session h) (h_session (step now current_user strategy r h)).
Proof.
  destruct h as [s resp cs].
  destruct r as [x|x|x|x|x]; simpl; unfold_body; simpl;
    repeat (case_match; simplify_eq/=); eqb_norm; simplify_eq/=;
    try (by constructor);
    constructor; unfold_owner; simplify_option_eq; auto.
Qed.

End Per_record.

(** ** Rows of another owner *)

Section Preservation.
Variables me other : uuid.
Hypothesis Hother : other <> me.

Lemma preserves_refl s : preserves_rows_of other s s.
Proof. by repeat split. Qed.

(** Rows that are kept keep their owner. *)
Lemma preserves_owner s s' :
  preserves_rows_of other s s' ->
  (forall k, trip_owner s k = Some other -> trip_owner s' k = Some other) /\
  (forall k, day_owner s k = Some other -> day_owner s' k = Some other).
Proof.
  intros (Ht & Hd & _).
  assert (Htrip : forall k, trip_owner s k = Some other -> trip_owner s' k = Some other).
  { intros k Hk. unfold trip_owner in *. by rewrite (Ht k Hk). }
  split; [exact Htrip|].
  intros k Hk. pose proof (Hd k Hk) as Hrow. unfold day_owner in *.
  rewrite Hrow. destruct (days s !! k) as [d|]; simpl in *; [|done]. by apply Htrip.
Qed.

Lemma preserves_trans s1 s2 s3 :
  preserves_rows_of other s1 s2 -> preserves_rows_of other s2 s3 ->
  preserves_rows_of other s1 s3.
Proof.
  intros H12 H23.
  destruct (preserves_owner _ _ H12) as [Ot Od].
  destruct H12 as (T1 & D1 & A1 & B1 & N1), H23 as (T2 & D2 & A2 & B2 & N2).
  repeat split; intros k Hk.
  - rewrite <- (T1 k Hk). apply T2, Ot, Hk.
  - rewrite <- (D1 k Hk). apply D2, Od, Hk.
  - rewrite <- (A1 k Hk). apply A2. pose proof (A1 k Hk) as Hrow.
    unfold activity_owner in *. rewrite Hrow.
    destruct (activities s1 !! k) as [a|]; simpl in *; [|done]. by apply Od.
  - rewrite <- (B1 k Hk). apply B2. pose proof (B1 k Hk) as Hrow.
    unfold budget_item_owner in *. rewrite Hrow.
    destruct (budget_items s1 !! k) as [b|]; simpl in *; [|done]. by apply Ot.
  - rewrite <- (N1 k Hk). apply N2. pose proof (N1 k Hk) as Hrow.
    unfold note_owner in *. rewrite Hrow.
    destruct (notes s1 !! k) as [n|]; simpl in *; [|done]. by apply Ot.
Qed.

Lemma filter_keeps {R} (P : uuid * R -> Prop) `{!forall x, Decision (P x)}
    (m : gmap uuid R) k :
  (forall r, m !! k = Some r -> P (k, r)) -> filter P m !! k = m !! k.
Proof.
  intros HP. destruct (m !! k) as [r|] eqn:Hk.
  - apply map_lookup_filter_Some_2; auto.
  - apply map_lookup_filter_None_2. left. exact Hk.
Qed.

Lemma effect_preserves s s' :
  effect me s s' -> preserves_rows_of other s s'.
Proof.
  destruct 1; unfold preserves_rows_of; simpl.
  - by repeat split.
  - (* delete_trip *)
    repeat split; intros k' Hk'.
    + apply lookup_delete_ne. intros ->. unfold trip_owner in *. congruence.
    + apply filter_keeps. intros d Hd. simpl. intros Heq.
      unfold day_owner in Hk'. rewrite Hd in Hk'. simpl in Hk'.
      rewrite Heq in Hk'. congruence.
    + apply filter_keeps. intros a Ha. simpl.
      unfold activity_owner, day_owner, Session.activity_outside in *.
      rewrite Ha in Hk'. simpl in Hk'.
      destruct (days s !! act_day_id a) as [d|]; simpl in *; [|done].
      apply negb_true_iff, N.eqb_neq. intros Heq. rewrite Heq in Hk'.
      congruence.
    + apply filter_keeps. intros b Hb. simpl. intros Heq.
      unfold budget_item_owner in *. rewrite Hb in Hk'. simpl in Hk'.
      rewrite Heq in Hk'. congruence.
    + apply filter_keeps. intros n Hn. simpl. intros Heq.
      unfold note_owner in *. rewrite Hn in Hk'. simpl in Hk'.
      rewrite Heq in Hk'. congruence.
  - repeat split; intros k' Hk'; try done.
    apply lookup_insert_ne. intros ->. destruct H; congruence.
  - (* delete_day *)
    repeat split; intros k' Hk'; try done.
    + apply lookup_delete_ne. intros ->. congruence.
    + apply filter_keeps. intros a Ha. simpl. intros Heq.
      unfold activity_owner in *. rewrite Ha in Hk'. simpl in Hk'.
      rewrite Heq in Hk'. congruence.
  - repeat split; intros k' Hk'; try done.
    apply lookup_insert_ne. intros ->. destruct H; congruence.
  - repeat split; intros k' Hk'; try done.
    apply lookup_delete_ne. intros ->. congruence.
  - repeat split; intros k' Hk'; try done.
    apply lookup_insert_ne. intros ->. destruct H; congruence.
  - repeat split; intros k' Hk'; try done.
    apply lookup_delete_ne. intros ->. congruence.
  - repeat split; intros k' Hk'; try done.
    apply lookup_insert_ne. intros ->. destruct H; congruence.
  - repeat split; intros k' Hk'; try done.
    apply lookup_delete_ne. intros ->. congruence.
  - repeat split; intros k' Hk'; try done.
    apply lookup_insert_ne. intros ->. destruct H; congruence.
Qed.

End Preservation.

(** ** The whole call *)

Section Call.
Context `{PyLib}.
Variable now : datetime.
Variable current_user : uuid.

(** The loops run in the order trips, days, activities, budget items,
    notes. *)
Lemma upload_order (request : SyncRequest) (h : HState) :
  let strategy := conflict_resolution request in
  upload now current_user request h
  = for_each (req_notes request) (sync_note now current_user strategy)
      (for_each (req_budget_items request) (sync_budget_item now current_user strategy)
         (for_each (req_activities request) (sync_activity now current_user strategy)
            (for_each (req_days request) (sync_day now current_user strategy)
               (for_each (req_trips request) (sync_trip now current_user strategy) h)))).
Proof. reflexivity. Qed.

(** A property every iteration keeps is kept by the upload phase. *)
Lemma upload_invariant (P : HState -> Prop) (request : SyncRequest) :
  (forall r h, P h -> P (step now current_user (conflict_resolution request) r h)) ->
  forall h, P h -> P (upload now current_user request h).
Proof.
  intros Hstep h Hh. unfold upload.
  apply for_each_invariant; [intros x; apply (Hstep (InNote x))|].
  apply for_each_invariant; [intros x; apply (Hstep (InBudgetItem x))|].
  apply for_each_invariant; [intros x; apply (Hstep (InActivity x))|].
  apply for_each_invariant; [intros x; apply (Hstep (InDay x))|].
  apply for_each_invariant; [intros x; apply (Hstep (InTrip x))|].
  exact Hh.
Qed.

Lemma upload_preserves (other : uuid) (request : SyncRequest) (h : HState) :
  other <> current_user ->
  preserves_rows_of other (h_session h) (h_session (upload now current_user request h)).
Proof.
  intros Hne.
  apply (upload_invariant
           (fun h' => preserves_rows_of other (h_session h) (h_session h')));
    [|apply preserves_refl].
  intros r h' Hh'. eapply preserves_trans; [exact Hh'|].
  eapply effect_preserves; [exact Hne|]. apply step_effect.
Qed.

(** The download block reads the store and writes the response. *)
Lemma download_keeps_session (last_sync : datetime) (h : HState) :
  h_session (download current_user last_sync h).2 = h_session h.
Proof.
  destruct h as [s resp cs]. unfold download.
  unfold bind, lift, ret, get_session, modify_response. simpl.
  repeat (case_match; simplify_eq/=); done.
Qed.

Lemma sync_data_store (request : SyncRequest) (db : Store) :
  (sync_data now current_user request db).2
  = h_session (upload now current_user request
                 (mk_HState db (new_response (Datetime.isoformat now)) [])).
Proof.
  unfold sync_data.
  set (h := upload _ _ _ _).
  destruct (parse_last_sync now request) as [ls|].
  - pose proof (download_keeps_session ls h) as Hk.
    destruct (download current_user ls h) as [[?|?] h']; simpl in *; done.
  - done.
Qed.

(** Without a watermark the call returns, with nothing to download. *)
Lemma sync_data_without_watermark (request : SyncRequest) (db : Store) :
  parse_last_sync now request = None ->
  let h := upload now current_user request
             (mk_HState db (new_response (Datetime.isoformat now)) []) in
  sync_data now current_user request db
  = (Ok (set_conflicts (h_conflicts h) (h_response h)), h_session h).
Proof. intros Hls. unfold sync_data. by rewrite Hls. Qed.

(** With a watermark the call raises as soon as one trip of the caller
    is newer than it. *)
Lemma download_raises_on_a_trip (request : SyncRequest) (db : Store)
    (last_sync : datetime) (k : uuid) (t : Trip) :
  parse_last_sync now request = Some last_sync ->
  trips (sync_data now current_user request db).2 !! k = Some t ->
  trip_user_id t = current_user ->
  Session.sql_gt (trip_local_updated_at t) last_sync = true ->
  (sync_data now current_user request db).1 = Raise AttributeError.
Proof.
  intros Hls Hk Hu Hgt. rewrite sync_data_store in Hk.
  unfold sync_data. rewrite Hls.
  set (h := upload _ _ _ _) in *.
  unfold download, bind, lift, get_session. simpl.
  set (sel := Session.select _ _).
  assert (Hin : (k, t) ∈ sel).
  { unfold sel, Session.select. apply list_elem_of_In, filter_In. split.
    - apply list_elem_of_In, elem_of_map_to_list, Hk.
    - simpl. rewrite Hu, N.eqb_refl, Hgt. done. }
  destruct sel as [|[k' t'] sel']; [by apply elem_of_nil in Hin|].
  reflexivity.
Qed.

End Call.

(** ** The download block *)

Section Download.
Context `{PyLib}.
Variable now : datetime.
Variable current_user : uuid.

(** A selection holds each row that satisfies the clause, once. *)
Lemma select_spec {R} (P : uuid * R -> bool) (m : gmap uuid R) k r :
  (k, r) ∈ Session.select P m <-> m !! k = Some r /\ P (k, r) = true.
Proof.
  unfold Session.select. rewrite list_elem_of_In, filter_In, <- list_elem_of_In.
  by rewrite elem_of_map_to_list.
Qed.

Lemma NoDup_bool_filter {A} (f : A -> bool) (l : list A) :
  NoDup l -> NoDup (List.filter f l).
Proof.
  induction 1 as [|a l Ha Hl IH]; simpl; [constructor|].
  destruct (f a); [|exact IH]. constructor; [|exact IH].
  rewrite list_elem_of_In, filter_In, <- list_elem_of_In. tauto.
Qed.

Lemma select_NoDup {R} (P : uuid * R -> bool) (m : gmap uuid R) :
  NoDup (Session.select P m).
Proof. apply NoDup_bool_filter, NoDup_map_to_list. Qed.

Lemma filter_none {A} (f : A -> bool) (l : list A) :
  (forall a, a ∈ l -> f a = false) -> List.filter f l = [].
Proof.
  induction l as [|a l IH]; intros Hf; [done|]. simpl.
  rewrite (Hf a) by apply list_elem_of_here. apply IH. intros b Hb.
  apply Hf. by apply list_elem_of_further.
Qed.

Lemma in_spec k ids : in_ k ids = true <-> k ∈ ids.
Proof.
  unfold in_. rewrite existsb_exists, list_elem_of_In. split.
  - intros (x & Hx & Heq). apply N.eqb_eq in Heq. by subst.
  - intros Hk. exists k. split; [done|]. apply N.eqb_refl.
Qed.

(** [user_trip_ids] are the keys of the caller's trips. *)
Lemma user_trip_ids_spec (s : Store) k :
  k ∈ map fst (Session.select (fun r => N.eqb (trip_user_id r.2) current_user) (trips s))
  <-> trip_owner s k = Some current_user.
Proof.
  rewrite list_elem_of_In, in_map_iff. unfold trip_owner. split.
  - intros ([k' t] & <- & Hin). apply list_elem_of_In, select_spec in Hin.
    destruct Hin as [Ht Hu]. simpl in *. rewrite Ht. simpl. f_equal.
    by apply N.eqb_eq.
  - intros Ho. destruct (trips s !! k) as [t|] eqn:Ht; simplify_eq/=.
    exists (k, t). split; [done|]. apply list_elem_of_In, select_spec.
    split; [done|]. apply N.eqb_refl.
Qed.

(** [user_day_ids] are the keys of the days of the caller's trips. *)
Lemma user_day_ids_spec (s : Store) ids k :
  (forall t, t ∈ ids <-> trip_owner s t = Some current_user) ->
  k ∈ map fst (Session.select (fun r => in_ (day_trip_id r.2) ids) (days s))
  <-> day_owner s k = Some current_user.
Proof.
  intros Hids. rewrite list_elem_of_In, in_map_iff. unfold day_owner. split.
  - intros ([k' d] & <- & Hin). apply list_elem_of_In, select_spec in Hin.
    destruct Hin as [Hd Hu]. simpl in *. rewrite Hd. simpl.
    by apply Hids, in_spec.
  - intros Ho. destruct (days s !! k) as [d|] eqn:Hd; simplify_eq/=.
    exists (k, d). split; [done|]. apply list_elem_of_In, select_spec.
    split; [done|]. simpl. by apply in_spec, Hids.
Qed.

Lemma in_decide k ids (P : Prop) `{!Decision P} :
  (k ∈ ids <-> P) -> in_ k ids = bool_decide P.
Proof.
  intros Hiff. destruct (in_ k ids) eqn:Hin.
  - symmetry. apply bool_decide_eq_true, Hiff, in_spec, Hin.
  - symmetry. apply bool_decide_eq_false. intros HP.
    apply Hiff, in_spec in HP. congruence.
Qed.

(** When no trip of the caller is newer than the watermark, the block
    fills the four other lists with the delta of their kind, and each
    counter with the length of its list. *)
Lemma download_children (last_sync : datetime) (h : HState) :
  fresh_trips current_user last_sync (h_session h) = [] ->
  let s := h_session h in
  let days_ := fresh_days current_user last_sync s in
  let acts := fresh_activities current_user last_sync s in
  let items := fresh_budget_items current_user last_sync s in
  let notes_ := fresh_notes current_user last_sync s in
  sd_days (server_data (h_response h)) = [] ->
  sd_activities (server_data (h_response h)) = [] ->
  sd_budget_items (server_data (h_response h)) = [] ->
  sd_notes (server_data (h_response h)) = [] ->
  days_downloaded (h_response h) = 0 ->
  activities_downloaded (h_response h) = 0 ->
  budget_items_downloaded (h_response h) = 0 ->
  notes_downloaded (h_response h) = 0 ->
  exists resp,
    download current_user last_sync h = (Ok tt, mk_HState s resp (h_conflicts h))
    /\ sd_trips (server_data resp) = [] /\ trips_downloaded resp = 0
    /\ sd_days (server_data resp) = map _serialize_day days_
    /\ days_downloaded resp = Z.of_nat (length days_)
    /\ sd_activities (server_data resp) = map _serialize_activity acts
    /\ activities_downloaded resp = Z.of_nat (length acts)
    /\ sd_budget_items (server_data resp) = map _serialize_budget_item items
    /\ budget_items_downloaded resp = Z.of_nat (length items)
    /\ sd_notes (server_data resp) = map _serialize_note notes_
    /\ notes_downloaded resp = Z.of_nat (length notes_).
Proof.
  destruct h as [s [ts c1 c2 c3 c4 c5 c6 c7 c8 c9 c10 c11 cl [l1 l2 l3 l4 l5]] cs].
  simpl. intros Hfresh -> -> -> -> -> -> -> ->.
  unfold download, bind, lift, ret, get_session, modify_response. simpl.
  unfold fresh_trips in Hfresh. rewrite Hfresh. simpl.
  set (ids := map fst (Session.select _ (trips s))).
  assert (Hids : forall t, t ∈ ids <-> trip_owner s t = Some current_user)
    by (intros t; apply user_trip_ids_spec).
  destruct ids as [|i ids'] eqn:Eids.
  - (* the caller has no trip: nothing belongs to them *)
    assert (Hno : forall t, trip_owner s t <> Some current_user).
    { intros t Ht. apply Hids in Ht. by apply elem_of_nil in Ht. }
    eexists. split; [reflexivity|]. simpl.
    unfold fresh_days, fresh_activities, fresh_budget_items, fresh_notes, Session.select.
    rewrite !filter_none; [done| | | |]; intros [k r] _; simpl.
    all: apply andb_false_iff; left; apply bool_decide_eq_false; try apply Hno.
    unfold day_owner. destruct (days s !! act_day_id r); simpl; [apply Hno|done].
  - rewrite <- Eids in *. clear Eids.
    set (day_ids := map fst (Session.select _ (days s))).
    assert (Hdays : forall d, d ∈ day_ids <-> day_owner s d = Some current_user)
      by (intros d; apply user_day_ids_spec; exact Hids).
    assert (Ed : Session.select
                   (fun r : uuid * Day => in_ (day_trip_id r.2) ids
                      && Session.sql_gt (day_local_updated_at r.2) last_sync) (days s)
                 = fresh_days current_user last_sync s).
    { apply filter_ext. intros [k d]. simpl. f_equal. apply in_decide, Hids. }
    assert (Eb : Session.select
                   (fun r : uuid * BudgetItem => in_ (item_trip_id r.2) ids
                      && Session.sql_gt (item_local_updated_at r.2) last_sync)
                   (budget_items s)
                 = fresh_budget_items current_user last_sync s).
    { apply filter_ext. intros [k d]. simpl. f_equal. apply in_decide, Hids. }
    assert (En : Session.select
                   (fun r : uuid * Note => in_ (note_trip_id r.2) ids
                      && Session.sql_gt (note_local_updated_at r.2) last_sync) (notes s)
                 = fresh_notes current_user last_sync s).
    { apply filter_ext. intros [k d]. simpl. f_equal. apply in_decide, Hids. }
    rewrite Ed, Eb, En.
    destruct day_ids as [|j day_ids'] eqn:Edays.
    + assert (Hno : forall d, day_owner s d <> Some current_user).
      { intros d Hd. apply Hdays in Hd. by apply elem_of_nil in Hd. }
      eexists. split; [reflexivity|]. simpl.
      assert (Ea : fresh_activities current_user last_sync s = []).
      { unfold fresh_activities, Session.select. apply filter_none.
        intros [k a] _. simpl. apply andb_false_iff. left.
        apply bool_decide_eq_false, Hno. }
      rewrite Ea. done.
    + rewrite <- Edays in *. clear Edays.
      assert (Ea : Session.select
                     (fun r : uuid * Activity => in_ (act_day_id r.2) day_ids
                        && Session.sql_gt (act_local_updated_at r.2) last_sync)
                     (activities s)
                   = fresh_activities current_user last_sync s).
      { apply filter_ext. intros [k a]. simpl. f_equal. apply in_decide, Hdays. }
      rewrite Ea. eexists. split; [reflexivity|]. done.
Qed.

End Download.

(** ** The delta of a whole call *)

Section Delta_of_a_call.
Context `{PyLib}.
Variable now : datetime.
Variable current_user : uuid.

(** The upload phase writes neither [server_data] nor a download counter. *)
Lemma upload_keeps_downloads (request : SyncRequest) (h : HState) :
  let r := h_response h in
  let r' := h_response (upload now current_user request h) in
  server_data r' = server_data r
  /\ trips_downloaded r' = trips_downloaded r
  /\ days_downloaded r' = days_downloaded r
  /\ activities_downloaded r' = activities_downloaded r
  /\ budget_items_downloaded r' = budget_items_downloaded r
  /\ notes_downloaded r' = notes_downloaded r.
Proof.
  simpl.
  apply (upload_invariant now current_user (fun h' =>
    server_data (h_response h') = server_data (h_response h)
    /\ trips_downloaded (h_response h') = trips_downloaded (h_response h)
    /\ days_downloaded (h_response h') = days_downloaded (h_response h)
    /\ activities_downloaded (h_response h') = activities_downloaded (h_response h)
    /\ budget_items_downloaded (h_response h') = budget_items_downloaded (h_response h)
    /\ notes_downloaded (h_response h') = notes_downloaded (h_response h))); [|done].
  intros r [s resp cs] (E1 & E2 & E3 & E4 & E5 & E6). simpl in *.
  rewrite <- E1, <- E2, <- E3, <- E4, <- E5, <- E6. destruct resp.
  destruct r; unfold_body; simpl; repeat (case_match; simplify_eq/=); done.
Qed.

(** Without a watermark the call returns with empty download lists and
    download counters at zero. *)
Lemma no_watermark_no_download (request : SyncRequest) (db : Store) :
  parse_last_sync now request = None ->
  exists resp,
    (sync_data now current_user request db).1 = Ok resp
    /\ server_data resp = mk_ServerData [] [] [] [] []
    /\ trips_downloaded resp = 0 /\ days_downloaded resp = 0
    /\ activities_downloaded resp = 0 /\ budget_items_downloaded resp = 0
    /\ notes_downloaded resp = 0.
Proof.
  intros Hls. rewrite sync_data_without_watermark by exact Hls. simpl.
  set (h0 := mk_HState db _ []).
  destruct (upload_keeps_downloads request h0) as (E1 & E2 & E3 & E4 & E5 & E6).
  eexists. split; [reflexivity|].
  destruct (h_response (upload now current_user request h0)). simpl in *.
  by rewrite E1, E2, E3, E4, E5, E6.
Qed.

(** With a watermark, and no trip of the caller newer than it, the call
    returns the delta of the four other kinds: each list is the
    serialisation of the rows of the caller that are strictly newer than
    the watermark, each row once, and each counter is the length of its
    list. *)
Lemma sync_data_delta (request : SyncRequest) (db : Store) (last_sync : datetime) :
  parse_last_sync now request = Some last_sync ->
  let s := (sync_data now current_user request db).2 in
  fresh_trips current_user last_sync s = [] ->
  exists resp,
    (sync_data now current_user request db).1 = Ok resp
    /\ sd_trips (server_data resp) = [] /\ trips_downloaded resp = 0
    /\ sd_days (server_data resp)
       = map _serialize_day (fresh_days current_user last_sync s)
    /\ days_downloaded resp = Z.of_nat (length (fresh_days current_user last_sync s))
    /\ sd_activities (server_data resp)
       = map _serialize_activity (fresh_activities current_user last_sync s)
    /\ activities_downloaded resp
       = Z.of_nat (length (fresh_activities current_user last_sync s))
    /\ sd_budget_items (server_data resp)
       = map _serialize_budget_item (fresh_budget_items current_user last_sync s)
    /\ budget_items_downloaded resp
       = Z.of_nat (length (fresh_budget_items current_user last_sync s))
    /\ sd_notes (server_data resp)
       = map _serialize_note (fresh_notes current_user last_sync s)
    /\ notes_downloaded resp = Z.of_nat (length (fresh_notes current_user last_sync s)).
Proof.
  intros Hls. simpl. rewrite sync_data_store. unfold sync_data. rewrite Hls.
  set (h0 := mk_HState db _ []).
  destruct (upload_keeps_downloads request h0) as (E1 & E2 & E3 & E4 & E5 & E6).
  set (h := upload now current_user request h0) in *. intros Hfresh.
  destruct (download_children current_user last_sync h Hfresh)
    as (resp & Hd & R); try (by rewrite ?E1, ?E2, ?E3, ?E4, ?E5, ?E6).
  rewrite Hd. simpl. exists (set_conflicts (h_conflicts h) resp).
  split; [done|]. destruct resp. exact R.
Qed.

(** The delta holds the rows of the caller that are newer than the
    watermark, and holds each of them once. *)
Lemma fresh_days_spec (watermark : datetime) (s : Store) k d :
  (k, d) ∈ fresh_days current_user watermark s
  <-> days s !! k = Some d
      /\ day_owner s k = Some current_user
      /\ Session.sql_gt (day_local_updated_at d) watermark = true.
Proof.
  unfold fresh_days. rewrite select_spec. simpl.
  rewrite andb_true_iff, bool_decide_eq_true. unfold day_owner.
  split.
  - intros (Hd & Ho & Hgt). rewrite Hd. simpl. done.
  - intros (Hd & Ho & Hgt). rewrite Hd in Ho. simpl in Ho. done.
Qed.

Lemma fresh_activities_spec (watermark : datetime) (s : Store) k a :
  (k, a) ∈ fresh_activities current_user watermark s
  <-> activities s !! k = Some a
      /\ activity_owner s k = Some current_user
      /\ Session.sql_gt (act_local_updated_at a) watermark = true.
Proof.
  unfold fresh_activities. rewrite select_spec. simpl.
  rewrite andb_true_iff, bool_decide_eq_true. unfold activity_owner.
  split.
  - intros (Hd & Ho & Hgt). rewrite Hd. simpl. done.
  - intros (Hd & Ho & Hgt). rewrite Hd in Ho. simpl in Ho. done.
Qed.

Lemma fresh_budget_items_spec (watermark : datetime) (s : Store) k b :
  (k, b) ∈ fresh_budget_items current_user watermark s
  <-> budget_items s !! k = Some b
      /\ budget_item_owner s k = Some current_user
      /\ Session.sql_gt (item_local_updated_at b) watermark = true.
Proof.
  unfold fresh_budget_items. rewrite select_spec. simpl.
  rewrite andb_true_iff, bool_decide_eq_true. unfold budget_item_owner.
  split.
  - intros (Hd & Ho & Hgt). rewrite Hd. simpl. done.
  - intros (Hd & Ho & Hgt). rewrite Hd in Ho. simpl in Ho. done.
Qed.

Lemma fresh_notes_spec (watermark : datetime) (s : Store) k n :
  (k, n) ∈ fresh_notes current_user watermark s
  <-> notes s !! k = Some n
      /\ note_owner s k = Some current_user
      /\ Session.sql_gt (note_local_updated_at n) watermark = true.
Proof.
  unfold fresh_notes. rewrite select_spec. simpl.
  rewrite andb_true_iff, bool_decide_eq_true. unfold note_owner.
  split.
  - intros (Hd & Ho & Hgt). rewrite Hd. simpl. done.
  - intros (Hd & Ho & Hgt). rewrite Hd in Ho. simpl in Ho. done.
Qed.

Lemma fresh_NoDup (watermark : datetime) (s : Store) :
  NoDup (fresh_trips current_user watermark s)
  /\ NoDup (fresh_days current_user watermark s)
  /\ NoDup (fresh_activities current_user watermark s)
  /\ NoDup (fresh_budget_items current_user watermark s)
  /\ NoDup (fresh_notes current_user watermark s).
Proof. repeat split; apply select_NoDup. Qed.

End Delta_of_a_call.

(** ** The claims *)

Section Claims.
Context `{PyLib}.
Variable now : datetime.
Variable current_user : uuid.

Lemma upload_singleton last_sync strategy r h :
  upload now current_user (singleton_request last_sync strategy r) h
  = step now current_user strategy r h.
Proof. by destruct r. Qed.

(** C2. Ownership isolation.  Let [other] be any user but the caller.
    Whatever the request and its strategy, every row whose ownership
    chain resolves to [other] before the call is in the store after the
    call, unchanged (it was neither modified nor deleted).  Moreover an
    incoming record of any of the five kinds whose id names such a row
    is skipped: the iteration leaves the store, every counter and the
    conflict list as they were, and raises nothing. *)
Theorem ownership_isolation (other : uuid) (request : SyncRequest) (db : Store) :
  other <> current_user ->
  preserves_rows_of other db (sync_data now current_user request db).2
  /\ forall (strategy : Strategy) (r : Incoming) (h : HState) (k : uuid),
       UUID (incoming_id r) = Some k ->
       owner_of (h_session h) r k = Some other ->
       step now current_user strategy r h = h.
Proof.
  intros Hne. split.
  - rewrite sync_data_store.
    apply (upload_preserves now current_user other request
             (mk_HState db (new_response (Datetime.isoformat now)) []) Hne).
  - intros strategy r h k HU Ho. by eapply foreign_record_skipped.
Qed.

(** C4, as amended. Under [server_wins] an incoming record that is not a
    tombstone and names an existing row of the caller is never applied,
    whatever its timestamp: the store and every counter stay as they
    were.  When the record is a trip, one conflict record with
    resolution ["server_wins"] is appended for it. *)
Theorem server_wins_never_applies (r : Incoming) (h : HState) (k : uuid) :
  incoming_is_deleted r = false ->
  UUID (incoming_id r) = Some k ->
  owner_of (h_session h) r k = Some current_user ->
  let h' := step now current_user server_wins r h in
  h_session h' = h_session h
  /\ h_response h' = h_response h
  /\ forall x, r = InTrip x ->
       exists t, trips (h_session h) !! k = Some t
                 /\ h_conflicts h'
                    = (h_conflicts h ++ [trip_conflict x (trip_local_updated_at t)])%list.
Proof.
  intros Hd HU Ho.
  assert (Hts : exists ts, stored_updated_at (h_session h) r k = Some ts).
  { destruct r; unfold_owner; simplify_option_eq; eauto. }
  destruct Hts as [ts Hts]. simpl.
  rewrite (rejected_write now current_user server_wins r h k ts Hd HU Ho Hts eq_refl).
  repeat split. intros x ->. simpl in *.
  destruct (trips (h_session h) !! k) as [t|]; simplify_eq/=. eauto.
Qed.

(** C8. Tombstones.  For an incoming record flagged [is_deleted]: if its
    id names a row whose ownership chain resolves to the caller, the row
    is removed from its table and the counter of the kind grows by one;
    in every other case (no such row, a malformed id, a row of someone
    else) the iteration changes nothing, and a call that carries only
    such a tombstone returns the untouched response and leaves the store
    as it was. *)
Theorem tombstones (strategy : Strategy) (r : Incoming) (h : HState) :
  incoming_is_deleted r = true ->
  let h' := step now current_user strategy r h in
  (forall k, UUID (incoming_id r) = Some k ->
     owner_of (h_session h) r k = Some current_user ->
     h' = mk_HState (session_delete r k (h_session h))
                    (incr_uploaded r (h_response h)) (h_conflicts h)
     /\ stored (h_session h') r k = false
     /\ uploaded r (h_response h') = uploaded r (h_response h) + 1)
  /\ ((forall k, UUID (incoming_id r) = Some k ->
         owner_of (h_session h) r k <> Some current_user) ->
      h' = h
      /\ sync_data now current_user (singleton_request None strategy r) (h_session h)
         = (Ok (new_response (Datetime.isoformat now)), h_session h)).
Proof.
  intros Hd. simpl. split.
  - intros k HU Ho.
    rewrite (step_deletes now current_user strategy r h k Hd HU Ho). simpl.
    split; [done|]. split; [apply stored_delete | apply uploaded_incr].
  - intros Hno. split; [by apply step_ignores_tombstone|].
    rewrite sync_data_without_watermark by (by destruct r).
    simpl. rewrite upload_singleton.
    rewrite step_ignores_tombstone by done. reflexivity.
Qed.


End Claims.

(** ** The claims on concrete requests *)

Section Evaluation.
Import Scenario.

(** C2, at a concrete request: Bob's overwrite and tombstones leave
    Alice's rows in place, and his overwrite of her trip is skipped. *)
Lemma ownership_isolation_witness :
  preserves_rows_of alice db (sync bob hostile db).2
  /\ step (H := cpython) clock bob client_wins
       (InTrip (trip_patch "2024-06-15T13:00:00" (Some "Hacked Title"))) (start db)
     = start db.
Proof.
  destruct (ownership_isolation (H := cpython) clock bob alice hostile db) as [Hp Hs].
  - unfold alice, bob. lia.
  - split; [exact Hp|]. apply (Hs client_wins _ _ key_1); vm_compute; reflexivity.
Defined.

(** C1 (evaluation at the failing input).  Alice's day was last modified
    at noon.  Her request edits it, under [newer_wins], with a stamp of
    11:00: the policy rejects the write.  The response nevertheless
    carries no conflict record: [conflicts] is empty and
    [conflicts_resolved] is zero. *)
Theorem stale_day_edit_is_not_reported :
  day_owner db key_2 = Some alice
  /\ _should_update (H := cpython) clock "2024-06-15T11:00:00" (Some noon) "newer_wins"
     = Ok false
  /\ exists resp,
       sync alice stale_day_edit db = (Ok resp, db)
       /\ days_uploaded resp = 0
       /\ conflicts resp = []
       /\ conflicts_resolved resp = 0.
Proof.
  split; [vm_compute; reflexivity|]. split; [vm_compute; reflexivity|].
  eexists. split; [vm_compute; reflexivity|]. repeat split.
Qed.

(** C3 (evaluation at the failing input).  A client timestamp with the
    zone marker [Z] parses to an aware value.  Compared under
    [newer_wins] or [merge] with the naive timestamp of a stored row,
    [_should_update] raises [TypeError] instead of answering; the same
    instant written without the marker gives [True].  In [sync_data] the
    exception is swallowed by the loop: the newer edit is neither
    applied nor reported. *)
Theorem marked_timestamp_against_naive_raises :
  _parse_timestamp (H := cpython) clock "2024-06-15T13:00:00Z"
  = mk_datetime 2024 6 15 13 0 0 0 (Some 0)
  /\ _should_update (H := cpython) clock "2024-06-15T13:00:00Z" (Some noon) "newer_wins"
     = Raise TypeError
  /\ _should_update (H := cpython) clock "2024-06-15T13:00:00Z" (Some noon) "merge"
     = Raise TypeError
  /\ _should_update (H := cpython) clock "2024-06-15T13:00:00" (Some noon) "newer_wins"
     = Ok true
  /\ sync alice (newer_marked_edit newer_wins) db
     = (Ok (new_response "2025-01-01T00:00:00"), db).
Proof. repeat split; vm_compute; reflexivity. Qed.

(** C4 (counterexample).  Under [server_wins] Alice's edit of her own
    trip is rejected and a conflict record is appended for it. *)
Lemma server_wins_trip_rejection_is_reported :
  exists resp,
    sync alice (newer_edit server_wins) db = (Ok resp, db)
    /\ conflicts resp
       = [mk_SyncConflict "trip" id_1 "2024-06-15T13:00:00" "2024-06-15T12:00:00"
            "server_wins"]
    /\ conflicts_resolved resp = 1.
Proof. eexists. split; [vm_compute; reflexivity|]. split; reflexivity. Qed.

(** C4 as amended, at that request. *)
Lemma server_wins_never_applies_witness :
  let h := start db in
  let x := trip_patch "2024-06-15T13:00:00" (Some "Client edit") in
  let h' := step (H := cpython) clock alice server_wins (InTrip x) h in
  h_session h' = h_session h
  /\ h_response h' = h_response h
  /\ exists t, trips (h_session h) !! key_1 = Some t
               /\ h_conflicts h'
                  = (h_conflicts h ++ [trip_conflict x (trip_local_updated_at t)])%list.
Proof.
  intros h x h'.
  assert (Hu : @UUID cpython (incoming_id (InTrip x)) = Some key_1)
    by (vm_compute; reflexivity).
  assert (Ho : owner_of (h_session h) (InTrip x) key_1 = Some alice)
    by (vm_compute; reflexivity).
  destruct (server_wins_never_applies (H := cpython) clock alice (InTrip x) h key_1
              eq_refl Hu Ho) as (Hs & Hr & Hc).
  split; [exact Hs|]. split; [exact Hr|]. exact (Hc x eq_refl).
Defined.

(** C5 (evaluation at the failing input).  Alice owns a trip modified
    two weeks after the watermark of her request.  Serialising it reads
    [trip.preferences], an attribute [Trip] does not have: the handler
    raises [AttributeError] and returns no [server_data]. *)
Theorem download_of_a_trip_raises :
  trip_owner db key_1 = Some alice
  /\ parse_last_sync (H := cpython) clock poll = Some (mk_datetime 2024 6 1 0 0 0 0 None)
  /\ Session.sql_gt (trip_local_updated_at paris) (mk_datetime 2024 6 1 0 0 0 0 None) = true
  /\ sync alice poll db = (Raise AttributeError, db).
Proof. repeat split; vm_compute; reflexivity. Qed.

(** C6 (evaluation at the failing input).  A request creates a trip
    whose title is present and empty, under [client_wins].  Applied
    once, the trip is stored with the default title; applied a second
    time with the same timestamps, the title becomes the empty string:
    the store after two applications differs from the store after one. *)
Theorem resent_blank_title_changes_the_store :
  let request := blank_title_trip client_wins in
  let once := (sync alice request empty_db).2 in
  let twice := (sync alice request once).2 in
  trip_title <$> trips once !! key_1 = Some "Untitled Trip"
  /\ trip_title <$> trips twice !! key_1 = Some EmptyString
  /\ twice <> once.
Proof.
  intros request once twice.
  assert (H1 : trip_title <$> trips once !! key_1 = Some "Untitled Trip")
    by (vm_compute; reflexivity).
  assert (H2 : trip_title <$> trips twice !! key_1 = Some EmptyString)
    by (vm_compute; reflexivity).
  split; [exact H1|]. split; [exact H2|].
  intros Heq. rewrite Heq, H1 in H2. discriminate.
Qed.

(** C7 (evaluation at the failing input).  Alice sends a trip the store
    does not have; its title is present and empty and it carries
    [preferences].  The call returns and counts one trip.  The row it
    creates has the title ["Untitled Trip"], not the incoming one, and
    the store it leaves is the store the same record leaves without
    [preferences]: nothing of them is kept. *)
Theorem blank_title_and_preferences_are_not_stored :
  let x := blank_trip (Some [("pace", "slow")]) in
  tsd_is_deleted x = false
  /\ tsd_title x = Some EmptyString
  /\ tsd_preferences x = Some [("pace", "slow")]
  /\ trips empty_db !! key_1 = None
  /\ (exists resp, (sync alice (creation (Some [("pace", "slow")])) empty_db).1 = Ok resp
                   /\ trips_uploaded resp = 1 /\ conflicts resp = [])
  /\ trip_title <$> trips (sync alice (creation (Some [("pace", "slow")])) empty_db).2
                      !! key_1
     = Some "Untitled Trip"
  /\ (sync alice (creation (Some [("pace", "slow")])) empty_db).2
     = (sync alice (creation None) empty_db).2.
Proof.
  cbv zeta. split; [reflexivity|]. split; [reflexivity|]. split; [reflexivity|].
  split; [reflexivity|]. split.
  { eexists. split; [vm_compute; reflexivity|]. split; reflexivity. }
  split; vm_compute; reflexivity.
Qed.

(** C8, at a tombstone for Alice's trip. *)
Lemma tombstones_witness :
  let h := start db in
  let r := InTrip trip_tombstone in
  let h' := step (H := cpython) clock alice newer_wins r h in
  h' = mk_HState (session_delete r key_1 (h_session h))
         (incr_uploaded r (h_response h)) (h_conflicts h)
  /\ stored (h_session h') r key_1 = false
  /\ uploaded r (h_response h') = uploaded r (h_response h) + 1.
Proof.
  apply (tombstones (H := cpython) clock alice newer_wins (InTrip trip_tombstone)
           (start db)); vm_compute; reflexivity.
Defined.


End Evaluation.

(** * Further properties of the handler *)

Section Writes.
Context `{PyLib}.
Variable now : datetime.
Variable current_user : uuid.
Variable strategy : Strategy.

Lemma assign_overwrite {A T} (set : A -> T -> T) (v : option A) (t : T) :
  assign_if v set t = match v with Some a => set a t | None => t end.
Proof. reflexivity. Qed.

(** An accepted write puts the patched row in the store and counts it. *)
Lemma step_overwrites (r : Incoming) (h : HState) (k : uuid) (server_ts : datetime) :
  incoming_is_deleted r = false ->
  UUID (incoming_id r) = Some k ->
  owner_of (h_session h) r k = Some current_user ->
  stored_updated_at (h_session h) r k = Some server_ts ->
  _should_update now (incoming_updated_at r) (Some server_ts) (strategy_str strategy)
    = Ok true ->
  carries_preferences r = false ->
  step now current_user strategy r h
  = mk_HState (session_overwrite now r k (h_session h))
      (incr_uploaded r (h_response h)) (h_conflicts h).
Proof.
  intros Hd HU Ho Hts Hsu Hp. destruct h as [s resp cs].
  destruct r as [x|x|x|x|x]; simpl in *; unfold_owner; unfold_body; simpl in *;
    rewrite HU, Hd; simpl; simplify_option_eq; rewrite ?N.eqb_refl; simpl;
    rewrite Hsu; simpl.
  - destruct (tsd_preferences x); [done|]. simpl.
    destruct x as [? ? ? [?|] [?|] [?|] [?|] [?|] ? [?|]]; 
      match goal with Ht : trips s !! k = Some ?t |- _ => destruct t end; reflexivity.
  - destruct x as [? ? ? ? [?|] [?|] [?|]];
      match goal with Ht : days s !! k = Some ?t |- _ => destruct t end; reflexivity.
  - destruct x as [? ? ? ? [?|] [?|] [?|] [?|] [?|] [?|] [?|]];
      match goal with Ht : activities s !! k = Some ?t |- _ => destruct t end; reflexivity.
  - destruct x as [? ? ? ? [?|] [?|] [?|]];
      match goal with Ht : budget_items s !! k = Some ?t |- _ => destruct t end; reflexivity.
  - destruct x as [? ? ? ? [?|]];
      match goal with Ht : notes s !! k = Some ?t |- _ => destruct t end; reflexivity.
Qed.

End Writes.

Section Writes_2.
Context `{PyLib}.
Variable now : datetime.
Variable current_user : uuid.
Variable strategy : Strategy.

(** A trip patch that carries [preferences] stops at that assignment. *)
Lemma step_half_writes (x : TripSyncData) (h : HState) (k : uuid) (t : Trip) :
  tsd_is_deleted x = false ->
  UUID (tsd_id x) = Some k ->
  trips (h_session h) !! k = Some t ->
  trip_user_id t = current_user ->
  _should_update now (tsd_local_updated_at x) (Some (trip_local_updated_at t))
    (strategy_str strategy) = Ok true ->
  is_Some (tsd_preferences x) ->
  step now current_user strategy (InTrip x) h
  = mk_HState (Session.add_trip k (half_written_trip x t) (h_session h))
      (h_response h) (h_conflicts h).
Proof.
  intros Hd HU Ht Hu Hsu [p Hp]. destruct h as [s resp cs]. simpl in *.
  unfold_body; simpl. rewrite HU, Hd. simpl. rewrite Ht, Hu, N.eqb_refl. simpl.
  rewrite Hsu. simpl. rewrite Hp. simpl.
  destruct x as [? ? ? [?|] [?|] [?|] [?|] [?|] ? ?], t; reflexivity.
Qed.

(** A verdict that raises leaves everything as it was. *)
Lemma step_raising_verdict (r : Incoming) (h : HState) (k : uuid)
    (server_ts : datetime) (e : exn) :
  incoming_is_deleted r = false ->
  UUID (incoming_id r) = Some k ->
  owner_of (h_session h) r k = Some current_user ->
  stored_updated_at (h_session h) r k = Some server_ts ->
  _should_update now (incoming_updated_at r) (Some server_ts) (strategy_str strategy)
    = Raise e ->
  step now current_user strategy r h = h.
Proof.
  intros Hd HU Ho Hts Hsu. destruct h as [s resp cs].
  destruct r as [x|x|x|x|x]; simpl in *; unfold_owner; unfold_body; simpl in *;
    rewrite HU, Hd; simpl; simplify_option_eq; rewrite ?N.eqb_refl; simpl;
    rewrite Hsu; simpl; done.
Qed.

(** X1. Sparse patch.  An incoming record that is not a tombstone names a
    row of the caller, the policy answers [True], and the record carries
    no [preferences].  Then the row takes the columns the record carries
    and keeps the others, its parent reference, creation time and
    [server_id] included; [is_synced] becomes true and [local_updated_at]
    the parsed client timestamp; the counter of the kind grows by one; no
    other row, no other counter and no conflict is written. *)
Theorem accepted_write_is_a_sparse_patch (r : Incoming) (h : HState) (k : uuid)
    (server_ts : datetime) :
  incoming_is_deleted r = false ->
  UUID (incoming_id r) = Some k ->
  owner_of (h_session h) r k = Some current_user ->
  stored_updated_at (h_session h) r k = Some server_ts ->
  _should_update now (incoming_updated_at r) (Some server_ts) (strategy_str strategy)
    = Ok true ->
  carries_preferences r = false ->
  let h' := step now current_user strategy r h in
  h' = mk_HState (session_overwrite now r k (h_session h))
         (incr_uploaded r (h_response h)) (h_conflicts h)
  /\ owner_of (h_session h') r k = Some current_user
  /\ stored_updated_at (h_session h') r k
     = Some (_parse_timestamp now (incoming_updated_at r)).
Proof.
  intros Hd HU Ho Hts Hsu Hp. simpl.
  rewrite (step_overwrites now current_user strategy r h k server_ts Hd HU Ho Hts Hsu Hp).
  split; [done|]. simpl. destruct h as [s resp cs]. simpl in *.
  destruct r as [x|x|x|x|x]; simpl in *; unfold_owner; simplify_option_eq;
    rewrite ?lookup_insert_eq; simpl; simplify_option_eq; done.
Qed.

(** X2. A trip patch that carries [preferences].  The row exists, belongs
    to the caller and the policy answers [True].  The title, destination,
    dates and budget the record carries are written; then the assignment
    of [preferences], a field [Trip] does not declare, raises and the loop
    moves on: [is_generated], [local_updated_at] and [is_synced] keep
    their stored values, [trips_uploaded] does not grow and no conflict is
    recorded. *)
Theorem trip_patch_with_preferences_is_cut_short (x : TripSyncData) (h : HState)
    (k : uuid) (t : Trip) :
  tsd_is_deleted x = false ->
  UUID (tsd_id x) = Some k ->
  trips (h_session h) !! k = Some t ->
  trip_user_id t = current_user ->
  _should_update now (tsd_local_updated_at x) (Some (trip_local_updated_at t))
    (strategy_str strategy) = Ok true ->
  is_Some (tsd_preferences x) ->
  let h' := step now current_user strategy (InTrip x) h in
  trips (h_session h') !! k = Some (half_written_trip x t)
  /\ (forall k', k' <> k -> trips (h_session h') !! k' = trips (h_session h) !! k')
  /\ h_response h' = h_response h
  /\ h_conflicts h' = h_conflicts h.
Proof.
  intros Hd HU Ht Hu Hsu Hp. cbv zeta.
  rewrite (step_half_writes x h k t Hd HU Ht Hu Hsu Hp). simpl.
  rewrite lookup_insert_eq. repeat split.
  intros k' Hk'. by rewrite lookup_insert_ne.
Qed.

End Writes_2.

Section Strategies.
Context `{PyLib}.
Variable now : datetime.
Variable current_user : uuid.

(** X4. Under [client_wins] a record that is not a tombstone, names a row
    of the caller and carries no [preferences] is always applied: the
    timestamps are not compared, so the write goes through whatever the
    client timestamp is, parseable or not, older or newer. *)
Theorem client_wins_always_applies (r : Incoming) (h : HState) (k : uuid) :
  incoming_is_deleted r = false ->
  UUID (incoming_id r) = Some k ->
  owner_of (h_session h) r k = Some current_user ->
  carries_preferences r = false ->
  step now current_user client_wins r h
  = mk_HState (session_overwrite now r k (h_session h))
      (incr_uploaded r (h_response h)) (h_conflicts h).
Proof.
  intros Hd HU Ho Hp.
  assert (Hts : exists ts, stored_updated_at (h_session h) r k = Some ts).
  { destruct r; unfold_owner; simplify_option_eq; eauto. }
  destruct Hts as [ts Hts].
  by apply (step_overwrites now current_user client_wins r h k ts).
Qed.

(** X5. The strategy matters only for a record that names a stored row
    and is not a tombstone: a tombstone, and a record whose id names no
    row of its kind, are handled the same way under any two strategies. *)
Theorem strategy_is_irrelevant_for_tombstones_and_new_records
    (s1 s2 : Strategy) (r : Incoming) (h : HState) :
  incoming_is_deleted r = true
  \/ (forall k, UUID (incoming_id r) = Some k -> stored (h_session h) r k = false) ->
  step now current_user s1 r h = step now current_user s2 r h.
Proof.
  intros Hcase. destruct h as [s resp cs].
  destruct r as [x|x|x|x|x]; simpl in *; unfold_body; simpl.
  all: match goal with |- context [UUID ?i] => destruct (UUID i) as [k|] eqn:HU end;
         simpl; [|done].
  all: destruct Hcase as [Hd|Hnew];
         [rewrite Hd; simpl; done
         |specialize (Hnew k eq_refl); apply bool_decide_eq_false in Hnew;
          rewrite <- eq_None_not_Some in Hnew; rewrite Hnew; done].
Qed.

Lemma step_merge (r : Incoming) (h : HState) :
  step now current_user merge r h = step now current_user newer_wins r h.
Proof.
  destruct h as [s resp cs].
  destruct r as [x|x|x|x|x]; simpl; unfold try_continue, sync_trip, sync_day,
    sync_activity, sync_budget_item, sync_note, should_update; simpl strategy_str;
    rewrite ?should_update_merge; reflexivity.
Qed.

Lemma for_each_ext {A} (f g : A -> M unit) (xs : list A) (h : HState) :
  (forall x h', try_continue (f x) h' = try_continue (g x) h') ->
  for_each xs f h = for_each xs g h.
Proof.
  intros Hfg. revert h. induction xs as [|x xs IH]; intros h; [done|].
  rewrite !for_each_cons, Hfg. apply IH.
Qed.

(** X6. [merge] is [newer_wins], for whole calls: a request sent under
    [merge] gets the response, and leaves the store, that the same
    request gets and leaves under [newer_wins]. *)
Theorem merge_is_newer_wins (request : SyncRequest) (db : Store) :
  sync_data now current_user (with_strategy merge request) db
  = sync_data now current_user (with_strategy newer_wins request) db.
Proof.
  unfold sync_data.
  assert (Hup : forall h, upload now current_user (with_strategy merge request) h
                          = upload now current_user (with_strategy newer_wins request) h).
  { intros h. unfold upload. simpl.
    rewrite (for_each_ext (sync_trip now current_user merge)
               (sync_trip now current_user newer_wins))
      by (intros x h'; apply (step_merge (InTrip x))).
    rewrite (for_each_ext (sync_day now current_user merge)
               (sync_day now current_user newer_wins))
      by (intros x h'; apply (step_merge (InDay x))).
    rewrite (for_each_ext (sync_activity now current_user merge)
               (sync_activity now current_user newer_wins))
      by (intros x h'; apply (step_merge (InActivity x))).
    rewrite (for_each_ext (sync_budget_item now current_user merge)
               (sync_budget_item now current_user newer_wins))
      by (intros x h'; apply (step_merge (InBudgetItem x))).
    rewrite (for_each_ext (sync_note now current_user merge)
               (sync_note now current_user newer_wins))
      by (intros x h'; apply (step_merge (InNote x))).
    reflexivity. }
  rewrite Hup. reflexivity.
Qed.

(** X7. When [_should_update] raises.  It raises exactly when a server
    timestamp is given, the strategy is [newer_wins] or [merge], and one
    of the two timestamps carries a zone while the other does not; the
    exception is then [TypeError].  In particular it never raises under
    [client_wins] or [server_wins], nor for a row without timestamp. *)
Theorem should_update_raises_iff (c : string) (server : option datetime)
    (strategy : string) (e : exn) :
  _should_update now c server strategy = Raise e
  <-> e = TypeError
      /\ (strategy = "newer_wins" \/ strategy = "merge")
      /\ exists s, server = Some s
           /\ (dt_tzinfo (_parse_timestamp now c) = None <-> dt_tzinfo s <> None).
Proof.
  unfold _should_update. destruct server as [s|].
  2: { split; [done|]. intros (_ & _ & s & Hs & _). done. }
  destruct (String.eqb_spec strategy "client_wins") as [->|N1].
  { split; [done|]. intros (_ & [?|?] & _); done. }
  destruct (String.eqb_spec strategy "server_wins") as [->|N2].
  { split; [done|]. intros (_ & [?|?] & _); done. }
  assert (Hgt : Datetime.gt (_parse_timestamp now c) s = Raise e
                <-> e = TypeError
                    /\ (dt_tzinfo (_parse_timestamp now c) = None <-> dt_tzinfo s <> None)).
  { unfold Datetime.gt.
    destruct (dt_tzinfo (_parse_timestamp now c)) as [oa|], (dt_tzinfo s) as [ob|].
    - split; [discriminate|]. intros (_ & [_ Hz]).
      specialize (Hz ltac:(discriminate)). discriminate.
    - split; [|intros [-> _]; reflexivity]. intros [= <-]. split; [reflexivity|].
      split; [discriminate|]. intros Hn. by destruct Hn.
    - split; [|intros [-> _]; reflexivity]. intros [= <-]. split; [reflexivity|].
      split; [discriminate|reflexivity].
    - split; [discriminate|]. intros (_ & [Hz _]). by destruct (Hz eq_refl). }
  destruct (String.eqb_spec strategy "newer_wins") as [->|N3].
  { rewrite Hgt. split.
    - intros [-> Hz]. split; [done|]. split; [by left|]. eauto.
    - intros (-> & _ & s' & [= <-] & Hz). done. }
  destruct (String.eqb_spec strategy "merge") as [->|N4].
  { rewrite Hgt. split.
    - intros [-> Hz]. split; [done|]. split; [by right|]. eauto.
    - intros (-> & _ & s' & [= <-] & Hz). done. }
  split; [done|]. intros (_ & [?|?] & _); done.
Qed.

End Strategies.

Section Resend.
Context `{PyLib}.
Variable now : datetime.
Variable current_user : uuid.

Lemma after_overwrite (r : Incoming) (s : Store) (k : uuid) :
  owner_of s r k = Some current_user ->
  owner_of (session_overwrite now r k s) r k = Some current_user
  /\ stored_updated_at (session_overwrite now r k s) r k
     = Some (_parse_timestamp now (incoming_updated_at r)).
Proof.
  intros Ho.
  destruct r as [x|x|x|x|x]; simpl in *; unfold_owner; simplify_option_eq;
    rewrite ?lookup_insert_eq; simpl; simplify_option_eq; done.
Qed.

Lemma half_written_twice (x : TripSyncData) (t : Trip) :
  half_written_trip x (half_written_trip x t) = half_written_trip x t.
Proof.
  unfold half_written_trip. simpl.
  destruct (tsd_title x), (tsd_destination x), (tsd_start_date x),
    (tsd_end_date x), (tsd_budget x); reflexivity.
Qed.

End Resend.

Section Resend_later.
Context `{PyLib}.
Variable now : datetime.
Variable current_user : uuid.

(** The verdict depends on the clock through the parser only. *)
Lemma should_update_clock (later : datetime) (c : string) (server : option datetime)
    (strategy : string) :
  _parse_timestamp later c = _parse_timestamp now c ->
  _should_update later c server strategy = _should_update now c server strategy.
Proof. intros Hc. unfold _should_update. by rewrite Hc. Qed.

(** X8. Sending a patch twice under [newer_wins] or [merge].  The patch
    is not a tombstone, names a row of the caller, fits the columns, and
    its timestamp is one the parsers read (so that it does not depend on
    when it is read) and carries no zone.  Whatever the first iteration
    did, a second one, run at any other time, writes nothing more: after
    an accepted write the stored timestamp is the client's own, the
    comparison is a tie, and a tie goes to the server.  Store and
    counters after two iterations are those after one. *)
Theorem resent_patch_changes_nothing_more (later : datetime) (strategy : Strategy)
    (r : Incoming) (h : HState) (k : uuid) :
  strategy = newer_wins \/ strategy = merge ->
  incoming_is_deleted r = false ->
  UUID (incoming_id r) = Some k ->
  owner_of (h_session h) r k = Some current_user ->
  accepted r ->
  plain_stamp now r ->
  let once := step now current_user strategy r h in
  let twice := step later current_user strategy r once in
  h_session twice = h_session once /\ h_response twice = h_response once.
Proof.
  intros Hst Hd HU Ho _ [Hclock _]. cbv zeta.
  assert (Hts : exists ts, stored_updated_at (h_session h) r k = Some ts).
  { destruct r; unfold_owner; simplify_option_eq; eauto. }
  destruct Hts as [ts Hts].
  assert (Hlater : forall server,
            _should_update later (incoming_updated_at r) server (strategy_str strategy)
            = _should_update now (incoming_updated_at r) server (strategy_str strategy)).
  { intros server. apply should_update_clock, Hclock. }
  assert (Htie : _should_update later (incoming_updated_at r)
                   (Some (_parse_timestamp now (incoming_updated_at r)))
                   (strategy_str strategy) = Ok false).
  { rewrite Hlater. destruct Hst as [-> | ->]; simpl;
      rewrite ?should_update_merge, should_update_newer_wins; apply gt_tie. }
  destruct (_should_update now (incoming_updated_at r) (Some ts)
              (strategy_str strategy)) as [[|]|e] eqn:Hv.
  - destruct (carries_preferences r) eqn:Hp.
    + (* a trip patch cut short at [preferences], both times *)
      destruct r as [x| | | |]; try discriminate.
      unfold owner_of, trip_owner in Ho. unfold stored_updated_at in Hts.
      destruct (trips (h_session h) !! k) as [t|] eqn:Ht; [|discriminate].
      simpl in Ho, Hts. injection Ho as Hu. injection Hts as <-.
      assert (Hpref : is_Some (tsd_preferences x)).
      { unfold carries_preferences in Hp. destruct (tsd_preferences x); [eauto|done]. }
      rewrite (step_half_writes now current_user strategy x h k t Hd HU Ht Hu Hv Hpref).
      set (h1 := mk_HState (Session.add_trip k (half_written_trip x t) (h_session h))
                   (h_response h) (h_conflicts h)).
      rewrite (step_half_writes later current_user strategy x h1 k (half_written_trip x t)
                 Hd HU); simpl; try done.
      * rewrite half_written_twice. unfold Session.add_trip. simpl.
        by rewrite insert_insert_eq.
      * by rewrite lookup_insert_eq.
      * specialize (Hlater (Some (trip_local_updated_at t))). simpl in Hlater.
        by rewrite Hlater.
    + rewrite (step_overwrites now current_user strategy r h k ts Hd HU Ho Hts Hv Hp).
      destruct (after_overwrite now current_user r (h_session h) k Ho) as [Ho' Hts'].
      set (h1 := mk_HState (session_overwrite now r k (h_session h))
                   (incr_uploaded r (h_response h)) (h_conflicts h)).
      rewrite (rejected_write later current_user strategy r h1 k _ Hd HU Ho' Hts' Htie).
      done.
  - rewrite (rejected_write now current_user strategy r h k ts Hd HU Ho Hts Hv).
    set (h1 := mk_HState (h_session h) (h_response h) _).
    rewrite <- (Hlater (Some ts)) in Hv.
    rewrite (rejected_write later current_user strategy r h1 k ts Hd HU Ho Hts Hv). done.
  - rewrite (step_raising_verdict now current_user strategy r h k ts e Hd HU Ho Hts Hv).
    rewrite <- (Hlater (Some ts)) in Hv.
    rewrite (step_raising_verdict later current_user strategy r h k ts e Hd HU Ho Hts Hv).
    done.
Qed.

End Resend_later.

Section Bookkeeping.
Context `{PyLib}.
Variable now : datetime.
Variable current_user : uuid.

(** What one iteration does to the counters and to the conflict list:
    nothing, one more upload of its kind, or (a trip only) one more
    conflict record for that trip. *)
Lemma step_accounts (strategy : Strategy) (r : Incoming) (h : HState) :
  let h' := step now current_user strategy r h in
  (h_response h' = h_response h /\ h_conflicts h' = h_conflicts h)
  \/ (h_response h' = incr_uploaded r (h_response h) /\ h_conflicts h' = h_conflicts h)
  \/ (exists x ts, r = InTrip x /\ h_response h' = h_response h
        /\ h_conflicts h' = (h_conflicts h ++ [trip_conflict x ts])%list).
Proof.
  destruct h as [s resp cs].
  destruct r as [x|x|x|x|x]; simpl; unfold_body; simpl;
    repeat (case_match; simplify_eq/=); eauto 8.
Qed.

(** The conflict list after the trip loop. *)
Lemma trip_loop_accounts (strategy : Strategy) (xs : list TripSyncData) (h : HState) :
  let h' := for_each xs (sync_trip now current_user strategy) h in
  exists cs,
    h_conflicts h' = (h_conflicts h ++ cs)%list
    /\ Forall (fun c => entity_type c = "trip" /\ resolution c = "server_wins"
                        /\ exists x, x ∈ xs /\ entity_id c = tsd_id x
                             /\ client_updated_at c = tsd_local_updated_at x) cs
    /\ trips_uploaded (h_response h) <= trips_uploaded (h_response h')
    /\ trips_uploaded (h_response h') + Z.of_nat (length cs)
       <= trips_uploaded (h_response h) + Z.of_nat (length xs)
    /\ days_uploaded (h_response h') = days_uploaded (h_response h)
    /\ activities_uploaded (h_response h') = activities_uploaded (h_response h)
    /\ budget_items_uploaded (h_response h') = budget_items_uploaded (h_response h)
    /\ notes_uploaded (h_response h') = notes_uploaded (h_response h).
Proof.
  revert h. induction xs as [|x xs IH]; intros h.
  - exists []. simpl. rewrite app_nil_r. repeat split; try done; lia.
  - cbv zeta. rewrite for_each_cons.
    change (try_continue (sync_trip now current_user strategy x) h)
      with (step now current_user strategy (InTrip x) h).
    set (h1 := step now current_user strategy (InTrip x) h).
    destruct (IH h1) as (cs & Ec & Fc & L1 & L2 & D & A & B & N).
    assert (Fc' : Forall (fun c => entity_type c = "trip" /\ resolution c = "server_wins"
                        /\ exists x0, x0 ∈ x :: xs /\ entity_id c = tsd_id x0
                             /\ client_updated_at c = tsd_local_updated_at x0) cs).
    { eapply Forall_impl; [exact Fc|]. intros c (? & ? & x0 & ? & ? & ?).
      repeat split; try done. exists x0. split; [by apply list_elem_of_further|done]. }
    rewrite length_cons, Nat2Z.inj_succ.
    destruct (step_accounts strategy (InTrip x) h) as [[Er Ecs]|[[Er Ecs]|(x' & ts & Ex & Er & Ecs)]];
      fold h1 in Er, Ecs.
    + exists cs. rewrite Ec, Ecs. rewrite Er in *. repeat split; try done; lia.
    + exists cs. rewrite Ec, Ecs. rewrite Er in *.
      destruct (h_response h); simpl in *. repeat split; try done; lia.
    + injection Ex as <-. exists (trip_conflict x ts :: cs).
      rewrite Ec, Ecs, <- app_assoc. rewrite Er in *. simpl.
      repeat split; try done; try lia.
      constructor; [|exact Fc']. repeat split. exists x. split; [apply list_elem_of_here|done].
Qed.

(** The loops of the four other kinds never write a conflict, and each
    counts on its own counter only. *)
Lemma child_step_accounts (strategy : Strategy) (r : Incoming) (h : HState) :
  (forall x, r <> InTrip x) ->
  let h' := step now current_user strategy r h in
  h_conflicts h' = h_conflicts h
  /\ (h_response h' = h_response h \/ h_response h' = incr_uploaded r (h_response h)).
Proof.
  intros Hr. cbv zeta.
  destruct (step_accounts strategy r h) as [[Er Ecs]|[[Er Ecs]|(x' & ts & Ex & _)]].
  - split; [done|]. by left.
  - split; [done|]. by right.
  - by destruct (Hr x').
Qed.

Lemma child_loop_accounts {A} (strategy : Strategy) (inj : A -> Incoming)
    (body : A -> M unit) (xs : list A) (h : HState) :
  (forall x, forall y, inj x <> InTrip y) ->
  (forall x h', try_continue (body x) h' = step now current_user strategy (inj x) h') ->
  let h' := for_each xs body h in
  h_conflicts h' = h_conflicts h
  /\ forall (count : SyncResponse -> Z),
       (forall x resp, count (incr_uploaded (inj x) resp) = count resp
                       \/ count (incr_uploaded (inj x) resp) = count resp + 1) ->
       count (h_response h) <= count (h_response h')
       /\ count (h_response h') <= count (h_response h) + Z.of_nat (length xs).
Proof.
  intros Hinj Hbody. revert h. induction xs as [|x xs IH]; intros h.
  - simpl. split; [done|]. intros; lia.
  - cbv zeta. rewrite for_each_cons, Hbody.
    set (h1 := step now current_user strategy (inj x) h).
    destruct (IH h1) as [Ec Hcount].
    destruct (child_step_accounts strategy (inj x) h (Hinj x)) as [Ecs Er]; fold h1 in Ecs, Er.
    split; [by rewrite Ec|].
    intros count Hc. destruct (Hcount count Hc) as [L1 L2].
    rewrite length_cons, Nat2Z.inj_succ.
    destruct Er as [Er|Er]; rewrite Er in *; [lia|].
    destruct (Hc x (h_response h)) as [E|E]; rewrite E in *; lia.
Qed.

End Bookkeeping.

Section Accounts.
Context `{PyLib}.
Variable now : datetime.
Variable current_user : uuid.

Lemma child_loop_keeps {A} (strategy : Strategy) (inj : A -> Incoming)
    (body : A -> M unit) (xs : list A) (h : HState) (count : SyncResponse -> Z) :
  (forall x, forall y, inj x <> InTrip y) ->
  (forall x h', try_continue (body x) h' = step now current_user strategy (inj x) h') ->
  (forall x resp, count (incr_uploaded (inj x) resp) = count resp) ->
  count (h_response (for_each xs body h)) = count (h_response h).
Proof.
  intros Hinj Hbody Hc. revert h. induction xs as [|x xs IH]; intros h; [done|].
  rewrite for_each_cons, Hbody, IH.
  destruct (child_step_accounts now current_user strategy (inj x) h (Hinj x)) as [_ [Er|Er]];
    rewrite Er; [done|apply Hc].
Qed.

(** The download block leaves the upload counters and the conflicts. *)
Lemma download_keeps_uploads (last_sync : datetime) (h h2 : HState) (u : unit) :
  download current_user last_sync h = (Ok u, h2) ->
  h_conflicts h2 = h_conflicts h
  /\ trips_uploaded (h_response h2) = trips_uploaded (h_response h)
  /\ days_uploaded (h_response h2) = days_uploaded (h_response h)
  /\ activities_uploaded (h_response h2) = activities_uploaded (h_response h)
  /\ budget_items_uploaded (h_response h2) = budget_items_uploaded (h_response h)
  /\ notes_uploaded (h_response h2) = notes_uploaded (h_response h).
Proof.
  destruct h as [s resp cs]. unfold download.
  unfold bind, lift, ret, get_session, modify_response. simpl.
  destruct resp as [? ? ? ? ? ? ? ? ? ? ? ? ? []].
  repeat (case_match; simplify_eq/=); intros; simplify_eq/=; done.
Qed.

(** X9. Accounting of a call that returns.  [conflicts_resolved] is the
    length of [conflicts]; every conflict record is about a trip of the
    request (its id and client timestamp are those of a record of
    [request.trips]) and carries the resolution ["server_wins"]; a trip
    record is counted at most once, as an upload or as a conflict, so
    [trips_uploaded + conflicts_resolved] does not exceed the number of
    trip records; and each other upload counter lies between zero and the
    number of records of its kind. *)
Theorem accounting_of_a_call (request : SyncRequest) (db : Store) (resp : SyncResponse) :
  (sync_data now current_user request db).1 = Ok resp ->
  conflicts_resolved resp = Z.of_nat (length (conflicts resp))
  /\ Forall (fun c => entity_type c = "trip" /\ resolution c = "server_wins"
                      /\ exists x, x ∈ req_trips request /\ entity_id c = tsd_id x
                           /\ client_updated_at c = tsd_local_updated_at x)
       (conflicts resp)
  /\ 0 <= trips_uploaded resp
  /\ trips_uploaded resp + conflicts_resolved resp
     <= Z.of_nat (length (req_trips request))
  /\ 0 <= days_uploaded resp <= Z.of_nat (length (req_days request))
  /\ 0 <= activities_uploaded resp <= Z.of_nat (length (req_activities request))
  /\ 0 <= budget_items_uploaded resp <= Z.of_nat (length (req_budget_items request))
  /\ 0 <= notes_uploaded resp <= Z.of_nat (length (req_notes request)).
Proof.
  intros Hok.
  set (strategy := conflict_resolution request).
  set (h0 := mk_HState db (new_response (Datetime.isoformat now)) []).
  set (h1 := for_each (req_trips request) (sync_trip now current_user strategy) h0).
  set (h2 := for_each (req_days request) (sync_day now current_user strategy) h1).
  set (h3 := for_each (req_activities request) (sync_activity now current_user strategy) h2).
  set (h4 := for_each (req_budget_items request)
               (sync_budget_item now current_user strategy) h3).
  set (h5 := for_each (req_notes request) (sync_note now current_user strategy) h4).
  assert (Hup : upload now current_user request h0 = h5) by reflexivity.
  (* the response is that of the upload phase, up to the download fields *)
  assert (Hresp : conflicts resp = h_conflicts h5
                  /\ conflicts_resolved resp = Z.of_nat (length (h_conflicts h5))
                  /\ trips_uploaded resp = trips_uploaded (h_response h5)
                  /\ days_uploaded resp = days_uploaded (h_response h5)
                  /\ activities_uploaded resp = activities_uploaded (h_response h5)
                  /\ budget_items_uploaded resp = budget_items_uploaded (h_response h5)
                  /\ notes_uploaded resp = notes_uploaded (h_response h5)).
  { unfold sync_data in Hok. fold h0 in Hok. rewrite Hup in Hok.
    destruct (parse_last_sync now request) as [ls|].
    - destruct (download current_user ls h5) as [[u|e] h6] eqn:Hdl; [|done].
      destruct (download_keeps_uploads ls h5 h6 u Hdl) as (E0 & E1 & E2 & E3 & E4 & E5).
      simpl in Hok. injection Hok as <-. rewrite E0.
      destruct (h_response h6), (h_response h5); simpl in *. by subst.
    - simpl in Hok. injection Hok as <-. destruct (h_response h5); simpl. done. }
  destruct Hresp as (Rc & Rn & R1 & R2 & R3 & R4 & R5).
  (* the trip loop *)
  destruct (trip_loop_accounts now current_user strategy (req_trips request) h0)
    as (cs & Ec & Fc & L1 & L2 & D1 & A1 & B1 & N1). fold h1 in Ec, L1, L2, D1, A1, B1, N1.
  simpl in Ec, L1, L2, D1, A1, B1, N1.
  (* the four other loops *)
  destruct (child_loop_accounts now current_user strategy InDay (sync_day now current_user strategy) (req_days request) h1)
    as [C2 K2]; [done|done|]. fold h2 in C2, K2.
  destruct (child_loop_accounts now current_user strategy InActivity (sync_activity now current_user strategy)
              (req_activities request) h2) as [C3 K3]; [done|done|]. fold h3 in C3, K3.
  destruct (child_loop_accounts now current_user strategy InBudgetItem (sync_budget_item now current_user strategy)
              (req_budget_items request) h3) as [C4 K4]; [done|done|]. fold h4 in C4, K4.
  destruct (child_loop_accounts now current_user strategy InNote (sync_note now current_user strategy)
              (req_notes request) h4) as [C5 K5]; [done|done|]. fold h5 in C5, K5.
  assert (Hcs : h_conflicts h5 = cs) by (by rewrite C5, C4, C3, C2, Ec).
  (* each counter is written by its own loop only *)
  pose proof (child_loop_keeps strategy InDay (sync_day now current_user strategy) (req_days request) h1 trips_uploaded
                ltac:(done) ltac:(done) ltac:(by intros ? []))  as T2. fold h2 in T2.
  pose proof (child_loop_keeps strategy InActivity (sync_activity now current_user strategy) (req_activities request) h2
                trips_uploaded ltac:(done) ltac:(done) ltac:(by intros ? [])) as T3.
  fold h3 in T3.
  pose proof (child_loop_keeps strategy InBudgetItem (sync_budget_item now current_user strategy) (req_budget_items request) h3
                trips_uploaded ltac:(done) ltac:(done) ltac:(by intros ? [])) as T4.
  fold h4 in T4.
  pose proof (child_loop_keeps strategy InNote (sync_note now current_user strategy) (req_notes request) h4
                trips_uploaded ltac:(done) ltac:(done) ltac:(by intros ? [])) as T5.
  fold h5 in T5.
  pose proof (child_loop_keeps strategy InActivity (sync_activity now current_user strategy) (req_activities request) h2
                days_uploaded ltac:(done) ltac:(done) ltac:(by intros ? [])) as D3.
  fold h3 in D3.
  pose proof (child_loop_keeps strategy InBudgetItem (sync_budget_item now current_user strategy) (req_budget_items request) h3
                days_uploaded ltac:(done) ltac:(done) ltac:(by intros ? [])) as D4.
  fold h4 in D4.
  pose proof (child_loop_keeps strategy InNote (sync_note now current_user strategy) (req_notes request) h4
                days_uploaded ltac:(done) ltac:(done) ltac:(by intros ? [])) as D5.
  fold h5 in D5.
  pose proof (child_loop_keeps strategy InDay (sync_day now current_user strategy) (req_days request) h1
                activities_uploaded ltac:(done) ltac:(done) ltac:(by intros ? [])) as A2.
  fold h2 in A2.
  pose proof (child_loop_keeps strategy InBudgetItem (sync_budget_item now current_user strategy) (req_budget_items request) h3
                activities_uploaded ltac:(done) ltac:(done) ltac:(by intros ? [])) as A4.
  fold h4 in A4.
  pose proof (child_loop_keeps strategy InNote (sync_note now current_user strategy) (req_notes request) h4
                activities_uploaded ltac:(done) ltac:(done) ltac:(by intros ? [])) as A5.
  fold h5 in A5.
  pose proof (child_loop_keeps strategy InDay (sync_day now current_user strategy) (req_days request) h1
                budget_items_uploaded ltac:(done) ltac:(done) ltac:(by intros ? [])) as B2.
  fold h2 in B2.
  pose proof (child_loop_keeps strategy InActivity (sync_activity now current_user strategy) (req_activities request) h2
                budget_items_uploaded ltac:(done) ltac:(done) ltac:(by intros ? [])) as B3.
  fold h3 in B3.
  pose proof (child_loop_keeps strategy InNote (sync_note now current_user strategy) (req_notes request) h4
                budget_items_uploaded ltac:(done) ltac:(done) ltac:(by intros ? [])) as B5.
  fold h5 in B5.
  pose proof (child_loop_keeps strategy InDay (sync_day now current_user strategy) (req_days request) h1
                notes_uploaded ltac:(done) ltac:(done) ltac:(by intros ? [])) as N2.
  fold h2 in N2.
  pose proof (child_loop_keeps strategy InActivity (sync_activity now current_user strategy) (req_activities request) h2
                notes_uploaded ltac:(done) ltac:(done) ltac:(by intros ? [])) as N3.
  fold h3 in N3.
  pose proof (child_loop_keeps strategy InBudgetItem (sync_budget_item now current_user strategy) (req_budget_items request) h3
                notes_uploaded ltac:(done) ltac:(done) ltac:(by intros ? [])) as N4.
  fold h4 in N4.
  destruct (K2 days_uploaded ltac:(intros ? []; simpl; auto)) as [Kd1 Kd2].
  destruct (K3 activities_uploaded ltac:(intros ? []; simpl; auto)) as [Ka1 Ka2].
  destruct (K4 budget_items_uploaded ltac:(intros ? []; simpl; auto)) as [Kb1 Kb2].
  destruct (K5 notes_uploaded ltac:(intros ? []; simpl; auto)) as [Kn1 Kn2].
  rewrite Rc, Rn, R1, R2, R3, R4, R5, Hcs.
  split; [done|]. split; [exact Fc|]. lia.
Qed.

End Accounts.

Section Store_cases.
Context `{PyLib}.
Variable now : datetime.
Variable current_user : uuid.
Variable strategy : Strategy.

(** A conditional assignment to one column leaves the others. *)
Lemma assign_if_proj {A T B} (f : T -> B) (set : A -> T -> T) (v : option A) (t : T) :
  (forall a t', f (set a t') = f t') -> f (assign_if v set t) = f t.
Proof. intros Hf. destruct v; simpl; [apply Hf|done]. Qed.

Lemma parent_of_stamped_trip v w (t : Trip) :
  trip_user_id (set_trip_is_synced v (set_trip_local_updated_at w t)) = trip_user_id t.
Proof. by destruct t. Qed.
Lemma parent_of_stamped_day v w (d : Day) :
  day_trip_id (set_day_is_synced v (set_day_local_updated_at w d)) = day_trip_id d.
Proof. by destruct d. Qed.
Lemma parent_of_stamped_activity v w (a : Activity) :
  act_day_id (set_act_is_synced v (set_act_local_updated_at w a)) = act_day_id a.
Proof. by destruct a. Qed.
Lemma parent_of_stamped_budget_item v w (b : BudgetItem) :
  item_trip_id (set_item_is_synced v (set_item_local_updated_at w b)) = item_trip_id b.
Proof. by destruct b. Qed.
Lemma parent_of_stamped_note v w (n : Note) :
  note_trip_id (set_note_is_synced v (set_note_local_updated_at w n)) = note_trip_id n.
Proof. by destruct n. Qed.

Ltac parent_norm :=
  rewrite ?parent_of_stamped_trip, ?parent_of_stamped_day,
    ?parent_of_stamped_activity, ?parent_of_stamped_budget_item,
    ?parent_of_stamped_note;
  repeat first
    [ rewrite (assign_if_proj trip_user_id) by (by intros ? [])
    | rewrite (assign_if_proj day_trip_id) by (by intros ? [])
    | rewrite (assign_if_proj act_day_id) by (by intros ? [])
    | rewrite (assign_if_proj item_trip_id) by (by intros ? [])
    | rewrite (assign_if_proj note_trip_id) by (by intros ? []) ].

(** What one iteration does to the store: nothing; for a tombstone, the
    removal of a row of the caller; for any other record, one write under
    the record's key. *)
Lemma step_store_cases (r : Incoming) (h : HState) :
  let s := h_session h in
  let s' := h_session (step now current_user strategy r h) in
  s' = s
  \/ (incoming_is_deleted r = true
      /\ exists k, UUID (incoming_id r) = Some k
           /\ owner_of s r k = Some current_user /\ s' = session_delete r k s)
  \/ (incoming_is_deleted r = false
      /\ exists k, UUID (incoming_id r) = Some k /\ written current_user s r k s').
Proof.
  destruct h as [s resp cs]. cbv zeta.
  destruct r as [x|x|x|x|x]; simpl; unfold_body; simpl.
  all: match goal with |- context [UUID ?i] => destruct (UUID i) as [k|] eqn:HU end;
         simpl; [|by left].
  all: match goal with |- context [if ?b then _ else _] => destruct b eqn:Hd end.
  all: repeat (case_match; simplify_eq/=); eqb_norm; try (by left).
  all: try (right; left; split; [done|]; exists k; split; [done|];
            unfold_owner; simplify_option_eq; done).
  all: right; right; split; [done|]; exists k; split; [done|].
  all: eexists; split; [reflexivity|]; simpl.
  all: unfold_owner; parent_norm; simplify_option_eq.
  all: try (split; [done|]; intros; congruence).
  all: try (split; [by left|]; intros; congruence).
  split; [right; eauto|]. intros; congruence.
Qed.

End Store_cases.

Section Rows.
Variable me : uuid.

Lemma written_frame (s s' : Store) (r : Incoming) (k : uuid) :
  written me s r k s' ->
  (forall c k', c <> kind_of r \/ k' <> k -> row s' c k' = row s c k')
  /\ is_Some (row s' (kind_of r) k).
Proof.
  intros Hw. destruct r; simpl in Hw; destruct Hw as (x & -> & _); simpl.
  all: split; [|rewrite lookup_insert_eq; by eexists].
  all: intros c k' [Hc|Hk]; destruct c; simpl; try done;
         rewrite lookup_insert_ne; done.
Qed.

Lemma written_keeps (s s' : Store) (r : Incoming) (k : uuid) (c : Kind) (k' : uuid) :
  written me s r k s' -> is_Some (row s c k') -> is_Some (row s' c k').
Proof.
  intros Hw. destruct r; simpl in Hw; destruct Hw as (x & -> & _); destruct c; simpl;
    try done.
  all: destruct (decide (k' = k)) as [->|Hne];
         [rewrite lookup_insert_eq; by eexists|by rewrite lookup_insert_ne].
Qed.

(** A write puts nothing under another owner. *)
Lemma written_owner (s s' : Store) (r : Incoming) (k : uuid) (c : Kind) (k' o : uuid) :
  written me s r k s' -> o <> me ->
  owner s' c k' = Some o -> owner s c k' = Some o /\ row s' c k' = row s c k'.
Proof.
  intros Hw Ho. destruct r; simpl in Hw; destruct Hw as (x & -> & Hx & Hold).
  all: destruct c; simpl; unfold_owner; unfold activity_owner, day_owner,
         budget_item_owner, note_owner, trip_owner in *; simpl.
  all: intros Hown; simplify_option_eq.
  all: repeat match goal with
         | Hl : <[?a := _]> _ !! ?b = Some _ |- _ =>
             apply lookup_insert_Some in Hl as [[<- <-]|[? Hl]]
         end; simplify_option_eq; try done.
  all: try (rewrite lookup_insert_ne by done; simplify_option_eq; done).
  all: try (destruct Hx as [Hx|[Hx _]]; simplify_option_eq; done).
Qed.

Lemma written_no_orphans (s s' : Store) (r : Incoming) (k : uuid) :
  written me s r k s' -> no_orphans s -> no_orphans s'.
Proof.
  intros Hw (Od & Oa & Ob & On).
  destruct r; simpl in Hw; destruct Hw as (x & -> & Hx & Hold);
    unfold no_orphans; simpl; unfold trip_owner, day_owner in *.
  all: repeat split; intros k' y Hy;
         try apply lookup_insert_Some in Hy as [[<- <-]|[? Hy]];
         try (rewrite lookup_insert_is_Some'; right); eauto.
  all: simplify_option_eq; eauto.
  destruct Hx as [Hx|[Hx [a0 Ha0]]].
  - destruct (days s !! act_day_id x); [by eexists|done].
  - rewrite <- (Hold a0 Ha0). by eapply Oa.
Qed.

(** A removal, with its cascade, leaves the other rows as they were. *)
Lemma deleted_sub (s : Store) (r : Incoming) (k : uuid) (c : Kind) (k' : uuid) (x : Row) :
  row (session_delete r k s) c k' = Some x -> row s c k' = Some x.
Proof.
  destruct r, c; simpl; try done; intros Hx.
  all: apply fmap_Some in Hx as (y & Hy & ->); apply fmap_Some; exists y; split; [|done].
  all: first [ apply lookup_delete_Some in Hy as [_ Hy]; exact Hy
             | apply map_lookup_filter_Some in Hy as [Hy _]; exact Hy ].
Qed.

Lemma deleted_owner (s : Store) (r : Incoming) (k : uuid) (c : Kind) (k' o : uuid) :
  owner (session_delete r k s) c k' = Some o -> owner s c k' = Some o.
Proof.
  set (s' := session_delete r k s).
  assert (Ht : forall j t, trips s' !! j = Some t -> trips s !! j = Some t).
  { intros j t Hj. pose proof (deleted_sub s r k KTrip j (RTrip t)) as Hs.
    simpl in Hs. fold s' in Hs. rewrite Hj in Hs. specialize (Hs eq_refl).
    apply fmap_Some in Hs as (y & Hy & [= ->]). done. }
  assert (Hd : forall j t, days s' !! j = Some t -> days s !! j = Some t).
  { intros j t Hj. pose proof (deleted_sub s r k KDay j (RDay t)) as Hs.
    simpl in Hs. fold s' in Hs. rewrite Hj in Hs. specialize (Hs eq_refl).
    apply fmap_Some in Hs as (y & Hy & [= ->]). done. }
  assert (Ha : forall j t, activities s' !! j = Some t -> activities s !! j = Some t).
  { intros j t Hj. pose proof (deleted_sub s r k KActivity j (RActivity t)) as Hs.
    simpl in Hs. fold s' in Hs. rewrite Hj in Hs. specialize (Hs eq_refl).
    apply fmap_Some in Hs as (y & Hy & [= ->]). done. }
  assert (Hb : forall j t, budget_items s' !! j = Some t -> budget_items s !! j = Some t).
  { intros j t Hj. pose proof (deleted_sub s r k KBudgetItem j (RBudgetItem t)) as Hs.
    simpl in Hs. fold s' in Hs. rewrite Hj in Hs. specialize (Hs eq_refl).
    apply fmap_Some in Hs as (y & Hy & [= ->]). done. }
  assert (Hn : forall j t, notes s' !! j = Some t -> notes s !! j = Some t).
  { intros j t Hj. pose proof (deleted_sub s r k KNote j (RNote t)) as Hs.
    simpl in Hs. fold s' in Hs. rewrite Hj in Hs. specialize (Hs eq_refl).
    apply fmap_Some in Hs as (y & Hy & [= ->]). done. }
  clearbody s'.
  destruct c; simpl; unfold activity_owner, day_owner, budget_item_owner, note_owner,
    trip_owner; intros Ho; simplify_option_eq;
    repeat match goal with
      | Hl : trips s' !! _ = Some _ |- _ => apply Ht in Hl
      | Hl : days s' !! _ = Some _ |- _ => apply Hd in Hl
      | Hl : activities s' !! _ = Some _ |- _ => apply Ha in Hl
      | Hl : budget_items s' !! _ = Some _ |- _ => apply Hb in Hl
      | Hl : notes s' !! _ = Some _ |- _ => apply Hn in Hl
      end; simplify_option_eq; done.
Qed.

(** A removal takes rows of the owner of the removed row only. *)
Lemma deleted_owned (s : Store) (r : Incoming) (k : uuid) (c : Kind) (k' : uuid) (x : Row) :
  owner_of s r k = Some me ->
  row s c k' = Some x -> row (session_delete r k s) c k' = None ->
  owner s c k' = Some me.
Proof.
  intros Ho Hx Hnone.
  destruct r, c; simpl in *; try congruence.
  all: apply fmap_Some in Hx as (y & Hy & ->); apply fmap_None in Hnone.
  all: unfold activity_owner, day_owner, budget_item_owner, note_owner, trip_owner in *.
  all: try (apply lookup_delete_None in Hnone as [Hnone|Hnone]; simplify_option_eq; done).
  all: apply map_lookup_filter_None in Hnone as [Hnone|Hnone]; [congruence|].
  all: specialize (Hnone y Hy); simpl in Hnone.
  all: rewrite Hy; simpl.
  - apply dec_stable in Hnone. by rewrite Hnone.
  - apply not_true_is_false in Hnone. unfold Session.activity_outside in Hnone.
    destruct (days s !! act_day_id y) as [d|]; simpl; [|done].
    apply negb_false_iff, N.eqb_eq in Hnone. by rewrite Hnone.
  - apply dec_stable in Hnone. by rewrite Hnone.
  - apply dec_stable in Hnone. by rewrite Hnone.
  - apply dec_stable in Hnone. by rewrite Hnone.
Qed.

Lemma deleted_no_orphans (s : Store) (r : Incoming) (k : uuid) :
  no_orphans s -> no_orphans (session_delete r k s).
Proof.
  intros (Od & Oa & Ob & On).
  destruct r; unfold no_orphans; simpl; repeat split; intros k' y Hy; eauto.
  all: try (apply lookup_delete_Some in Hy as [_ Hy]; eauto).
  all: try (apply map_lookup_filter_Some in Hy as [Hy Hf]; simpl in Hf).
  - rewrite lookup_delete_ne by done. eauto.
  - destruct (Oa k' y Hy) as [d Hd]. unfold Session.activity_outside in Hf.
    rewrite Hd in Hf. apply negb_true_iff, N.eqb_neq in Hf.
    exists d. by apply map_lookup_filter_Some_2.
  - rewrite lookup_delete_ne by done. eauto.
  - rewrite lookup_delete_ne by done. eauto.
  - rewrite lookup_delete_ne by done. eauto.
Qed.

End Rows.

Section Step_rows.
Context `{PyLib}.
Variable now : datetime.
Variable current_user : uuid.
Variable strategy : Strategy.

(** One iteration puts nothing under another owner. *)
Lemma step_owner (r : Incoming) (h : HState) (c : Kind) (k o : uuid) :
  let s := h_session h in
  let s' := h_session (step now current_user strategy r h) in
  o <> current_user ->
  owner s' c k = Some o -> owner s c k = Some o /\ row s' c k = row s c k.
Proof.
  cbv zeta. intros Hne Ho.
  destruct (step_store_cases now current_user strategy r h)
    as [Es|[(_ & k0 & _ & Hown & Es)|(_ & k0 & _ & Hw)]].
  - by rewrite Es in *.
  - rewrite Es in *. pose proof (deleted_owner _ _ _ _ _ _ Ho) as Ho'.
    split; [done|].
    destruct (row (session_delete r k0 (h_session h)) c k) as [x|] eqn:Hx.
    + symmetry. by eapply deleted_sub.
    + destruct (row (h_session h) c k) as [x|] eqn:Hx'; [|done].
      pose proof (deleted_owned current_user _ _ _ _ _ _ Hown Hx' Hx). congruence.
  - by eapply written_owner.
Qed.

Lemma step_no_orphans (r : Incoming) (h : HState) :
  no_orphans (h_session h) ->
  no_orphans (h_session (step now current_user strategy r h)).
Proof.
  intros Hs.
  destruct (step_store_cases now current_user strategy r h)
    as [Es|[(_ & k0 & _ & Hown & Es)|(_ & k0 & _ & Hw)]].
  - by rewrite Es.
  - rewrite Es. by apply deleted_no_orphans.
  - by eapply written_no_orphans.
Qed.

End Step_rows.

Section Whole_call.
Context `{PyLib}.
Variable now : datetime.
Variable current_user : uuid.

(** X10. Nothing is planted in another account.  After a call, a row
    whose chain resolves to a user other than the caller was in the store
    before the call, identical and under the same owner: the handler
    neither creates a row for another user, nor moves a row to another
    user, nor attaches a row to a parent it does not own. *)
Theorem nothing_is_planted (request : SyncRequest) (db : Store) (c : Kind)
    (k other : uuid) :
  let s' := (sync_data now current_user request db).2 in
  other <> current_user ->
  owner s' c k = Some other ->
  owner db c k = Some other /\ row s' c k = row db c k.
Proof.
  cbv zeta. intros Hne. rewrite sync_data_store.
  set (h0 := mk_HState db _ []).
  change db with (h_session h0).
  apply (upload_invariant now current_user
           (fun h1 => owner (h_session h1) c k = Some other ->
                      owner (h_session h0) c k = Some other
                      /\ row (h_session h1) c k = row (h_session h0) c k));
    [|done].
  intros r h1 IH Ho.
  destruct (step_owner now current_user (conflict_resolution request) r h1 c k other
              Hne Ho) as [Ho1 Er].
  destruct (IH Ho1) as [Ho0 Er0]. split; [done|]. by rewrite Er.
Qed.

(** X11. Referential integrity.  If every day, budget item and note of
    the store has its trip and every activity has its day, the same holds
    of the store the call leaves: a child is created only under a parent
    that is there, a patch never moves a row to another parent, and a
    removal takes the rows below the removed one with it. *)
Theorem no_orphans_is_kept (request : SyncRequest) (db : Store) :
  no_orphans db -> no_orphans (sync_data now current_user request db).2.
Proof.
  intros Hdb. rewrite sync_data_store.
  apply (upload_invariant now current_user (fun h1 => no_orphans (h_session h1)));
    [|done].
  intros r h1. apply step_no_orphans.
Qed.

End Whole_call.

Section One_record.
Context `{PyLib}.
Variable now : datetime.
Variable current_user : uuid.
Variable strategy : Strategy.

(** X12. A record that is not a tombstone touches one row at most: the
    row of its own kind under its own id.  Every other row of the five
    tables is the same after the iteration as before, and no row
    disappears, the one the record names included. *)
Theorem record_touches_one_row (r : Incoming) (h : HState) :
  incoming_is_deleted r = false ->
  let s := h_session h in
  let s' := h_session (step now current_user strategy r h) in
  (forall c k, c <> kind_of r \/ UUID (incoming_id r) <> Some k ->
               row s' c k = row s c k)
  /\ (forall c k, is_Some (row s c k) -> is_Some (row s' c k)).
Proof.
  intros Hd. cbv zeta.
  destruct (step_store_cases now current_user strategy r h)
    as [Es|[(Hd' & _)|(_ & k0 & HU & Hw)]]; [by rewrite Es|congruence|].
  split.
  - intros c k Hck. apply (written_frame current_user _ _ r k0 Hw).
    destruct Hck as [Hc|Hk]; [by left|right]. congruence.
  - intros c k. by apply (written_keeps current_user _ _ r k0).
Qed.

(** X13. A tombstone only removes, and only from the caller.  After the
    iteration every row of the store was there before, unchanged; and a
    row that has gone, the named one or one the cascade took with it,
    belonged to the caller. *)
Theorem tombstone_only_removes (r : Incoming) (h : HState) :
  incoming_is_deleted r = true ->
  let s := h_session h in
  let s' := h_session (step now current_user strategy r h) in
  (forall c k x, row s' c k = Some x -> row s c k = Some x)
  /\ (forall c k x, row s c k = Some x -> row s' c k = None ->
                    owner s c k = Some current_user).
Proof.
  intros Hd. cbv zeta.
  destruct (step_store_cases now current_user strategy r h)
    as [Es|[(_ & k0 & _ & Hown & Es)|(Hd' & _)]]; [| |congruence]; rewrite Es.
  - split; [done|]. intros; congruence.
  - split.
    + intros c k x. apply deleted_sub.
    + intros c k x. by apply deleted_owned.
Qed.

End One_record.

Section Stamps.
Context `{PyLib}.
Variable now : datetime.
Variable current_user : uuid.

Lemma stamp_of_stamped_trip v w (t : Trip) :
  trip_local_updated_at (set_trip_is_synced v (set_trip_local_updated_at w t)) = w.
Proof. by destruct t. Qed.
Lemma stamp_of_stamped_day v w (d : Day) :
  day_local_updated_at (set_day_is_synced v (set_day_local_updated_at w d)) = w.
Proof. by destruct d. Qed.
Lemma stamp_of_stamped_activity v w (a : Activity) :
  act_local_updated_at (set_act_is_synced v (set_act_local_updated_at w a)) = w.
Proof. by destruct a. Qed.
Lemma stamp_of_stamped_budget_item v w (b : BudgetItem) :
  item_local_updated_at (set_item_is_synced v (set_item_local_updated_at w b)) = w.
Proof. by destruct b. Qed.
Lemma stamp_of_stamped_note v w (n : Note) :
  note_local_updated_at (set_note_is_synced v (set_note_local_updated_at w n)) = w.
Proof. by destruct n. Qed.

(** The timestamp of a stored row after a record that names it: the one
    it had, or the client's when the policy answered [True]. *)
Lemma step_stamp (strategy : Strategy) (r : Incoming) (h : HState) (k : uuid)
    (ts : datetime) :
  incoming_is_deleted r = false ->
  UUID (incoming_id r) = Some k ->
  stored_updated_at (h_session h) r k = Some ts ->
  let s' := h_session (step now current_user strategy r h) in
  stored_updated_at s' r k = Some ts
  \/ (_should_update now (incoming_updated_at r) (Some ts) (strategy_str strategy)
        = Ok true
      /\ stored_updated_at s' r k = Some (_parse_timestamp now (incoming_updated_at r))).
Proof.
  intros Hd HU Hts. destruct h as [s resp cs]. cbv zeta.
  destruct r as [x|x|x|x|x]; simpl in *; unfold_body; simpl; rewrite HU, Hd; simpl.
  all: apply fmap_Some in Hts as (y & Hy & ->); rewrite Hy; simpl.
  all: repeat (case_match; simplify_eq/=); rewrite ?Hy; simpl; try (by left).
  all: repeat match goal with
         | Hx : negb ?b = false |- _ => apply negb_false_iff in Hx; try subst b
         end.
  all: rewrite lookup_insert_eq; simpl.
  all: rewrite ?stamp_of_stamped_trip, ?stamp_of_stamped_day,
         ?stamp_of_stamped_activity, ?stamp_of_stamped_budget_item,
         ?stamp_of_stamped_note; try (by right).
  all: left; f_equal.
  all: repeat (rewrite (assign_if_proj trip_local_updated_at) by (by intros ? [])).
  all: done.
Qed.

Lemma stored_updated_at_row (s : Store) (r : Incoming) (k : uuid) :
  stored_updated_at s r k = row_updated_at <$> row s (kind_of r) k.
Proof. destruct r; simpl; by rewrite <- option_fmap_compose. Qed.

(** [a] is not before [b]: the same timestamp, or a later one. *)
Lemma gt_trans (a b c : datetime) :
  Datetime.gt a b = Ok true -> Datetime.gt b c = Ok true -> Datetime.gt a c = Ok true.
Proof.
  unfold Datetime.gt.
  destruct (dt_tzinfo a), (dt_tzinfo b), (dt_tzinfo c); try done.
  all: intros [= Hab] [= Hbc]; f_equal; lia.
Qed.

Lemma step_not_before (strategy : Strategy) (r : Incoming) (h : HState)
    (c : Kind) (k : uuid) (x : Row) :
  strategy = newer_wins \/ strategy = merge ->
  incoming_is_deleted r = false ->
  row (h_session h) c k = Some x ->
  exists x', row (h_session (step now current_user strategy r h)) c k = Some x'
    /\ (row_updated_at x' = row_updated_at x
        \/ Datetime.gt (row_updated_at x') (row_updated_at x) = Ok true).
Proof.
  intros Hst Hd Hx.
  destruct (step_store_cases now current_user strategy r h)
    as [Es|[(Hd' & _)|(_ & k0 & HU & Hw)]]; [|congruence|].
  { rewrite Es. eauto. }
  destruct (written_frame current_user _ _ r k0 Hw) as [Hf _].
  destruct (decide (k = k0)) as [->|Hk]; [|rewrite (Hf c k) by auto; eauto].
  assert (Hc : c = kind_of r \/ c <> kind_of r)
    by (destruct c, r; simpl; (by left) || (by right)).
  destruct Hc as [->|Hc]; [|rewrite (Hf c k0) by auto; eauto].
  assert (Hts : stored_updated_at (h_session h) r k0 = Some (row_updated_at x))
    by (by rewrite stored_updated_at_row, Hx).
  destruct (step_stamp strategy r h k0 _ Hd HU Hts) as [E|[Hv E]];
    rewrite stored_updated_at_row in E; apply fmap_Some in E as (x' & Hx' & E);
    exists x'; (split; [done|]).
  - by left.
  - right. rewrite <- E.
    destruct Hst as [-> | ->]; simpl in Hv.
    + by rewrite should_update_newer_wins in Hv.
    + by rewrite should_update_merge in Hv.
Qed.

Lemma for_each_invariant_in {A} (P : HState -> Prop) (body : A -> M unit) (xs : list A) :
  (forall x h, x ∈ xs -> P h -> P (try_continue (body x) h)) ->
  forall h, P h -> P (for_each xs body h).
Proof.
  induction xs as [|x xs IH]; intros Hb h Hh; [done|].
  rewrite for_each_cons. apply IH.
  - intros y h1 Hy. apply Hb. by apply list_elem_of_further.
  - apply Hb; [apply list_elem_of_here|done].
Qed.

(** A property every iteration on a record of the request keeps is kept
    by the upload phase. *)
Lemma upload_invariant_in (P : HState -> Prop) (request : SyncRequest) :
  (forall r h, r ∈ records request ->
               P h -> P (step now current_user (conflict_resolution request) r h)) ->
  forall h, P h -> P (upload now current_user request h).
Proof.
  intros Hstep h Hh. unfold upload.
  assert (Hin : forall r, r ∈ map InTrip (req_trips request)
                          \/ r ∈ map InDay (req_days request)
                          \/ r ∈ map InActivity (req_activities request)
                          \/ r ∈ map InBudgetItem (req_budget_items request)
                          \/ r ∈ map InNote (req_notes request) ->
                          r ∈ records request).
  { intros r Hr. unfold records. rewrite !elem_of_app. tauto. }
  apply for_each_invariant_in.
  { intros x h1 Hx. apply (Hstep (InNote x)), Hin. do 4 right.
    by apply list_elem_of_fmap_2. }
  apply for_each_invariant_in.
  { intros x h1 Hx. apply (Hstep (InBudgetItem x)), Hin. do 3 right. left.
    by apply list_elem_of_fmap_2. }
  apply for_each_invariant_in.
  { intros x h1 Hx. apply (Hstep (InActivity x)), Hin. do 2 right. left.
    by apply list_elem_of_fmap_2. }
  apply for_each_invariant_in.
  { intros x h1 Hx. apply (Hstep (InDay x)), Hin. right. left.
    by apply list_elem_of_fmap_2. }
  apply for_each_invariant_in.
  { intros x h1 Hx. apply (Hstep (InTrip x)), Hin. left.
    by apply list_elem_of_fmap_2. }
  exact Hh.
Qed.

(** X14. Timestamps never go back.  Under [newer_wins] or [merge], a call
    whose request holds no tombstone keeps every row of the store, and
    the [local_updated_at] a row has after the call is the one it had
    before or a later one, however many records of the request name the
    row and in whatever order they come. *)
Theorem timestamps_never_go_back (request : SyncRequest) (db : Store)
    (c : Kind) (k : uuid) (x : Row) :
  conflict_resolution request = newer_wins \/ conflict_resolution request = merge ->
  Forall (fun r => incoming_is_deleted r = false) (records request) ->
  row db c k = Some x ->
  exists x', row (sync_data now current_user request db).2 c k = Some x'
    /\ (row_updated_at x' = row_updated_at x
        \/ Datetime.gt (row_updated_at x') (row_updated_at x) = Ok true).
Proof.
  intros Hst Hall Hx. rewrite sync_data_store.
  apply (upload_invariant_in
           (fun h1 => exists x', row (h_session h1) c k = Some x'
              /\ (row_updated_at x' = row_updated_at x
                  \/ Datetime.gt (row_updated_at x') (row_updated_at x) = Ok true)));
    [|simpl; eauto].
  intros r h1 Hr (x1 & Hx1 & Hle).
  rewrite Forall_forall in Hall.
  destruct (step_not_before (conflict_resolution request) r h1 c k x1 Hst
              (Hall r Hr) Hx1) as (x2 & Hx2 & Hle2).
  exists x2. split; [done|].
  destruct Hle2 as [E2|G2]; [rewrite E2; exact Hle|].
  destruct Hle as [E1|G1]; [rewrite <- E1; by right|].
  right. by eapply gt_trans.
Qed.

End Stamps.

Section Malformed.
Context `{PyLib}.
Variable now : datetime.
Variable current_user : uuid.

(** The lookup of an id that is not the text of a UUID raises, and the
    loop moves on. *)
Lemma step_malformed (strategy : Strategy) (r : Incoming) (h : HState) :
  UUID (incoming_id r) = None -> step now current_user strategy r h = h.
Proof.
  intros HU. destruct h as [s resp cs].
  destruct r as [x|x|x|x|x]; simpl in *; unfold_body; simpl; rewrite HU; done.
Qed.

(** X3. Ids that are not UUIDs.  A request in which no record has an id
    that is the text of a UUID has the outcome of the same request with
    its five lists emptied: every lookup raises and is passed over,
    nothing is staged or counted, no conflict is recorded, and the
    download block, if there is a watermark, runs on the store as it
    was. *)
Theorem malformed_ids_are_as_if_not_sent (request : SyncRequest) (db : Store) :
  Forall (fun r => UUID (incoming_id r) = None) (records request) ->
  sync_data now current_user request db
  = sync_data now current_user
      (mk_SyncRequest (last_sync_at request) (conflict_resolution request) [] [] [] [] [])
      db.
Proof.
  intros Hall. rewrite Forall_forall in Hall.
  set (h0 := mk_HState db (new_response (Datetime.isoformat now)) []).
  assert (Hup : upload now current_user request h0 = h0).
  { apply (upload_invariant_in now current_user (fun h => h = h0)); [|done].
    intros r h Hr ->. apply step_malformed. by apply Hall. }
  unfold sync_data. fold h0. rewrite Hup. reflexivity.
Qed.

End Malformed.

Section Naive.
Context `{PyLib}.
Variable now : datetime.
Variable current_user : uuid.

(** The timestamp of a row after an iteration: the one the row had, or
    the parsed timestamp of the record. *)
Lemma step_stamps (strategy : Strategy) (r : Incoming) (h : HState)
    (c : Kind) (k : uuid) (x' : Row) :
  row (h_session (step now current_user strategy r h)) c k = Some x' ->
  (exists x, row (h_session h) c k = Some x /\ row_updated_at x' = row_updated_at x)
  \/ row_updated_at x' = _parse_timestamp now (incoming_updated_at r).
Proof.
  intros Hx'.
  destruct (step_store_cases now current_user strategy r h)
    as [Es|[(_ & k0 & _ & _ & Es)|(Hd & k0 & HU & Hw)]].
  - rewrite Es in Hx'. left. eauto.
  - rewrite Es in Hx'. left. exists x'. split; [by eapply deleted_sub|done].
  - destruct (written_frame current_user _ _ r k0 Hw) as [Hf _].
    destruct (decide (k = k0)) as [->|Hk];
      [|rewrite (Hf c k) in Hx' by auto; left; eauto].
    assert (Hc : c = kind_of r \/ c <> kind_of r)
      by (destruct c, r; simpl; (by left) || (by right)).
    destruct Hc as [->|Hc]; [|rewrite (Hf c k0) in Hx' by auto; left; eauto].
    destruct (stored_updated_at (h_session h) r k0) as [ts|] eqn:Hts.
    + destruct (step_stamp now current_user strategy r h k0 ts Hd HU Hts) as [E|[_ E]];
        rewrite stored_updated_at_row, Hx' in E; simpl in E; injection E as E.
      * left. rewrite stored_updated_at_row in Hts.
        apply fmap_Some in Hts as (x & Hx & ->). eauto.
      * by right.
    + right.
      assert (Hs : stored (h_session h) r k0 = false).
      { rewrite stored_updated_at_row in Hts. apply fmap_None in Hts.
        destruct r; simpl in *; apply bool_decide_eq_false; intros [y Hy];
          by rewrite Hy in Hts. }
      destruct (step_creates now current_user strategy r h k0 Hd HU Hs) as [Eyes Eno].
      destruct (parent_ok current_user (h_session h) r) eqn:Hp.
      * rewrite (Eyes eq_refl) in Hx'. simpl in Hx'. clear Eyes Eno Hw Hf.
        destruct r as [y|y|y|y|y]; unfold session_create, parent_ok in Hx', Hp.
        all: try (destruct (parent_of (h_session h) _) as [[p o]|]; [|done]).
        all: simpl in Hx'; rewrite lookup_insert_eq in Hx'; simpl in Hx';
               injection Hx' as <-; reflexivity.
      * rewrite (Eno eq_refl) in Hx'.
        rewrite stored_updated_at_row in Hts. apply fmap_None in Hts. congruence.
Qed.

(** Records whose timestamps carry no zone leave a store without zones
    without zones. *)
Lemma upload_keeps_naive (request : SyncRequest) (h : HState) :
  Forall (plain_stamp now) (records request) ->
  naive_store (h_session h) ->
  naive_store (h_session (upload now current_user request h)).
Proof.
  intros Hplain. rewrite Forall_forall in Hplain.
  apply (upload_invariant_in now current_user (fun h1 => naive_store (h_session h1))).
  intros r h1 Hr Hnaive c k x' Hx'.
  destruct (step_stamps _ r h1 c k x' Hx') as [(x & Hx & ->) | ->].
  - by eapply Hnaive.
  - by destruct (Hplain r Hr).
Qed.

End Naive.

Section Failure.
Context `{PyLib}.
Variable now : datetime.
Variable current_user : uuid.

Lemma fresh_trips_spec (watermark : datetime) (s : Store) (k : uuid) (t : Trip) :
  (k, t) ∈ fresh_trips current_user watermark s
  <-> trips s !! k = Some t /\ trip_user_id t = current_user
      /\ Session.sql_gt (trip_local_updated_at t) watermark = true.
Proof.
  unfold fresh_trips. rewrite select_spec. simpl.
  rewrite andb_true_iff, N.eqb_eq. tauto.
Qed.

(** X15. When a call fails.  The engine refuses nothing the request
    makes the handler send, the timestamps of the records are ones the
    parsers read and carry no zone, and neither the stored timestamps nor
    the watermark carry one.  Then the store left by the uploads is
    without zones too, and the handler raises exactly when the request
    carries a watermark and that store holds a trip of the caller that is
    strictly newer than the watermark; the exception is then the
    [AttributeError] of [trip.preferences].  The uploads are committed
    before the download block runs: the store the call leaves is the one
    the same request leaves without watermark, whether the call returns
    or raises. *)
Theorem call_fails_exactly_when_a_trip_is_due (request : SyncRequest) (db : Store) :
  Forall accepted (records request) ->
  Forall (plain_stamp now) (records request) ->
  naive_store db ->
  (forall ls, parse_last_sync now request = Some ls -> dt_tzinfo ls = None) ->
  let out := sync_data now current_user request db in
  ((exists e, out.1 = Raise e)
   <-> exists ls k t,
         parse_last_sync now request = Some ls
         /\ trips out.2 !! k = Some t /\ trip_user_id t = current_user
         /\ Session.sql_gt (trip_local_updated_at t) ls = true)
  /\ (forall e, out.1 = Raise e -> e = AttributeError)
  /\ out.2 = (sync_data now current_user (with_watermark None request) db).2
  /\ naive_store out.2.
Proof.
  intros _ Hplain Hdb _. cbv zeta.
  assert (Hif : forall ls k t,
            parse_last_sync now request = Some ls ->
            trips (sync_data now current_user request db).2 !! k = Some t ->
            trip_user_id t = current_user ->
            Session.sql_gt (trip_local_updated_at t) ls = true ->
            (sync_data now current_user request db).1 = Raise AttributeError).
  { intros ls k t. apply download_raises_on_a_trip. }
  assert (Honly : forall e, (sync_data now current_user request db).1 = Raise e ->
            exists ls k t,
              parse_last_sync now request = Some ls
              /\ trips (sync_data now current_user request db).2 !! k = Some t
              /\ trip_user_id t = current_user
              /\ Session.sql_gt (trip_local_updated_at t) ls = true).
  { intros e He.
    destruct (parse_last_sync now request) as [ls|] eqn:Hls.
    - destruct (fresh_trips current_user ls (sync_data now current_user request db).2)
        as [|[k t] l] eqn:Hfresh.
      + destruct (sync_data_delta now current_user request db ls Hls Hfresh)
          as (resp & Hok & _). congruence.
      + exists ls, k, t. split; [done|]. apply (fresh_trips_spec ls).
        rewrite Hfresh. apply list_elem_of_here.
    - destruct (no_watermark_no_download now current_user request db Hls)
        as (resp & Hok & _). congruence. }
  split; [split|]; [| |split; [|split]].
  - intros [e He]. by apply (Honly e).
  - intros (ls & k & t & Hls & Hk & Hu & Hgt). exists AttributeError. by eapply Hif.
  - intros e He. destruct (Honly e He) as (ls & k & t & Hls & Hk & Hu & Hgt).
    rewrite (Hif ls k t Hls Hk Hu Hgt) in He. congruence.
  - by rewrite !sync_data_store.
  - rewrite sync_data_store. by apply upload_keeps_naive.
Qed.

End Failure.

Section Watermark.
Context `{PyLib}.

Lemma contains_app (c : ascii) (a b : string) :
  Str.contains c (a ++ b) = Str.contains c a || Str.contains c b.
Proof.
  induction a as [|x a IH]; [done|].
  change (Str.contains c (String x (a ++ b))
          = Str.contains c (String x a) || Str.contains c b).
  simpl. by destruct (Ascii.eqb x c).
Qed.

Lemma endswith_last (c x : ascii) (a : string) :
  Str.endswith c (a ++ String x EmptyString) = Ascii.eqb x c.
Proof.
  induction a as [|y a IH]; [done|].
  change (Str.endswith c (String y (a ++ String x EmptyString)) = Ascii.eqb x c).
  rewrite <- IH. simpl. by destruct a.
Qed.

Lemma string_app_assoc' (a b c : string) : (a ++ b) ++ c = a ++ (b ++ c).
Proof.
  induction a as [|x a IH]; [done|].
  change (String x ((a ++ b) ++ c) = String x (a ++ (b ++ c))). by rewrite IH.
Qed.

Lemma string_app_empty (a : string) : a ++ EmptyString = a.
Proof.
  induction a as [|x a IH]; [done|].
  change (String x (a ++ EmptyString) = String x a). by rewrite IH.
Qed.

Lemma digit_char_is_not (c : ascii) (n : Z) :
  Str.is_digit c = false -> Ascii.eqb (Str.digit_char n) c = false.
Proof.
  intros Hc. apply Ascii.eqb_neq. intros <-. revert Hc. unfold Str.digit_char.
  assert (Hm : 0 <= n mod 10 < 10) by (apply Z.mod_pos_bound; lia).
  assert (Hcases : n mod 10 = 0 \/ n mod 10 = 1 \/ n mod 10 = 2 \/ n mod 10 = 3
                   \/ n mod 10 = 4 \/ n mod 10 = 5 \/ n mod 10 = 6 \/ n mod 10 = 7
                   \/ n mod 10 = 8 \/ n mod 10 = 9) by lia.
  destruct Hcases as [-> | [-> | [-> | [-> | [-> | [-> | [-> | [-> | [-> | ->]]]]]]]]];
    done.
Qed.

(** A text that ends in a padded number does not end in a letter. *)
Lemma endswith_zpad (c : ascii) (p : string) (w : nat) (n : Z) :
  Str.is_digit c = false -> Str.endswith c (p ++ Str.zpad (S w) n) = false.
Proof.
  intros Hc.
  change (Str.zpad (S w) n)
    with (Str.zpad w (n / 10) ++ String (Str.digit_char n) EmptyString).
  rewrite <- string_app_assoc', endswith_last.
  by apply digit_char_is_not.
Qed.

Lemma isoformat_has_T (d : datetime) : Str.contains "T"%char (Datetime.isoformat d) = true.
Proof.
  unfold Datetime.isoformat. rewrite !contains_app. simpl.
  rewrite !orb_true_r. done.
Qed.

Lemma isoformat_ends_in_a_digit (c : ascii) (d : datetime) :
  Str.is_digit c = false -> Str.endswith c (Datetime.isoformat d) = false.
Proof.
  intros Hc. unfold Datetime.isoformat, Datetime.format_offset.
  destruct (dt_tzinfo d) as [off|].
  - destruct ((_ =? 0) && (_ =? 0)).
    + rewrite string_app_empty.
      repeat (rewrite <- string_app_assoc'). by apply endswith_zpad.
    + destruct (_ mod _ =? 0).
      * rewrite string_app_empty.
        repeat (rewrite <- string_app_assoc'). by apply endswith_zpad.
      * repeat (rewrite <- string_app_assoc'). by apply endswith_zpad.
  - rewrite string_app_empty. destruct (dt_microsecond d =? 0).
    + rewrite string_app_empty.
      repeat (rewrite <- string_app_assoc'). by apply endswith_zpad.
    + repeat (rewrite <- string_app_assoc'). by apply endswith_zpad.
Qed.

Lemma isoformat_truthy (d : datetime) : Str.truthy (Datetime.isoformat d) = true.
Proof.
  pose proof (isoformat_has_T d) as HT.
  by destruct (Datetime.isoformat d).
Qed.

(** What the server writes with [isoformat], [_parse_timestamp] reads
    back. *)
Lemma parse_timestamp_isoformat (now d : datetime) :
  fromisoformat (Datetime.isoformat d) = Some d ->
  _parse_timestamp now (Datetime.isoformat d) = d.
Proof.
  intros Hlib. unfold _parse_timestamp.
  rewrite isoformat_has_T, (isoformat_ends_in_a_digit "Z"%char) by done.
  by rewrite Hlib.
Qed.

End Watermark.

Section Next_call.
Context `{PyLib}.
Variable now : datetime.
Variable current_user : uuid.

Lemma upload_keeps_timestamp (request : SyncRequest) (h : HState) :
  sync_timestamp (h_response (upload now current_user request h))
  = sync_timestamp (h_response h).
Proof.
  apply (upload_invariant now current_user (fun h1 =>
    sync_timestamp (h_response h1) = sync_timestamp (h_response h))); [|done].
  intros r [s resp cs] E. simpl in *. rewrite <- E. destruct resp.
  destruct r; unfold_body; simpl; repeat (case_match; simplify_eq/=); done.
Qed.

Lemma download_keeps_timestamp (last_sync : datetime) (h : HState) :
  sync_timestamp (h_response (download current_user last_sync h).2)
  = sync_timestamp (h_response h).
Proof.
  destruct h as [s resp cs]. unfold download.
  unfold bind, lift, ret, get_session, modify_response. simpl.
  destruct resp. repeat (case_match; simplify_eq/=); done.
Qed.

(** X16. The timestamp of a response is the next watermark.  When the
    library reads back the text it writes for the clock value, the
    [sync_timestamp] of a response, sent as [last_sync_at] of a later
    request, is taken as watermark unaltered: it is the clock value of the
    call that produced the response, whatever the clock is by then. *)
Theorem response_timestamp_is_the_next_watermark (later : datetime)
    (request next : SyncRequest) (db : Store) (resp : SyncResponse) :
  fromisoformat (Datetime.isoformat now) = Some now ->
  (sync_data now current_user request db).1 = Ok resp ->
  sync_timestamp resp = Datetime.isoformat now
  /\ parse_last_sync later (with_watermark (Some (sync_timestamp resp)) next) = Some now.
Proof.
  intros Hlib Hok.
  assert (Hts : sync_timestamp resp = Datetime.isoformat now).
  { unfold sync_data in Hok.
    set (h0 := mk_HState db (new_response (Datetime.isoformat now)) []) in Hok.
    pose proof (upload_keeps_timestamp request h0) as Hu.
    set (h1 := upload now current_user request h0) in *.
    destruct (parse_last_sync now request) as [ls|].
    - pose proof (download_keeps_timestamp ls h1) as Hd.
      destruct (download current_user ls h1) as [[u|e] h2]; [|done].
      simpl in Hok, Hd. injection Hok as <-.
      destruct (h_response h2); simpl in *. by rewrite Hd, Hu.
    - simpl in Hok. injection Hok as <-.
      destruct (h_response h1); simpl in *. by rewrite Hu. }
  split; [done|]. rewrite Hts. unfold parse_last_sync, with_watermark.
  cbn [last_sync_at].
  by rewrite isoformat_truthy, parse_timestamp_isoformat.
Qed.

End Next_call.

Section Echo.
Context `{PyLib}.
Variable now : datetime.
Variable current_user : uuid.

(** X17. Sending a download back.  The library reads back the texts it
    writes for the row's key and timestamp.  A record that carries the
    [id] and the [local_updated_at] of the dictionary [_serialize_day]
    (or [_serialize_activity], [_serialize_budget_item],
    [_serialize_note]) builds for a row of the caller, whatever its other
    fields, is a tie against that row: under every strategy but
    [client_wins] the iteration writes nothing and counts nothing. *)
Theorem echoed_download_changes_nothing (strategy : Strategy) (r : Incoming)
    (h : HState) (k : uuid) :
  strategy <> client_wins ->
  UUID (uuid_str k) = Some k ->
  (forall ts, stored_updated_at (h_session h) r k = Some ts ->
              fromisoformat (Datetime.isoformat ts) = Some ts) ->
  incoming_is_deleted r = false ->
  owner_of (h_session h) r k = Some current_user ->
  echoes (h_session h) r k ->
  step now current_user strategy r h = h.
Proof.
  intros Hst Hkey Hlib Hd Ho He.
  assert (Hrow : exists ts,
            UUID (incoming_id r) = Some k
            /\ stored_updated_at (h_session h) r k = Some ts
            /\ incoming_updated_at r = Datetime.isoformat ts).
  { destruct r as [x|x|x|x|x]; simpl in He; [done|..];
      destruct He as (y & Hy & Hid & Hts); simpl in Hid, Hts;
      injection Hts as Hts; simpl; rewrite Hy, Hid; eauto. }
  destruct Hrow as (ts & HU & Hts & Hstamp).
  assert (Hv : _should_update now (incoming_updated_at r) (Some ts)
                 (strategy_str strategy) = Ok false).
  { rewrite Hstamp. destruct strategy; simpl; try done.
    - by rewrite should_update_newer_wins, parse_timestamp_isoformat, gt_tie by auto.
    - by rewrite should_update_merge, should_update_newer_wins,
        parse_timestamp_isoformat, gt_tie by auto. }
  rewrite (rejected_write now current_user strategy r h k ts Hd HU Ho Hts Hv).
  destruct h as [s resp cs]. by destruct r.
Qed.

End Echo.

Section Returned_download.
Context `{PyLib}.
Variable now : datetime.
Variable current_user : uuid.

Lemma due_fmap {R} (inj : R -> Row) (m : gmap uuid R) (k : uuid) (y : R) :
  (forall a b, inj a = inj b -> a = b) ->
  inj <$> m !! k = Some (inj y) <-> m !! k = Some y.
Proof.
  intros Hinj. split.
  - intros Hk. apply fmap_Some in Hk as (z & Hz & E). apply Hinj in E. by subst.
  - intros ->. done.
Qed.

(** X18. What a call that returns has downloaded.  The engine refuses
    nothing the request makes the handler send, the timestamps of the
    records are ones the parsers read and carry no zone, and neither the
    stored timestamps nor the watermark carry one; the request carries a
    watermark and the call returns.  Then the store left by the uploads
    is without zones, [server_data] holds no trip, and for each of the
    four other kinds the list is the serialisation of the rows due to the
    caller, each row once: the rows of that store whose chain resolves to
    the caller and whose [local_updated_at] is strictly later than the
    watermark.  Each download counter is the length of its list. *)
Theorem returned_download_is_the_delta (request : SyncRequest) (db : Store)
    (last_sync : datetime) (resp : SyncResponse) :
  Forall accepted (records request) ->
  Forall (plain_stamp now) (records request) ->
  naive_store db ->
  parse_last_sync now request = Some last_sync ->
  dt_tzinfo last_sync = None ->
  (sync_data now current_user request db).1 = Ok resp ->
  let s := (sync_data now current_user request db).2 in
  naive_store s
  /\ (sd_trips (server_data resp) = [] /\ trips_downloaded resp = 0
   /\ forall k t, ~ due current_user last_sync s KTrip k (RTrip t))
  /\ (exists l, NoDup l
        /\ sd_days (server_data resp) = map _serialize_day l
        /\ days_downloaded resp = Z.of_nat (length l)
        /\ forall k d, (k, d) ∈ l <-> due current_user last_sync s KDay k (RDay d))
  /\ (exists l, NoDup l
        /\ sd_activities (server_data resp) = map _serialize_activity l
        /\ activities_downloaded resp = Z.of_nat (length l)
        /\ forall k a, (k, a) ∈ l
                       <-> due current_user last_sync s KActivity k (RActivity a))
  /\ (exists l, NoDup l
        /\ sd_budget_items (server_data resp) = map _serialize_budget_item l
        /\ budget_items_downloaded resp = Z.of_nat (length l)
        /\ forall k b, (k, b) ∈ l
                       <-> due current_user last_sync s KBudgetItem k (RBudgetItem b))
  /\ (exists l, NoDup l
        /\ sd_notes (server_data resp) = map _serialize_note l
        /\ notes_downloaded resp = Z.of_nat (length l)
        /\ forall k n, (k, n) ∈ l <-> due current_user last_sync s KNote k (RNote n)).
Proof.
  intros _ Hplain Hdb Hls _ Hok. cbv zeta.
  split; [rewrite sync_data_store; by apply upload_keeps_naive|].
  set (s := (sync_data now current_user request db).2).
  assert (Hnone : forall k t, ~ due current_user last_sync s KTrip k (RTrip t)).
  { intros k t (Hk & Ho & Hgt). simpl in Hk, Ho, Hgt.
    apply (due_fmap RTrip) in Hk; [|by intros ? ? [= ->]].
    unfold trip_owner in Ho. rewrite Hk in Ho. injection Ho as Ho.
    pose proof (download_raises_on_a_trip now current_user request db last_sync k t
                  Hls Hk Ho Hgt) as Hr. congruence. }
  assert (Hfresh : fresh_trips current_user last_sync s = []).
  { destruct (fresh_trips current_user last_sync s) as [|[k t] l] eqn:E; [done|].
    exfalso. apply (Hnone k t).
    assert (Hin : (k, t) ∈ fresh_trips current_user last_sync s)
      by (rewrite E; apply list_elem_of_here).
    apply fresh_trips_spec in Hin as (Hk & Ho & Hgt).
    repeat split; simpl; [by rewrite Hk|unfold trip_owner; rewrite Hk; simpl; by rewrite Ho|done]. }
  destruct (sync_data_delta now current_user request db last_sync Hls Hfresh)
    as (resp' & Hok' & T1 & T2 & D1 & D2 & A1 & A2 & B1 & B2 & N1 & N2).
  fold s in D1, D2, A1, A2, B1, B2, N1, N2.
  assert (resp' = resp) as -> by congruence.
  destruct (fresh_NoDup current_user last_sync s) as (_ & ND & NA & NB & NN).
  split; [done|].
  split; [|split; [|split]].
  - exists (fresh_days current_user last_sync s).
    split; [done|]. split; [done|]. split; [done|]. intros k y. split.
    + intros Hin. apply fresh_days_spec in Hin as (Hk & Ho & Hgt).
      repeat split; simpl; [by rewrite Hk|done|done].
    + intros (Hk & Ho & Hgt). apply fresh_days_spec. simpl in Hk, Ho, Hgt.
      apply (due_fmap RDay) in Hk; [done|by intros ? ? [= ->]].
  - exists (fresh_activities current_user last_sync s).
    split; [done|]. split; [done|]. split; [done|]. intros k y. split.
    + intros Hin. apply fresh_activities_spec in Hin as (Hk & Ho & Hgt).
      repeat split; simpl; [by rewrite Hk|done|done].
    + intros (Hk & Ho & Hgt). apply fresh_activities_spec. simpl in Hk, Ho, Hgt.
      apply (due_fmap RActivity) in Hk; [done|by intros ? ? [= ->]].
  - exists (fresh_budget_items current_user last_sync s).
    split; [done|]. split; [done|]. split; [done|]. intros k y. split.
    + intros Hin. apply fresh_budget_items_spec in Hin as (Hk & Ho & Hgt).
      repeat split; simpl; [by rewrite Hk|done|done].
    + intros (Hk & Ho & Hgt). apply fresh_budget_items_spec. simpl in Hk, Ho, Hgt.
      apply (due_fmap RBudgetItem) in Hk; [done|by intros ? ? [= ->]].
  - exists (fresh_notes current_user last_sync s).
    split; [done|]. split; [done|]. split; [done|]. intros k y. split.
    + intros Hin. apply fresh_notes_spec in Hin as (Hk & Ho & Hgt).
      repeat split; simpl; [by rewrite Hk|done|done].
    + intros (Hk & Ho & Hgt). apply fresh_notes_spec. simpl in Hk, Ho, Hgt.
      apply (due_fmap RNote) in Hk; [done|by intros ? ? [= ->]].
Qed.

End Returned_download.

(** ** Cascade ordering within a call *)

Section Cascade_steps.
Context `{PyLib}.
Variable now : datetime.
Variable current_user : uuid.
Variable strategy : Strategy.
Variables kt kd ka : uuid.

(** No iteration takes an upload back. *)
Lemma step_counts_up (r : Incoming) (h : HState) :
  let resp := h_response h in
  let resp' := h_response (step now current_user strategy r h) in
  trips_uploaded resp <= trips_uploaded resp'
  /\ days_uploaded resp <= days_uploaded resp'
  /\ activities_uploaded resp <= activities_uploaded resp'.
Proof.
  cbv zeta.
  destruct (step_accounts now current_user strategy r h)
    as [[-> _]|[[-> _]|(x & ts & _ & -> & _)]]; try lia.
  destruct r, (h_response h); simpl; lia.
Qed.

(** A record that is not a tombstone leaves an absent row absent, unless
    it is of the row's kind and carries its id. *)
Lemma step_keeps_absent (r : Incoming) (h : HState) (c : Kind) (k : uuid) :
  incoming_is_deleted r = false ->
  c <> kind_of r \/ UUID (incoming_id r) <> Some k ->
  row (h_session h) c k = None ->
  row (h_session (step now current_user strategy r h)) c k = None.
Proof.
  intros Hd Hck Hnone.
  destruct (step_store_cases now current_user strategy r h)
    as [Es|[(Hd' & _)|(_ & k0 & HU & Hw)]]; [by rewrite Es|congruence|].
  destruct (written_frame current_user _ _ r k0 Hw) as [Hf _].
  rewrite Hf; [done|]. destruct Hck as [Hc|Hk]; [by left|right; congruence].
Qed.

Lemma trip_staged_kept (r : Incoming) (h : HState) :
  incoming_is_deleted r = false ->
  trip_staged current_user kt h -> trip_staged current_user kt (step now current_user strategy r h).
Proof.
  intros Hd [(t & Ht & Hu) Hc]. split; [|pose proof (step_counts_up r h); simpl in *; lia].
  destruct (step_store_cases now current_user strategy r h)
    as [Es|[(Hd' & _)|(_ & k0 & HU & Hw)]]; [rewrite Es; eauto|congruence|].
  remember (h_session (step now current_user strategy r h)) as s' eqn:Es'. clear Es'.
  destruct r; simpl in Hw; destruct Hw as (y & -> & Hy & Hold); simpl; eauto.
  destruct (decide (k0 = kt)) as [->|Hne].
  - rewrite lookup_insert_eq. eauto.
  - rewrite lookup_insert_ne by done. eauto.
Qed.

Lemma day_staged_kept (r : Incoming) (h : HState) :
  incoming_is_deleted r = false ->
  day_staged kt kd h -> day_staged kt kd (step now current_user strategy r h).
Proof.
  intros Hd [(d & Hday & Hp) Hc]. split; [|pose proof (step_counts_up r h); simpl in *; lia].
  destruct (step_store_cases now current_user strategy r h)
    as [Es|[(Hd' & _)|(_ & k0 & HU & Hw)]]; [rewrite Es; eauto|congruence|].
  remember (h_session (step now current_user strategy r h)) as s' eqn:Es'. clear Es'.
  destruct r; simpl in Hw; destruct Hw as (y & -> & Hy & Hold); simpl; eauto.
  destruct (decide (k0 = kd)) as [->|Hne].
  - rewrite lookup_insert_eq. exists y. split; [done|]. by rewrite <- (Hold d Hday).
  - rewrite lookup_insert_ne by done. eauto.
Qed.

Lemma activity_staged_kept (r : Incoming) (h : HState) :
  incoming_is_deleted r = false ->
  activity_staged kd ka h -> activity_staged kd ka (step now current_user strategy r h).
Proof.
  intros Hd [(a & Ha & Hp) Hc]. split; [|pose proof (step_counts_up r h); simpl in *; lia].
  destruct (step_store_cases now current_user strategy r h)
    as [Es|[(Hd' & _)|(_ & k0 & HU & Hw)]]; [rewrite Es; eauto|congruence|].
  remember (h_session (step now current_user strategy r h)) as s' eqn:Es'. clear Es'.
  destruct r; simpl in Hw; destruct Hw as (y & -> & Hy & Hold); simpl; eauto.
  destruct (decide (k0 = ka)) as [->|Hne].
  - rewrite lookup_insert_eq. exists y. split; [done|]. by rewrite <- (Hold a Ha).
  - rewrite lookup_insert_ne by done. eauto.
Qed.

(** The trip record stages the trip. *)
Lemma trip_staged_by (x : TripSyncData) (h : HState) :
  tsd_is_deleted x = false -> UUID (tsd_id x) = Some kt ->
  trip_pending current_user kt h -> trip_staged current_user kt (step now current_user strategy (InTrip x) h).
Proof.
  intros Hd HU [H0 [Hnone|Hst]]; [|by apply trip_staged_kept].
  destruct (step_creates now current_user strategy (InTrip x) h kt Hd HU) as [E _].
  { simpl. apply bool_decide_eq_false. rewrite Hnone. by intros [? ?]. }
  rewrite (E eq_refl). split; simpl.
  - rewrite lookup_insert_eq. eauto.
  - destruct (h_response h); simpl in *. lia.
Qed.

(** The day record stages the day, once its trip is staged. *)
Lemma day_staged_by (y : DaySyncData) (h : HState) :
  dsd_is_deleted y = false -> UUID (dsd_id y) = Some kd ->
  UUID (dsd_trip_id y) = Some kt ->
  trip_staged current_user kt h ->
  day_pending kt kd h -> day_staged kt kd (step now current_user strategy (InDay y) h).
Proof.
  intros Hd HU HP [(t & Ht & Hu) _] [H0 [Hnone|Hst]]; [|by apply day_staged_kept].
  destruct (step_creates now current_user strategy (InDay y) h kd Hd HU) as [E _].
  { simpl. apply bool_decide_eq_false. rewrite Hnone. by intros [? ?]. }
  assert (P : parent_of (h_session h) (InDay y) = Some (kt, Some current_user)).
  { simpl. rewrite HP. simpl. unfold trip_owner. rewrite Ht. simpl. by rewrite Hu. }
  rewrite E by (unfold parent_ok; rewrite P; apply N.eqb_refl).
  unfold session_create. rewrite P. split; simpl.
  - rewrite lookup_insert_eq. eauto.
  - destruct (h_response h); simpl in *. lia.
Qed.

(** The activity record stages the activity, once its day is staged
    under the staged trip. *)
Lemma activity_staged_by (z : ActivitySyncData) (h : HState) :
  asd_is_deleted z = false -> UUID (asd_id z) = Some ka ->
  UUID (asd_day_id z) = Some kd ->
  trip_staged current_user kt h -> day_staged kt kd h ->
  activity_pending kd ka h -> activity_staged kd ka (step now current_user strategy (InActivity z) h).
Proof.
  intros Hd HU HP [(t & Ht & Hu) _] [(d & Hday & Hdt) _] [H0 [Hnone|Hst]];
    [|by apply activity_staged_kept].
  destruct (step_creates now current_user strategy (InActivity z) h ka Hd HU) as [E _].
  { simpl. apply bool_decide_eq_false. rewrite Hnone. by intros [? ?]. }
  assert (P : parent_of (h_session h) (InActivity z) = Some (kd, Some current_user)).
  { simpl. rewrite HP. simpl. unfold day_owner, trip_owner.
    rewrite Hday. simpl. rewrite Hdt, Ht. simpl. by rewrite Hu. }
  rewrite E by (unfold parent_ok; rewrite P; apply N.eqb_refl).
  unfold session_create. rewrite P. split; simpl.
  - rewrite lookup_insert_eq. eauto.
  - destruct (h_response h); simpl in *. lia.
Qed.

(** What is pending stays pending under a record of another kind or
    another id. *)
Lemma trip_pending_kept (r : Incoming) (h : HState) :
  incoming_is_deleted r = false ->
  KTrip <> kind_of r \/ UUID (incoming_id r) <> Some kt ->
  trip_pending current_user kt h -> trip_pending current_user kt (step now current_user strategy r h).
Proof.
  intros Hd Hck [H0 Hcase].
  split; [pose proof (step_counts_up r h); simpl in *; lia|].
  destruct Hcase as [Hnone|Hst]; [left|right; by apply trip_staged_kept].
  pose proof (step_keeps_absent r h KTrip kt Hd Hck) as Hk. simpl in Hk.
  rewrite Hnone in Hk. specialize (Hk eq_refl).
  by destruct (trips (h_session (step now current_user strategy r h)) !! kt).
Qed.

Lemma day_pending_kept (r : Incoming) (h : HState) :
  incoming_is_deleted r = false ->
  KDay <> kind_of r \/ UUID (incoming_id r) <> Some kd ->
  day_pending kt kd h -> day_pending kt kd (step now current_user strategy r h).
Proof.
  intros Hd Hck [H0 Hcase].
  split; [pose proof (step_counts_up r h); simpl in *; lia|].
  destruct Hcase as [Hnone|Hst]; [left|right; by apply day_staged_kept].
  pose proof (step_keeps_absent r h KDay kd Hd Hck) as Hk. simpl in Hk.
  rewrite Hnone in Hk. specialize (Hk eq_refl).
  by destruct (days (h_session (step now current_user strategy r h)) !! kd).
Qed.

Lemma activity_pending_kept (r : Incoming) (h : HState) :
  incoming_is_deleted r = false ->
  KActivity <> kind_of r \/ UUID (incoming_id r) <> Some ka ->
  activity_pending kd ka h -> activity_pending kd ka (step now current_user strategy r h).
Proof.
  intros Hd Hck [H0 Hcase].
  split; [pose proof (step_counts_up r h); simpl in *; lia|].
  destruct Hcase as [Hnone|Hst]; [left|right; by apply activity_staged_kept].
  pose proof (step_keeps_absent r h KActivity ka Hd Hck) as Hk. simpl in Hk.
  rewrite Hnone in Hk. specialize (Hk eq_refl).
  by destruct (activities (h_session (step now current_user strategy r h)) !! ka).
Qed.

End Cascade_steps.

Section Cascade_call.
Context `{PyLib}.
Variable now : datetime.
Variable current_user : uuid.

(** A loop over a list that holds [x]: what every iteration keeps and
    the iteration on [x] turns into [J], which every iteration keeps,
    gives [J] at the end. *)
Lemma for_each_reaches {A} (I J : HState -> Prop) (body : A -> M unit)
    (xs : list A) (x : A) :
  x ∈ xs ->
  (forall y h, y ∈ xs -> I h -> I (try_continue (body y) h)) ->
  (forall h, I h -> J (try_continue (body x) h)) ->
  (forall y h, y ∈ xs -> J h -> J (try_continue (body y) h)) ->
  forall h, I h -> J (for_each xs body h).
Proof.
  intros Hx HI HIJ HJ h Hh.
  apply list_elem_of_split in Hx as (l1 & l2 & ->).
  rewrite for_each_app, for_each_cons.
  apply for_each_invariant_in.
  { intros y h1 Hy. apply HJ. rewrite elem_of_app. right. by apply list_elem_of_further. }
  apply HIJ. apply for_each_invariant_in; [|done].
  intros y h1 Hy. apply HI. rewrite elem_of_app. by left.
Qed.

Lemma records_trip (request : SyncRequest) x :
  x ∈ req_trips request -> InTrip x ∈ records request.
Proof.
  intros Hx. unfold records. rewrite !elem_of_app. left. by apply list_elem_of_fmap_2.
Qed.

Lemma records_day (request : SyncRequest) x :
  x ∈ req_days request -> InDay x ∈ records request.
Proof.
  intros Hx. unfold records. rewrite !elem_of_app. right. left.
  by apply list_elem_of_fmap_2.
Qed.

Lemma records_activity (request : SyncRequest) x :
  x ∈ req_activities request -> InActivity x ∈ records request.
Proof.
  intros Hx. unfold records. rewrite !elem_of_app. do 2 right. left.
  by apply list_elem_of_fmap_2.
Qed.

Lemma records_budget_item (request : SyncRequest) x :
  x ∈ req_budget_items request -> InBudgetItem x ∈ records request.
Proof.
  intros Hx. unfold records. rewrite !elem_of_app. do 3 right. left.
  by apply list_elem_of_fmap_2.
Qed.

Lemma records_note (request : SyncRequest) x :
  x ∈ req_notes request -> InNote x ∈ records request.
Proof.
  intros Hx. unfold records. rewrite !elem_of_app. do 4 right.
  by apply list_elem_of_fmap_2.
Qed.

(** The counters of a response that is returned are those of the upload
    phase. *)
Lemma returned_uploads (request : SyncRequest) (db : Store) (resp : SyncResponse) :
  (sync_data now current_user request db).1 = Ok resp ->
  let h := upload now current_user request
             (mk_HState db (new_response (Datetime.isoformat now)) []) in
  trips_uploaded resp = trips_uploaded (h_response h)
  /\ days_uploaded resp = days_uploaded (h_response h)
  /\ activities_uploaded resp = activities_uploaded (h_response h).
Proof.
  intros Hok. cbv zeta. unfold sync_data in Hok.
  set (h5 := upload now current_user request _) in *.
  destruct (parse_last_sync now request) as [ls|].
  - destruct (download current_user ls h5) as [[u|e] h6] eqn:Hdl; [|done].
    destruct (download_keeps_uploads current_user ls h5 h6 u Hdl)
      as (_ & E1 & E2 & E3 & _).
    simpl in Hok. injection Hok as <-.
    destruct (h_response h6), (h_response h5); simpl in *. by subst.
  - simpl in Hok. injection Hok as <-. by destruct (h_response h5).
Qed.

Section Staging.
Variable request : SyncRequest.
Variable db : Store.
Variables kt kd : uuid.
Variable x : TripSyncData.
Variable y : DaySyncData.
Hypothesis Hlive : Forall (fun r => incoming_is_deleted r = false) (records request).
Hypothesis Hkt : trips db !! kt = None.
Hypothesis Hkd : days db !! kd = None.
Hypothesis Hx : x ∈ req_trips request.
Hypothesis HUx : UUID (tsd_id x) = Some kt.
Hypothesis Hy : y ∈ req_days request.
Hypothesis HUy : UUID (dsd_id y) = Some kd.
Hypothesis Hsame : forall y', y' ∈ req_days request -> UUID (dsd_id y') = Some kd ->
                              UUID (dsd_trip_id y') = Some kt.

Let strategy := conflict_resolution request.
Let h0 := mk_HState db (new_response (Datetime.isoformat now)) [].
Let h1 := for_each (req_trips request) (sync_trip now current_user strategy) h0.
Let h2 := for_each (req_days request) (sync_day now current_user strategy) h1.

Lemma record_is_live (r : Incoming) : r ∈ records request -> incoming_is_deleted r = false.
Proof. rewrite Forall_forall in Hlive. apply Hlive. Qed.

(** After the trip loop and the day loop the trip and the day are
    staged; [Q] is anything the records of the two loops keep. *)
Lemma staged_after_days (Q : HState -> Prop) :
  (forall r h, r ∈ records request -> kind_of r = KTrip \/ kind_of r = KDay ->
               Q h -> Q (step now current_user strategy r h)) ->
  Q h0 ->
  trip_staged current_user kt h2 /\ day_staged kt kd h2 /\ Q h2.
Proof.
  intros HQ HQ0.
  assert (H1 : trip_staged current_user kt h1 /\ day_pending kt kd h1 /\ Q h1).
  { unfold h1.
    apply (for_each_reaches
             (fun h => trip_pending current_user kt h /\ day_pending kt kd h /\ Q h)
             (fun h => trip_staged current_user kt h /\ day_pending kt kd h /\ Q h)
             _ _ x Hx).
    - intros x' h Hx' (T & D & Qh).
      change (try_continue (sync_trip now current_user strategy x') h)
        with (step now current_user strategy (InTrip x') h).
      pose proof (record_is_live _ (records_trip _ _ Hx')) as Hd.
      split; [|split].
      + destruct (decide (UUID (tsd_id x') = Some kt)) as [E|N].
        * destruct (trip_staged_by now current_user strategy kt x' h Hd E T) as [S1 S2].
          split; [lia|right; by split].
        * apply trip_pending_kept; [done|by right|done].
      + apply day_pending_kept; [done|by left|done].
      + apply HQ; auto using records_trip.
    - intros h (T & D & Qh).
      change (try_continue (sync_trip now current_user strategy x) h)
        with (step now current_user strategy (InTrip x) h).
      pose proof (record_is_live _ (records_trip _ _ Hx)) as Hd.
      split; [by apply trip_staged_by|]. split.
      + apply day_pending_kept; [done|by left|done].
      + apply HQ; auto using records_trip.
    - intros x' h Hx' (T & D & Qh).
      change (try_continue (sync_trip now current_user strategy x') h)
        with (step now current_user strategy (InTrip x') h).
      pose proof (record_is_live _ (records_trip _ _ Hx')) as Hd.
      split; [by apply trip_staged_kept|]. split.
      + apply day_pending_kept; [done|by left|done].
      + apply HQ; auto using records_trip.
    - split; [|split; [|done]]; (split; [simpl; lia|by left]). }
  unfold h2.
  apply (for_each_reaches
           (fun h => trip_staged current_user kt h /\ day_pending kt kd h /\ Q h)
           (fun h => trip_staged current_user kt h /\ day_staged kt kd h /\ Q h)
           _ _ y Hy); [| | |exact H1].
  - intros y' h Hy' (T & D & Qh).
    change (try_continue (sync_day now current_user strategy y') h)
      with (step now current_user strategy (InDay y') h).
    pose proof (record_is_live _ (records_day _ _ Hy')) as Hd.
    split; [by apply trip_staged_kept|]. split.
    + destruct (decide (UUID (dsd_id y') = Some kd)) as [E|N].
      * destruct (day_staged_by now current_user strategy kt kd y' h Hd E
                    (Hsame y' Hy' E) T D) as [S1 S2].
        split; [lia|right; by split].
      * apply day_pending_kept; [done|by right|done].
    + apply HQ; auto using records_day.
  - intros h (T & D & Qh).
    change (try_continue (sync_day now current_user strategy y) h)
      with (step now current_user strategy (InDay y) h).
    pose proof (record_is_live _ (records_day _ _ Hy)) as Hd.
    split; [by apply trip_staged_kept|]. split.
    + apply day_staged_by; auto.
    + apply HQ; auto using records_day.
  - intros y' h Hy' (T & D & Qh).
    change (try_continue (sync_day now current_user strategy y') h)
      with (step now current_user strategy (InDay y') h).
    pose proof (record_is_live _ (records_day _ _ Hy')) as Hd.
    split; [by apply trip_staged_kept|]. split.
    + by apply day_staged_kept.
    + apply HQ; auto using records_day.
Qed.

End Staging.

(** C9. Cascade ordering.  A request without tombstones, in which the
    engine refuses nothing, carries a record for a trip the store does
    not have and a record for a day the store does not have that refers
    to that trip (every record for that day does).  Whatever else the
    five lists hold, after the call the trip is in the store and is the
    caller's, and the day is in the store under that trip: the day loop
    runs after the trip loop and its parent lookup finds the trip staged
    there.  A response that is returned counts at least one trip and one
    day, and the call returns when the request has no watermark.
    Likewise for an activity the store does not have whose records refer
    to that day: it is in the store under the day and a returned
    response counts at least one activity. *)
Theorem cascade_ordering (request : SyncRequest) (db : Store) (kt kd : uuid)
    (x : TripSyncData) (y : DaySyncData) :
  Forall accepted (records request) ->
  Forall (fun r => incoming_is_deleted r = false) (records request) ->
  trips db !! kt = None -> days db !! kd = None ->
  x ∈ req_trips request -> UUID (tsd_id x) = Some kt ->
  y ∈ req_days request -> UUID (dsd_id y) = Some kd ->
  (forall y', y' ∈ req_days request -> UUID (dsd_id y') = Some kd ->
              UUID (dsd_trip_id y') = Some kt) ->
  let out := sync_data now current_user request db in
  (exists t d, trips out.2 !! kt = Some t /\ trip_user_id t = current_user
               /\ days out.2 !! kd = Some d /\ day_trip_id d = kt)
  /\ (forall resp, out.1 = Ok resp ->
                   1 <= trips_uploaded resp /\ 1 <= days_uploaded resp)
  /\ (parse_last_sync now request = None -> exists resp, out.1 = Ok resp)
  /\ (forall z ka,
        z ∈ req_activities request -> UUID (asd_id z) = Some ka ->
        activities db !! ka = None ->
        (forall z', z' ∈ req_activities request -> UUID (asd_id z') = Some ka ->
                    UUID (asd_day_id z') = Some kd) ->
        (exists a, activities out.2 !! ka = Some a /\ act_day_id a = kd)
        /\ (forall resp, out.1 = Ok resp -> 1 <= activities_uploaded resp)).
Proof.
  intros _ Hlive Hkt Hkd Hx HUx Hy HUy Hsame. cbv zeta.
  rewrite sync_data_store.
  set (strategy := conflict_resolution request).
  set (h0 := mk_HState db (new_response (Datetime.isoformat now)) []).
  set (h2 := for_each (req_days request) (sync_day now current_user strategy)
               (for_each (req_trips request) (sync_trip now current_user strategy) h0)).
  set (tail := fun h : HState =>
         for_each (req_notes request) (sync_note now current_user strategy)
           (for_each (req_budget_items request)
              (sync_budget_item now current_user strategy)
              (for_each (req_activities request)
                 (sync_activity now current_user strategy) h))).
  assert (Hup : upload now current_user request h0 = tail h2) by reflexivity.
  rewrite Hup.
  (* what the three last loops keep *)
  assert (Htail : forall (P : HState -> Prop),
            (forall r h, r ∈ records request -> P h ->
                         P (step now current_user strategy r h)) ->
            forall h, P h ->
            P (for_each (req_notes request) (sync_note now current_user strategy)
                 (for_each (req_budget_items request)
                    (sync_budget_item now current_user strategy) h))).
  { intros P HP h Hh.
    apply for_each_invariant_in.
    { intros n h1 Hn. apply (HP (InNote n)). by apply records_note. }
    apply for_each_invariant_in; [|done].
    intros b h1 Hb. apply (HP (InBudgetItem b)). by apply records_budget_item. }
  assert (Hpair : trip_staged current_user kt (tail h2) /\ day_staged kt kd (tail h2)).
  { destruct (staged_after_days request db kt kd x y Hlive Hkt Hkd Hx HUx Hy HUy Hsame
                (fun _ => True)) as (T & D & _); [done|done|].
    fold strategy h0 h2 in T, D. unfold tail.
    apply (Htail (fun h => trip_staged current_user kt h /\ day_staged kt kd h)).
    { intros r h Hr [T' D']. pose proof (record_is_live request Hlive r Hr) as Hd.
      split; [by apply trip_staged_kept|by apply day_staged_kept]. }
    apply for_each_invariant_in; [|done].
    intros z h Hz [T' D'].
    change (try_continue (sync_activity now current_user strategy z) h)
      with (step now current_user strategy (InActivity z) h).
    pose proof (record_is_live request Hlive _ (records_activity _ _ Hz)) as Hd.
    split; [by apply trip_staged_kept|by apply day_staged_kept]. }
  destruct Hpair as [[(t & Ht & Hu) Ct] [(d & Hd & Hdt) Cd]].
  split; [exists t, d; done|].
  split.
  { intros resp Hok.
    destruct (returned_uploads request db resp Hok) as (E1 & E2 & _).
    change (upload now current_user request _) with (tail h2) in E1, E2. lia. }
  split.
  { intros Hls. rewrite sync_data_without_watermark by exact Hls. simpl. eauto. }
  intros z ka Hz HUz Hka Hsame_a.
  assert (Hchain : activity_staged kd ka (tail h2)).
  { destruct (staged_after_days request db kt kd x y Hlive Hkt Hkd Hx HUx Hy HUy Hsame
                (activity_pending kd ka)) as (T & D & A).
    { intros r h Hr Hkind Hp. apply activity_pending_kept; [|left|done].
      - by apply (record_is_live request Hlive).
      - destruct Hkind as [E|E]; rewrite E; discriminate. }
    { split; [simpl; lia|by left]. }
    fold strategy h0 h2 in T, D, A. unfold tail.
    apply (Htail (activity_staged kd ka)).
    { intros r h Hr A'. apply activity_staged_kept; [|done].
      by apply (record_is_live request Hlive). }
    assert (H3 : trip_staged current_user kt
                   (for_each (req_activities request)
                      (sync_activity now current_user strategy) h2)
                 /\ day_staged kt kd
                      (for_each (req_activities request)
                         (sync_activity now current_user strategy) h2)
                 /\ activity_staged kd ka
                      (for_each (req_activities request)
                         (sync_activity now current_user strategy) h2)).
    { apply (for_each_reaches
               (fun h => trip_staged current_user kt h /\ day_staged kt kd h
                         /\ activity_pending kd ka h)
               (fun h => trip_staged current_user kt h /\ day_staged kt kd h
                         /\ activity_staged kd ka h)
               _ _ z Hz); [| | |done].
      - intros z' h Hz' (T' & D' & A').
        change (try_continue (sync_activity now current_user strategy z') h)
          with (step now current_user strategy (InActivity z') h).
        pose proof (record_is_live request Hlive _ (records_activity _ _ Hz')) as Hd'.
        split; [by apply trip_staged_kept|]. split; [by apply day_staged_kept|].
        destruct (decide (UUID (asd_id z') = Some ka)) as [E|N].
        + destruct (activity_staged_by now current_user strategy kt kd ka z' h Hd' E
                      (Hsame_a z' Hz' E) T' D' A') as [S1 S2].
          split; [lia|right; by split].
        + apply activity_pending_kept; [done|by right|done].
      - intros h (T' & D' & A').
        change (try_continue (sync_activity now current_user strategy z) h)
          with (step now current_user strategy (InActivity z) h).
        pose proof (record_is_live request Hlive _ (records_activity _ _ Hz)) as Hd'.
        split; [by apply trip_staged_kept|]. split; [by apply day_staged_kept|].
        exact (activity_staged_by now current_user strategy kt kd ka z h Hd' HUz
                 (Hsame_a z Hz HUz) T' D' A').
      - intros z' h Hz' (T' & D' & A').
        change (try_continue (sync_activity now current_user strategy z') h)
          with (step now current_user strategy (InActivity z') h).
        pose proof (record_is_live request Hlive _ (records_activity _ _ Hz')) as Hd'.
        split; [by apply trip_staged_kept|]. split; [by apply day_staged_kept|].
        by apply activity_staged_kept. }
    apply H3. }
  destruct Hchain as [(a & Ha & Hp) Ca].
  split; [eauto|].
  intros resp Hok.
  destruct (returned_uploads request db resp Hok) as (_ & _ & E3).
  change (upload now current_user request _) with (tail h2) in E3. lia.
Qed.

End Cascade_call.

(** ** Evaluation of the further properties *)

Section Further_evaluation.
Import Scenario Cases.

(** The provisos, on concrete records and stores. *)
Ltac uuid_text := split; [vm_compute; reflexivity | vm_compute; by eexists].

Ltac accept :=
  split;
  [ uuid_text
  | intros _; split;
    [ intros p Hp; simpl in Hp;
      first [ discriminate | injection Hp as <-; uuid_text ]
    | vm_compute; reflexivity ] ].

Ltac plain := split; [ intros clock0; vm_compute; reflexivity | vm_compute; reflexivity ].

Ltac naive :=
  intros c k x Hx; destruct c; simpl in Hx;
  apply fmap_Some in Hx as (y & Hy & ->);
  first [ apply lookup_singleton_Some in Hy as [_ <-]; reflexivity
        | by rewrite lookup_empty in Hy ].

(** C9, at a new trip, its day, the day's activity and a budget item of
    the trip, sent to an empty store. *)
Lemma cascade_ordering_witness :
  let out := sync alice new_chain empty_db in
  (exists t d, trips out.2 !! key_1 = Some t /\ trip_user_id t = alice
               /\ days out.2 !! key_2 = Some d /\ day_trip_id d = key_1)
  /\ (exists a, activities out.2 !! key_3 = Some a /\ act_day_id a = key_2)
  /\ (exists resp, out.1 = Ok resp /\ 1 <= trips_uploaded resp
                   /\ 1 <= days_uploaded resp /\ 1 <= activities_uploaded resp).
Proof.
  destruct (cascade_ordering (H := cpython) clock alice new_chain empty_db key_1 key_2
              (trip_patch "2024-06-15T11:00:00" (Some "Rome"))
              (day_patch "2024-06-15T11:00:00" (Some "Arrival")))
    as (P1 & P2 & P3 & P4).
  - unfold records; simpl; repeat (apply List.Forall_cons; [accept|]); apply List.Forall_nil.
  - unfold records; simpl; repeat (apply List.Forall_cons; [reflexivity|]); apply List.Forall_nil.
  - reflexivity.
  - reflexivity.
  - apply list_elem_of_here.
  - vm_compute. reflexivity.
  - apply list_elem_of_here.
  - vm_compute. reflexivity.
  - intros y' Hy' _. apply list_elem_of_singleton in Hy' as ->. vm_compute. reflexivity.
  - destruct (P4 activity_at_nine key_3) as [Pa Pc].
    + apply list_elem_of_here.
    + vm_compute. reflexivity.
    + reflexivity.
    + intros z' Hz' _. apply list_elem_of_singleton in Hz' as ->. vm_compute. reflexivity.
    + destruct (P3 eq_refl) as [resp Hok].
      split; [exact P1|]. split; [exact Pa|].
      exists resp. split; [exact Hok|].
      destruct (P2 resp Hok). split; [done|]. split; [done|]. by apply Pc.
Defined.

(** X1, at Alice's newer edit of her day. *)
Lemma accepted_write_is_a_sparse_patch_witness :
  let h := start db in
  let h' := step (H := cpython) clock alice newer_wins newer_day_edit h in
  h' = mk_HState (session_overwrite (H := cpython) clock newer_day_edit key_2 (h_session h))
         (incr_uploaded newer_day_edit (h_response h)) (h_conflicts h)
  /\ owner_of (h_session h') newer_day_edit key_2 = Some alice
  /\ stored_updated_at (h_session h') newer_day_edit key_2
     = Some (_parse_timestamp (H := cpython) clock (incoming_updated_at newer_day_edit)).
Proof.
  apply (accepted_write_is_a_sparse_patch (H := cpython) clock alice newer_wins
           newer_day_edit (start db) key_2 noon); vm_compute; reflexivity.
Defined.

(** X2, at Alice's edit of her trip with [preferences]. *)
Lemma trip_patch_with_preferences_is_cut_short_witness :
  let h := start db in
  let h' := step (H := cpython) clock alice newer_wins
              (InTrip trip_patch_with_preferences) h in
  trips (h_session h') !! key_1 = Some (half_written_trip trip_patch_with_preferences paris)
  /\ (forall k', k' <> key_1 -> trips (h_session h') !! k' = trips (h_session h) !! k')
  /\ h_response h' = h_response h
  /\ h_conflicts h' = h_conflicts h.
Proof.
  apply (trip_patch_with_preferences_is_cut_short (H := cpython) clock alice newer_wins
           trip_patch_with_preferences (start db) key_1 paris);
    first [ vm_compute; reflexivity | by eexists ].
Defined.

(** X3, at a trip and a tombstone of a note whose ids are not UUIDs. *)
Lemma malformed_ids_are_as_if_not_sent_witness :
  sync alice garbled db
  = sync alice (mk_SyncRequest None client_wins [] [] [] [] []) db.
Proof.
  apply (malformed_ids_are_as_if_not_sent (H := cpython) clock alice garbled db).
  unfold records; simpl; repeat (apply List.Forall_cons; [reflexivity|]); apply List.Forall_nil.
Defined.

(** X4, at an edit whose timestamp cannot be read. *)
Lemma client_wins_always_applies_witness :
  step (H := cpython) clock alice client_wins unstamped_trip_edit (start db)
  = mk_HState (session_overwrite (H := cpython) clock unstamped_trip_edit key_1 db)
      (incr_uploaded unstamped_trip_edit (h_response (start db))) [].
Proof.
  apply (client_wins_always_applies (H := cpython) clock alice unstamped_trip_edit
           (start db) key_1); vm_compute; reflexivity.
Defined.

(** X5, at the tombstone of Alice's trip. *)
Lemma strategy_is_irrelevant_for_tombstones_and_new_records_witness :
  step (H := cpython) clock alice server_wins (InTrip trip_tombstone) (start db)
  = step (H := cpython) clock alice client_wins (InTrip trip_tombstone) (start db).
Proof.
  apply (strategy_is_irrelevant_for_tombstones_and_new_records (H := cpython) clock
           alice server_wins client_wins (InTrip trip_tombstone) (start db)).
  left. reflexivity.
Defined.

(** X8, at Alice's newer edit of her day, sent again at noon of the next
    year. *)
Lemma resent_patch_changes_nothing_more_witness :
  let later := mk_datetime 2026 1 1 12 0 0 0 None in
  let once := step (H := cpython) clock alice newer_wins newer_day_edit (start db) in
  let twice := step (H := cpython) later alice newer_wins newer_day_edit once in
  h_session twice = h_session once /\ h_response twice = h_response once.
Proof.
  apply (resent_patch_changes_nothing_more (H := cpython) clock alice
           (mk_datetime 2026 1 1 12 0 0 0 None) newer_wins newer_day_edit (start db)
           key_2).
  - by left.
  - reflexivity.
  - vm_compute. reflexivity.
  - vm_compute. reflexivity.
  - accept.
  - plain.
Defined.

(** X9, at Alice's edit of her trip under [server_wins]. *)
Lemma accounting_of_a_call_witness :
  exists resp,
    (sync alice (newer_edit server_wins) db).1 = Ok resp
    /\ conflicts_resolved resp = Z.of_nat (length (conflicts resp))
    /\ trips_uploaded resp + conflicts_resolved resp <= 1.
Proof.
  eexists. split; [vm_compute; reflexivity|].
  match goal with |- context [conflicts_resolved ?r] =>
    destruct (accounting_of_a_call (H := cpython) clock alice (newer_edit server_wins)
                db r) as (E & _ & _ & L & _)
  end; [vm_compute; reflexivity|].
  split; [exact E|exact L].
Defined.

(** X10, at Bob's trip after a call of Alice's. *)
Lemma nothing_is_planted_witness :
  owner shared_db KTrip key_9 = Some bob
  /\ row (sync alice (newer_edit client_wins) shared_db).2 KTrip key_9
     = row shared_db KTrip key_9.
Proof.
  apply (nothing_is_planted (H := cpython) clock alice (newer_edit client_wins)
           shared_db KTrip key_9 bob); [unfold alice, bob; lia|vm_compute; reflexivity].
Defined.

(** X11, at the removal of Alice's trip, which takes her day and its
    activity with it. *)
Lemma no_orphans_is_kept_witness :
  no_orphans db /\ no_orphans (sync alice removal db).2.
Proof.
  assert (Hdb : no_orphans db).
  { unfold no_orphans, db. simpl. repeat split; intros k x Hx.
    - apply lookup_singleton_Some in Hx as [_ <-]. vm_compute. by eexists.
    - apply lookup_singleton_Some in Hx as [_ <-]. vm_compute. by eexists.
    - by rewrite lookup_empty in Hx.
    - by rewrite lookup_empty in Hx. }
  split; [exact Hdb|].
  exact (no_orphans_is_kept (H := cpython) clock alice removal db Hdb).
Defined.

(** X12, at Alice's newer edit of her day. *)
Lemma record_touches_one_row_witness :
  let s := h_session (start db) in
  let s' := h_session (step (H := cpython) clock alice newer_wins newer_day_edit
                         (start db)) in
  (forall c k, c <> kind_of newer_day_edit
               \/ UUID (PyLib := cpython) (incoming_id newer_day_edit) <> Some k ->
               row s' c k = row s c k)
  /\ (forall c k, is_Some (row s c k) -> is_Some (row s' c k)).
Proof.
  apply (record_touches_one_row (H := cpython) clock alice newer_wins newer_day_edit
           (start db)). reflexivity.
Defined.

(** X13, at the tombstone of Alice's trip. *)
Lemma tombstone_only_removes_witness :
  let s := h_session (start db) in
  let s' := h_session (step (H := cpython) clock alice newer_wins (InTrip trip_tombstone)
                         (start db)) in
  (forall c k x, row s' c k = Some x -> row s c k = Some x)
  /\ (forall c k x, row s c k = Some x -> row s' c k = None -> owner s c k = Some alice).
Proof.
  apply (tombstone_only_removes (H := cpython) clock alice newer_wins
           (InTrip trip_tombstone) (start db)). reflexivity.
Defined.

(** X14, at Alice's newer edit of her trip. *)
Lemma timestamps_never_go_back_witness :
  exists x', row (sync alice (newer_edit newer_wins) db).2 KTrip key_1 = Some x'
    /\ (row_updated_at x' = noon \/ Datetime.gt (row_updated_at x') noon = Ok true).
Proof.
  apply (timestamps_never_go_back (H := cpython) clock alice (newer_edit newer_wins) db
           KTrip key_1 (RTrip paris)).
  - left. reflexivity.
  - repeat constructor.
  - vm_compute. reflexivity.
Defined.

(** X16, at the response to Alice's edit, sent back with her next poll. *)
Lemma response_timestamp_is_the_next_watermark_witness :
  exists resp,
    (sync alice (newer_edit newer_wins) db).1 = Ok resp
    /\ sync_timestamp resp = Datetime.isoformat clock
    /\ parse_last_sync (H := cpython) noon
         (with_watermark (Some (sync_timestamp resp)) poll) = Some clock.
Proof.
  eexists. split; [vm_compute; reflexivity|].
  match goal with |- sync_timestamp ?r = _ /\ _ =>
    apply (response_timestamp_is_the_next_watermark (H := cpython) clock alice noon
             (newer_edit newer_wins) poll db r)
  end; vm_compute; reflexivity.
Defined.

(** X17, at the day a client got from a download and sends back. *)
Lemma echoed_download_changes_nothing_witness :
  step (H := cpython) clock alice newer_wins echoed_day (start db) = start db.
Proof.
  apply (echoed_download_changes_nothing (H := cpython) clock alice newer_wins
           echoed_day (start db) key_2).
  - discriminate.
  - vm_compute. reflexivity.
  - intros ts Hts. vm_compute in Hts. injection Hts as <-. vm_compute. reflexivity.
  - reflexivity.
  - vm_compute. reflexivity.
  - exists day_one. repeat split; vm_compute; reflexivity.
Defined.

(** X15, at Alice's edit of her day sent with a watermark older than her
    trip. *)
Lemma call_fails_exactly_when_a_trip_is_due_witness :
  let out := sync alice poll_with_edit db in
  ((exists e, out.1 = Raise e)
   <-> exists ls k t,
         parse_last_sync (H := cpython) clock poll_with_edit = Some ls
         /\ trips out.2 !! k = Some t /\ trip_user_id t = alice
         /\ Session.sql_gt (trip_local_updated_at t) ls = true)
  /\ (forall e, out.1 = Raise e -> e = AttributeError)
  /\ out.2 = (sync alice (with_watermark None poll_with_edit) db).2
  /\ naive_store out.2.
Proof.
  apply (call_fails_exactly_when_a_trip_is_due (H := cpython) clock alice
           poll_with_edit db).
  - unfold records; simpl; repeat (apply List.Forall_cons; [accept|]); apply List.Forall_nil.
  - unfold records; simpl; repeat (apply List.Forall_cons; [plain|]); apply List.Forall_nil.
  - naive.
  - intros ls Hls. vm_compute in Hls. injection Hls as <-. reflexivity.
Defined.

(** X18, at the same request when the trip is older than the
    watermark. *)
Lemma returned_download_is_the_delta_witness :
  exists resp,
    (sync alice poll_with_edit settled_db).1 = Ok resp
    /\ naive_store (sync alice poll_with_edit settled_db).2
    /\ sd_trips (server_data resp) = [] /\ trips_downloaded resp = 0
    /\ exists l, NoDup l
         /\ sd_days (server_data resp) = map _serialize_day l
         /\ days_downloaded resp = Z.of_nat (length l).
Proof.
  eexists. split; [vm_compute; reflexivity|].
  match goal with |- _ /\ sd_trips (server_data ?r) = _ /\ _ =>
    destruct (returned_download_is_the_delta (H := cpython) clock alice poll_with_edit
                settled_db (mk_datetime 2024 6 1 0 0 0 0 None) r)
      as (N & (T1 & T2 & _) & (l & Hl & D1 & D2 & _) & _)
  end.
  - unfold records; simpl; repeat (apply List.Forall_cons; [accept|]); apply List.Forall_nil.
  - unfold records; simpl; repeat (apply List.Forall_cons; [plain|]); apply List.Forall_nil.
  - naive.
  - vm_compute. reflexivity.
  - reflexivity.
  - vm_compute. reflexivity.
  - split; [exact N|]. split; [exact T1|]. split; [exact T2|]. exists l. by repeat split.
Defined.

End Further_evaluation.
